(** * The loop hierarchy of pytorch_lightning/loops

    A shallow embedding of [loops/base.py], [loops/fit_loop.py] and
    [loops/evaluation_loop.py].

    - Python integers are [Z]; [Optional[int]] is [option Z].
    - A method is a computation in a state-and-exception monad over a
      [World]: the loop object itself ([self]), the objects it shares with
      its collaborators ([env]: the trainer, the child training-epoch loop,
      the dataloader iterator) and the sequence of collaborator calls made so
      far ([trace]).  A raised exception keeps the state reached when it was
      raised, as in Python.
    - Collaborators whose code is outside these three files (hooks, logger,
      profiler, accelerator, checkpoint callbacks, the child loop's [run])
      are calls to an [oracle], a parameter of the development: a call is
      recorded in the trace, may change [env] and answers with a value or an
      exception.  They cannot reach the attributes stored in [self].
    - [while not self.done] is unrolled by a fuel argument.
    - [connect] only stores the trainer reference; here a loop always has
      its [env]. *)

From Stdlib Require Import ZArith List String Bool Lia.
Import ListNotations.

Open Scope string_scope.
Open Scope list_scope.
Open Scope Z_scope.

Set Warnings "-register-all".

(** ** Python values, exceptions *)

Inductive value : Type :=
| VNone
| VBool (b : bool)
| VInt (z : Z)
| VStr (s : string)
| VObj (id : nat)                   (* an object we know nothing about *)
| VResultCollection (id : nat)      (* an instance of ResultCollection *)
| VList (items : list value).

Definition is_None (v : value) : bool :=
  match v with VNone => true | _ => false end.

(** Python truthiness, for the values that occur in conditions. *)
Definition truthy (v : value) : bool :=
  match v with
  | VNone => false
  | VBool b => b
  | VInt z => negb (z =? 0)
  | VStr s => negb (String.eqb s "")
  | VObj _ => true
  | VResultCollection _ => true
  | VList l => match l with [] => false | _ => true end
  end.

Inductive exn : Type :=
| StopIteration
| TypeError
| AssertionError
| RuntimeError (msg : string)
| KeyboardInterrupt.                (* a BaseException that is no Exception *)

(** [isinstance(e, Exception)], what [suppress(Exception)] catches. *)
Definition is_Exception (e : exn) : bool :=
  match e with KeyboardInterrupt => false | _ => true end.

Inductive outcome (A : Type) : Type :=
| Ret (a : A)
| Raise (e : exn).
Arguments Ret {A} a.
Arguments Raise {A} e.

(** ** The objects shared with the collaborators *)

Record Callback : Type := mkCallback {
  cb_id : nat;
  save_last : bool;
  verbose : bool
}.

(** [trainer.num_training_batches] is an int or [float('inf')]. *)
Inductive num_batches : Type :=
| Batches (n : Z)
| InfBatches.

Definition is_zero_batches (n : num_batches) : bool :=
  match n with Batches z => z =? 0 | InfBatches => false end.

Record TensorRunningAccum : Type := mkAccum {
  window_length : Z;
  memory : list value
}.

(** Modelled from the spec: [TrainingEpochLoop] (loops/training_epoch_loop.py)
    is not among the sources.  The fit loop reads and writes these attributes
    of its child: the spec lists [global_step], [min_steps] and [max_steps] as
    read-through proxies onto the child, [batches_seen] is read by
    [on_advance_end], and [batch_loop.accumulated_loss] is assigned by
    [on_advance_start]. *)
Record TrainingEpochLoop : Type := mkTrainingEpochLoop {
  tl_global_step : Z;
  tl_min_steps : option Z;
  tl_max_steps : option Z;
  batches_seen : Z;
  accumulated_loss : option TensorRunningAccum
}.

(** The attributes of the trainer that the loops read or write. *)
Record Trainer : Type := mkTrainer {
  should_stop : bool;
  testing : bool;
  global_rank : Z;
  world_size : Z;
  num_training_batches : num_batches;
  disable_validation : bool;
  reload_dataloaders_every_epoch : bool;
  accumulate_grad_batches : Z;
  has_trained : bool;                 (* checkpoint_connector.has_trained *)
  checkpoint_callbacks : list Callback;
  logger : option nat;
  _running_stage : option string
}.

Record Env : Type := mkEnv {
  trainer : Trainer;
  training_loop : TrainingEpochLoop;
  dataloader_iter : list (Z * value);  (* what the iterator still yields *)
  store : list value                   (* everything else the collaborators keep *)
}.

(** Calls that leave the three files. *)
Inductive Collab : Type :=
| LogStopDeferred (min_epochs min_steps : option Z)   (* the log.info of FitLoop.done *)
| RankZeroInfo (msg : string)
| ResultsToDevice
| CallHook (name : string) (args : list value)
| ResetTrainDataloader
| SamplerSetEpoch (epoch : Z)
| AccumulationSchedulerOnTrainEpochStart
| LoggerConnectorOnEpochStart
| ProcessDataloader
| GetProfiledTrainDataloader
| ProfileEnter (name : string)
| ProfileExit (name : string)
| TrainingLoopRun
| UpdateTrainEpochMetrics
| UpdateLrSchedulers (interval : string)
| ShouldSkipEvaluation
| CheckpointOnValidationEnd (cb : Callback)
| LoggerFinalize (status : string)
| ProfilerDescribe
| AcceleratorOnTrainEnd
| LoggerConnectorOnBatchStart
| LoggerConnectorOnEvaluationBatchStart
    (batch : value) (batch_idx dataloader_idx num_dataloaders : Z)
| SetCurrentFxName (name : string)
| AcceleratorTestStep (step_kwargs : list (string * value))
| AcceleratorValidationStep (step_kwargs : list (string * value))
| LoggerConnectorOnBatchEnd
| OutputPop (output : value) (key : string)
| PredictionsAdd (v : value)
| TrackEvalLossHistory (batch_idx dataloader_idx : Z) (output : value)
| UpdateEvalStepMetrics
| TrackOutputForEpochEnd (outputs output : value).

Definition Oracle : Type := Collab -> Env -> outcome value * Env.

(** ** The state-and-exception monad *)

Record World (P : Type) : Type := mkWorld {
  self : P;
  env : Env;
  trace : list Collab
}.
Arguments mkWorld {P} self env trace.
Arguments self {P} w.
Arguments env {P} w.
Arguments trace {P} w.

Definition M (P A : Type) : Type := World P -> outcome A * World P.

Definition ret {P A} (a : A) : M P A := fun w => (Ret a, w).

Definition bind {P A B} (m : M P A) (k : A -> M P B) : M P B :=
  fun w =>
    match m w with
    | (Ret a, w') => k a w'
    | (Raise e, w') => (Raise e, w')
    end.

Definition raise {P A} (e : exn) : M P A := fun w => (Raise e, w).

Definition get {P} : M P (World P) := fun w => (Ret w, w).

Definition modify_self {P} (f : P -> P) : M P unit :=
  fun w => (Ret tt, mkWorld (f (self w)) (env w) (trace w)).

Definition modify_env {P} (f : Env -> Env) : M P unit :=
  fun w => (Ret tt, mkWorld (self w) (f (env w)) (trace w)).

(** A call that is only observed (logging). *)
Definition emit {P} (c : Collab) : M P unit :=
  fun w => (Ret tt, mkWorld (self w) (env w) (trace w ++ [c])).

(** A call to a collaborator: recorded, then answered by the oracle. *)
Definition call {P} (oracle : Oracle) (c : Collab) : M P value :=
  fun w =>
    let '(r, e') := oracle c (env w) in
    (r, mkWorld (self w) e' (trace w ++ [c])).

(** [try: m  finally: fin] *)
Definition finally {P A} (m : M P A) (fin : M P unit) : M P A :=
  fun w =>
    match m w with
    | (r, w1) =>
        match fin w1 with
        | (Ret _, w2) => (r, w2)
        | (Raise e, w2) => (Raise e, w2)
        end
    end.

(** [with suppress(Exception): m] *)
Definition suppress_Exception {P} (m : M P unit) : M P unit :=
  fun w =>
    match m w with
    | (Ret _, w1) => (Ret tt, w1)
    | (Raise e, w1) => if is_Exception e then (Ret tt, w1) else (Raise e, w1)
    end.

Declare Scope py_scope.
Delimit Scope py_scope with py.
Notation "x <- m ;; k" := (bind m (fun x => k))
  (at level 100, m at next level, right associativity) : py_scope.
Notation "m ;; k" := (bind m (fun _ => k))
  (at level 100, right associativity) : py_scope.
Open Scope py_scope.

(** [with self.trainer.profiler.profile(name): body]: the region is left
    on every exit of the body. *)
Definition with_profile {P A} (oracle : Oracle) (name : string) (body : M P A)
  : M P A :=
  call oracle (ProfileEnter name) ;;
  finally body (call oracle (ProfileExit name) ;; ret tt).

Fixpoint for_each {P A} (l : list A) (f : A -> M P unit) : M P unit :=
  match l with
  | [] => ret tt
  | x :: l' => f x ;; for_each l' f
  end.

(** Setters for the shared objects. *)
Definition set_should_stop (b : bool) (e : Env) : Env :=
  let t := trainer e in
  mkEnv (mkTrainer b (testing t) (global_rank t) (world_size t)
           (num_training_batches t) (disable_validation t)
           (reload_dataloaders_every_epoch t) (accumulate_grad_batches t)
           (has_trained t) (checkpoint_callbacks t) (logger t) (_running_stage t))
        (training_loop e) (dataloader_iter e) (store e).

Definition set_running_stage (s : option string) (e : Env) : Env :=
  let t := trainer e in
  mkEnv (mkTrainer (should_stop t) (testing t) (global_rank t) (world_size t)
           (num_training_batches t) (disable_validation t)
           (reload_dataloaders_every_epoch t) (accumulate_grad_batches t)
           (has_trained t) (checkpoint_callbacks t) (logger t) s)
        (training_loop e) (dataloader_iter e) (store e).

Definition set_global_step (g : Z) (e : Env) : Env :=
  let l := training_loop e in
  mkEnv (trainer e)
        (mkTrainingEpochLoop g (tl_min_steps l) (tl_max_steps l) (batches_seen l)
           (accumulated_loss l))
        (dataloader_iter e) (store e).

Definition set_accumulated_loss (a : TensorRunningAccum) (e : Env) : Env :=
  let l := training_loop e in
  mkEnv (trainer e)
        (mkTrainingEpochLoop (tl_global_step l) (tl_min_steps l) (tl_max_steps l)
           (batches_seen l) (Some a))
        (dataloader_iter e) (store e).

Definition set_dataloader_iter (it : list (Z * value)) (e : Env) : Env :=
  mkEnv (trainer e) (training_loop e) it (store e).

(** ** loops/base.py *)

Module Loop.

Section Run.
Context {P Args R : Type}.

(** The methods a concrete loop provides or overrides. *)
Record methods : Type := mkMethods {
  get_iteration_count : P -> Z;
  set_iteration_count : Z -> P -> P;
  done : M P bool;
  reset : M P unit;
  on_run_start : Args -> M P unit;
  on_advance_start : Args -> M P unit;
  advance : Args -> M P unit;
  on_advance_end : M P unit;
  on_run_end : M P R;
  increment_iteration : Z -> M P Z
}.

Variable L : methods.

(** The body of the [try] block of [run]. *)
Definition iteration (args : Args) : M P unit :=
  on_advance_start L args ;;
  advance L args ;;
  on_advance_end L ;;
  w <- get ;;
  i <- increment_iteration L (get_iteration_count L (self w)) ;;
  modify_self (set_iteration_count L i).

(** [while not self.done: try: ... except StopIteration: break], then
    [return self.on_run_end()].  [None] when the fuel runs out. *)
Fixpoint run_loop (fuel : nat) (args : Args) (w : World P)
  : option (outcome R * World P) :=
  match fuel with
  | O => None
  | S fuel' =>
      match done L w with
      | (Raise e, w1) => Some (Raise e, w1)
      | (Ret true, w1) => Some (on_run_end L w1)
      | (Ret false, w1) =>
          match iteration args w1 with
          | (Ret _, w2) => run_loop fuel' args w2
          | (Raise StopIteration, w2) => Some (on_run_end L w2)
          | (Raise e, w2) => Some (Raise e, w2)
          end
      end
  end.

Definition run (fuel : nat) (args : Args) (w : World P)
  : option (outcome R * World P) :=
  match (reset L ;; on_run_start L args) w with
  | (Raise e, w1) => Some (Raise e, w1)
  | (Ret _, w1) => run_loop fuel args w1
  end.
End Run.

Arguments methods : clear implicits.

(** The defaults of the base class. *)
Definition default_on_run_start {P Args} (_ : Args) : M P unit := ret tt.
Definition default_on_advance_start {P Args} (_ : Args) : M P unit := ret tt.
Definition default_on_advance_end {P} : M P unit := ret tt.
Definition default_on_run_end {P} : M P value := ret VNone.
Definition default_increment_iteration {P} (iteration : Z) : M P Z :=
  ret (iteration + 1).

End Loop.

(** ** loops/fit_loop.py *)

Module FitLoop.

(** The attributes a [FitLoop] stores itself.  [training_loop] is the child
    object in [env]; [results] is never read in this file. *)
Record t : Type := mk {
  iteration_count : Z;
  _teardown_already_run : bool;
  max_epochs : option Z;
  min_epochs : option Z
}.

Definition set_iteration_count (i : Z) (l : t) : t :=
  mk i (_teardown_already_run l) (max_epochs l) (min_epochs l).

Definition set_teardown_already_run (b : bool) (l : t) : t :=
  mk (iteration_count l) b (max_epochs l) (min_epochs l).

(** [FitLoop.__init__]: the loop and its child [TrainingEpochLoop(min_steps,
    max_steps)].  Modelled from the spec: the child's constructor is not among
    the sources; it keeps the two bounds, and no optimizer step has been
    counted yet. *)
Definition __init__ (min_epochs max_epochs min_steps max_steps : option Z)
  : t * TrainingEpochLoop :=
  (mk 0 false
      (match max_epochs, max_steps with
       | None, None => Some 1000
       | _, _ => max_epochs
       end)
      (match min_epochs, min_steps with
       | None, None => Some 1
       | _, _ => min_epochs
       end),
   mkTrainingEpochLoop 0 min_steps max_steps 0 None).

(** Properties. *)
Definition current_epoch (w : World t) : Z := iteration_count (self w).
Definition global_step (w : World t) : Z := tl_global_step (training_loop (env w)).
Definition min_steps (w : World t) : option Z := tl_min_steps (training_loop (env w)).
Definition max_steps (w : World t) : option Z := tl_max_steps (training_loop (env w)).

(** [bound is not None and counter >= bound] *)
Definition reached (counter : Z) (bound : option Z) : bool :=
  match bound with
  | Some b => counter >=? b
  | None => false
  end.

(** [counter >= bound if bound else True]: [None] and [0] are falsy. *)
Definition met_min (counter : Z) (bound : option Z) : bool :=
  match bound with
  | Some b => if b =? 0 then true else counter >=? b
  | None => true
  end.

Definition done : M t bool :=
  w <- get ;;
  let stop_steps := reached (global_step w) (max_steps w) in
  let stop_epochs := reached (current_epoch w) (max_epochs (self w)) in
  should_stop_ <-
    (if should_stop (trainer (env w)) then
       let met_min_epochs := met_min (current_epoch w) (min_epochs (self w)) in
       let met_min_steps := met_min (global_step w) (min_steps w) in
       if met_min_epochs && met_min_steps then ret true
       else
         emit (LogStopDeferred (min_epochs (self w)) (min_steps w)) ;;
         modify_env (set_should_stop false) ;;
         ret false
     else ret false) ;;
  ret (stop_steps || should_stop_ || stop_epochs).

Definition reset : M t unit :=
  modify_self (set_iteration_count 0).

Definition _should_skip_training : M t bool :=
  d <- done ;;
  if d then ret true
  else
    w <- get ;;
    ret (is_zero_batches (num_training_batches (trainer (env w)))).

Section Methods.
Variable oracle : Oracle.

Definition check_checkpoint_callback (should_update is_last : bool) : M t unit :=
  w <- get ;;
  if should_update && has_trained (trainer (env w)) then
    let callbacks := checkpoint_callbacks (trainer (env w)) in
    (if is_last && existsb (fun cb => save_last cb && verbose cb) callbacks
     then emit (RankZeroInfo "Saving latest checkpoint...")
     else ret tt) ;;
    for_each callbacks
      (fun cb => call oracle (CheckpointOnValidationEnd cb) ;; ret tt)
  else ret tt.

Definition on_run_start (_ : unit) : M t unit :=
  call oracle ResultsToDevice ;;
  call oracle (CallHook "on_train_start" []) ;;
  ret tt.

Definition on_advance_start (_ : unit) : M t unit :=
  w <- get ;;
  (if negb (current_epoch w =? 0)
      && reload_dataloaders_every_epoch (trainer (env w))
   then call oracle ResetTrainDataloader ;; ret tt
   else ret tt) ;;
  suppress_Exception
    (w <- get ;; call oracle (SamplerSetEpoch (current_epoch w)) ;; ret tt) ;;
  call oracle AccumulationSchedulerOnTrainEpochStart ;;
  w <- get ;;
  modify_env
    (set_accumulated_loss (mkAccum (accumulate_grad_batches (trainer (env w))) [])) ;;
  call oracle LoggerConnectorOnEpochStart ;;
  call oracle (CallHook "on_epoch_start" []) ;;
  call oracle (CallHook "on_train_epoch_start" []) ;;
  ret tt.

Definition advance (_ : unit) : M t unit :=
  call oracle ProcessDataloader ;;
  call oracle GetProfiledTrainDataloader ;;
  with_profile oracle "run_training_epoch"
    (epoch_output <- call oracle TrainingLoopRun ;;
     if is_None epoch_output then ret tt
     else
       w <- get ;;
       modify_env (set_global_step (global_step w - 1)) ;;
       call oracle UpdateTrainEpochMetrics ;;
       w <- get ;;
       modify_env (set_global_step (global_step w + 1))).

Definition on_advance_end : M t unit :=
  w <- get ;;
  if batches_seen (training_loop (env w)) =? 0 then ret tt
  else
    call oracle (UpdateLrSchedulers "epoch") ;;
    w <- get ;;
    did_train_only <-
      (if disable_validation (trainer (env w)) then ret true
       else v <- call oracle ShouldSkipEvaluation ;; ret (truthy v)) ;;
    if did_train_only then
      w <- get ;;
      modify_env (set_global_step (global_step w - 1)) ;;
      check_checkpoint_callback true false ;;
      w <- get ;;
      modify_env (set_global_step (global_step w + 1))
    else ret tt.

Definition on_run_end : M t value :=
  w <- get ;;
  if _teardown_already_run (self w) then ret VNone
  else
    modify_self (set_teardown_already_run true) ;;
    w <- get ;;
    modify_self (set_iteration_count (current_epoch w - 1)) ;;
    w <- get ;;
    modify_env (set_global_step (global_step w - 1)) ;;
    check_checkpoint_callback true true ;;
    w <- get ;;
    modify_env (set_global_step (global_step w + 1)) ;;
    call oracle (CallHook "on_train_end" []) ;;
    w <- get ;;
    (match logger (trainer (env w)) with
     | Some _ => call oracle (LoggerFinalize "success") ;; ret tt
     | None => ret tt
     end) ;;
    call oracle ProfilerDescribe ;;
    call oracle AcceleratorOnTrainEnd ;;
    modify_env (set_running_stage None) ;;
    ret VNone.

Definition methods : Loop.methods t unit value :=
  Loop.mkMethods
    iteration_count set_iteration_count
    done reset on_run_start on_advance_start advance on_advance_end
    on_run_end Loop.default_increment_iteration.

(** [if not self._should_skip_training(): return super().run()] *)
Definition run (fuel : nat) (w : World t) : option (outcome value * World t) :=
  match _should_skip_training w with
  | (Raise e, w1) => Some (Raise e, w1)
  | (Ret true, w1) => Some (Ret VNone, w1)
  | (Ret false, w1) => Loop.run methods fuel tt w1
  end.

(** [n] calls of [on_run_end] in a row, whatever each of them answers. *)
Fixpoint on_run_end_times (n : nat) (w : World t) : World t :=
  match n with
  | O => w
  | S n' => on_run_end_times n' (snd (on_run_end w))
  end.
End Methods.

End FitLoop.

(** ** loops/evaluation_loop.py *)

Module EvaluationLoop.

(** Modelled from the spec: [PredictionCollection] (trainer/supporters.py) is
    not among the sources; it is a collection keyed by rank and world size,
    created empty.  What is added to it is a collaborator call. *)
Record PredictionCollection : Type := mkPredictionCollection {
  pc_global_rank : Z;
  pc_world_size : Z
}.

Record t : Type := mk {
  iteration_count : Z;
  predictions : option PredictionCollection;
  dataloader : value;
  dl_max_batches : option Z;
  dataloader_idx : option Z;
  num_dataloaders : option Z;
  outputs : value
}.

(** [EvaluationLoop.__init__] *)
Definition __init__ : t := mk 0 None VNone None None None (VList []).

Definition set_iteration_count (i : Z) (l : t) : t :=
  mk i (predictions l) (dataloader l) (dl_max_batches l) (dataloader_idx l)
     (num_dataloaders l) (outputs l).
Definition set_predictions (p : option PredictionCollection) (l : t) : t :=
  mk (iteration_count l) p (dataloader l) (dl_max_batches l) (dataloader_idx l)
     (num_dataloaders l) (outputs l).
Definition set_dl_max_batches (m : option Z) (l : t) : t :=
  mk (iteration_count l) (predictions l) (dataloader l) m (dataloader_idx l)
     (num_dataloaders l) (outputs l).
Definition set_dataloader_idx (d : option Z) (l : t) : t :=
  mk (iteration_count l) (predictions l) (dataloader l) (dl_max_batches l) d
     (num_dataloaders l) (outputs l).
Definition set_num_dataloaders (n : option Z) (l : t) : t :=
  mk (iteration_count l) (predictions l) (dataloader l) (dl_max_batches l)
     (dataloader_idx l) n (outputs l).
Definition set_outputs (o : value) (l : t) : t :=
  mk (iteration_count l) (predictions l) (dataloader l) (dl_max_batches l)
     (dataloader_idx l) (num_dataloaders l) o.

(** The positional arguments of [run] other than the iterator, which is the
    shared object [dataloader_iter] of [env]. *)
Record args : Type := mkArgs {
  arg_dataloader_idx : Z;
  arg_dl_max_batches : Z;
  arg_num_dataloaders : Z
}.

(** [d[key] = v] on an [OrderedDict]. *)
Fixpoint odict_set (d : list (string * value)) (key : string) (v : value)
  : list (string * value) :=
  match d with
  | [] => [(key, v)]
  | (k, x) :: d' =>
      if String.eqb k key then (k, v) :: d' else (k, x) :: odict_set d' key v
  end.

Fixpoint odict_get (d : list (string * value)) (key : string) : option value :=
  match d with
  | [] => None
  | (k, x) :: d' => if String.eqb k key then Some x else odict_get d' key
  end.

(** [n > 1] for an [Optional[int]]: comparing [None] raises. *)
Definition gt_one {P} (n : option Z) : M P bool :=
  match n with
  | Some z => ret (z >? 1)
  | None => raise TypeError
  end.

Definition done : M t bool :=
  w <- get ;;
  match dl_max_batches (self w) with
  | Some m => ret (iteration_count (self w) >=? m)
  | None => raise TypeError
  end.

Definition reset : M t unit :=
  modify_self (set_iteration_count 0) ;;
  w <- get ;;
  modify_self
    (set_predictions
       (Some (mkPredictionCollection (global_rank (trainer (env w)))
                                     (world_size (trainer (env w)))))) ;;
  modify_self (set_dl_max_batches None) ;;
  modify_self (set_dataloader_idx None) ;;
  modify_self (set_num_dataloaders None) ;;
  modify_self (set_outputs (VList [])).

Definition on_run_start (a : args) : M t unit :=
  modify_self (set_dl_max_batches (Some (arg_dl_max_batches a))) ;;
  modify_self (set_dataloader_idx (Some (arg_dataloader_idx a))) ;;
  modify_self (set_num_dataloaders (Some (arg_num_dataloaders a))).

Definition on_run_end : M t value :=
  w <- get ;;
  ret (outputs (self w)).

Definition _build_kwargs (batch : value) (batch_idx dataloader_idx : Z)
  : M t (list (string * value)) :=
  let step_kwargs := [("batch", batch); ("batch_idx", VInt batch_idx)] in
  w <- get ;;
  multiple_val_loaders <-
    (if negb (testing (trainer (env w))) then gt_one (num_dataloaders (self w))
     else ret false) ;;
  multiple_test_loaders <-
    (if testing (trainer (env w)) then gt_one (num_dataloaders (self w))
     else ret false) ;;
  if multiple_test_loaders || multiple_val_loaders then
    ret (odict_set step_kwargs "dataloader_idx" (VInt dataloader_idx))
  else ret step_kwargs.

Definition is_ResultCollection (v : value) : bool :=
  match v with VResultCollection _ => true | _ => false end.

Section Methods.
Variable oracle : Oracle.

Definition evaluation_step (batch : value) (batch_idx dataloader_idx : Z)
  : M t value :=
  step_kwargs <- _build_kwargs batch batch_idx dataloader_idx ;;
  w <- get ;;
  if testing (trainer (env w)) then
    emit (SetCurrentFxName "test_step") ;;
    with_profile oracle "test_step" (call oracle (AcceleratorTestStep step_kwargs))
  else
    emit (SetCurrentFxName "validation_step") ;;
    with_profile oracle "validation_step"
      (call oracle (AcceleratorValidationStep step_kwargs)).

Definition evaluation_step_end (output : value) : M t value :=
  w <- get ;;
  if testing (trainer (env w)) then call oracle (CallHook "test_step_end" [output])
  else call oracle (CallHook "validation_step_end" [output]).

Definition on_evaluation_batch_start (batch : value) (batch_idx dataloader_idx : Z)
  : M t unit :=
  call oracle LoggerConnectorOnBatchStart ;;
  w <- get ;;
  match num_dataloaders (self w) with
  | None => raise AssertionError
  | Some n =>
      call oracle (LoggerConnectorOnEvaluationBatchStart batch batch_idx dataloader_idx n) ;;
      w <- get ;;
      (if testing (trainer (env w)) then
         call oracle (CallHook "on_test_batch_start"
                        [batch; VInt batch_idx; VInt dataloader_idx])
       else
         call oracle (CallHook "on_validation_batch_start"
                        [batch; VInt batch_idx; VInt dataloader_idx])) ;;
      ret tt
  end.

Definition store_predictions (output : value) (batch_idx dataloader_idx : Z)
  : M t unit :=
  w <- get ;;
  (if negb (is_None output)
      && match predictions (self w) with Some _ => true | None => false end
   then
     if is_ResultCollection output && testing (trainer (env w)) then
       v <- call oracle (OutputPop output "predictions") ;;
       call oracle (PredictionsAdd v) ;;
       ret tt
     else ret tt
   else ret tt) ;;
  call oracle (TrackEvalLossHistory batch_idx dataloader_idx output) ;;
  ret tt.

Definition on_evaluation_batch_end
  (output batch : value) (batch_idx dataloader_idx : Z) : M t unit :=
  w <- get ;;
  (if testing (trainer (env w)) then
     call oracle (CallHook "on_test_batch_end"
                    [output; batch; VInt batch_idx; VInt dataloader_idx])
   else
     call oracle (CallHook "on_validation_batch_end"
                    [output; batch; VInt batch_idx; VInt dataloader_idx])) ;;
  call oracle LoggerConnectorOnBatchEnd ;;
  store_predictions output batch_idx dataloader_idx.

Definition advance (a : args) : M t unit :=
  w <- get ;;
  match dataloader_iter (env w) with
  | [] => raise StopIteration           (* next() on an exhausted iterator *)
  | (batch_idx, batch) :: rest =>
      modify_env (set_dataloader_iter rest) ;;
      if is_None batch then raise StopIteration
      else
        on_evaluation_batch_start batch batch_idx (arg_dataloader_idx a) ;;
        output <-
          with_profile oracle "evaluation_step_and_end"
            (output <- evaluation_step batch batch_idx (arg_dataloader_idx a) ;;
             evaluation_step_end output) ;;
        on_evaluation_batch_end output batch batch_idx (arg_dataloader_idx a) ;;
        call oracle UpdateEvalStepMetrics ;;
        w <- get ;;
        outs <- call oracle (TrackOutputForEpochEnd (outputs (self w)) output) ;;
        modify_self (set_outputs outs)
  end.

Definition methods : Loop.methods t args value :=
  Loop.mkMethods
    iteration_count set_iteration_count
    done reset on_run_start Loop.default_on_advance_start advance
    Loop.default_on_advance_end on_run_end Loop.default_increment_iteration.

Definition run (fuel : nat) (a : args) (w : World t)
  : option (outcome value * World t) :=
  Loop.run methods fuel a w.
End Methods.

End EvaluationLoop.

(** ** Concrete trainers, loops and collaborators used as examples *)

Module Examples.

Definition trainer_with (stop test : bool) (batches : num_batches) : Trainer :=
  mkTrainer stop test 0 1 batches false false 1 false [] None (Some "fit").

Definition a_trainer (stop : bool) : Trainer := trainer_with stop false (Batches 10).

Definition fit_world (l : FitLoop.t * TrainingEpochLoop) (tr : Trainer)
  : World FitLoop.t :=
  mkWorld (fst l) (mkEnv tr (snd l) [] []) [].

(** [FitLoop(min_epochs=5)] at epoch [epoch], asked to stop. *)
Definition stop_at_epoch (epoch : Z) : World FitLoop.t :=
  let w := fit_world (FitLoop.__init__ (Some 5) None None None) (a_trainer true) in
  mkWorld (FitLoop.set_iteration_count epoch (self w)) (env w) (trace w).

(** [FitLoop(min_epochs=5, max_steps=10)] after the first epoch has taken the
    tenth optimizer step, asked to stop. *)
Definition stop_at_max_steps : World FitLoop.t :=
  let w := fit_world (FitLoop.__init__ (Some 5) None None (Some 10)) (a_trainer true) in
  mkWorld (FitLoop.set_iteration_count 1 (self w)) (set_global_step 10 (env w)) (trace w).


(** [FitLoop(max_steps=10)], newly constructed. *)
Definition fresh_max_steps : World FitLoop.t :=
  fit_world (FitLoop.__init__ None None None (Some 10)) (a_trainer false).

(** The same loop after a run of three epochs that took ten optimizer steps. *)
Definition used_max_steps : World FitLoop.t :=
  mkWorld (FitLoop.set_iteration_count 3 (self fresh_max_steps))
          (set_global_step 10 (env fresh_max_steps)) (trace fresh_max_steps).

(** [FitLoop()] with a trainer that has no training batches. *)
Definition no_batches : World FitLoop.t :=
  fit_world (FitLoop.__init__ None None None None) (trainer_with false false (Batches 0)).

(** [FitLoop(min_epochs=1, max_epochs=3)], connected. *)
Definition three_epochs : World FitLoop.t :=
  fit_world (FitLoop.__init__ (Some 1) (Some 3) None None) (a_trainer false).

(** An evaluation loop in its first batch, with [n] dataloaders. *)
Definition eval_world (test : bool) (n : Z) (it : list (Z * value))
  : World EvaluationLoop.t :=
  mkWorld
    (EvaluationLoop.set_num_dataloaders (Some n)
       (EvaluationLoop.set_dl_max_batches (Some 5) EvaluationLoop.__init__))
    (mkEnv (trainer_with false test (Batches 10))
           (snd (FitLoop.__init__ None None None None)) it [])
    [].

(** Collaborators that change nothing and answer [None], except that every
    training epoch produces a result. *)
Definition training : Oracle :=
  fun c e =>
    match c with
    | TrainingLoopRun => (Ret (VObj 0), e)
    | _ => (Ret VNone, e)
    end.

(** Collaborators of an evaluation: every step answers with an object and
    the outputs are collected one after the other. *)
Definition evaluating : Oracle :=
  fun c e =>
    match c with
    | AcceleratorTestStep _ => (Ret (VObj 42), e)
    | AcceleratorValidationStep _ => (Ret (VObj 42), e)
    | CallHook "test_step_end" [output] => (Ret output, e)
    | CallHook "validation_step_end" [output] => (Ret output, e)
    | TrackOutputForEpochEnd (VList outs) output => (Ret (VList (outs ++ [output])), e)
    | _ => (Ret VNone, e)
    end.

(** An evaluation loop before [run], with an iterator that yields one batch
    and then [None]; a run over at most five batches of the only dataloader. *)
Definition eval_short_iterator : World EvaluationLoop.t :=
  mkWorld EvaluationLoop.__init__
    (mkEnv (trainer_with false true (Batches 10))
           (snd (FitLoop.__init__ None None None None))
           [(0, VObj 1); (1, VNone); (2, VObj 3)] [])
    [].

Definition five_batches : EvaluationLoop.args := EvaluationLoop.mkArgs 0 5 1.

End Examples.

(** ** Reading the bounds *)

(** A minimum is met when the bound is unset, is zero, or is at most the
    counter. *)
Definition min_satisfied (counter : Z) (bound : option Z) : Prop :=
  forall b, bound = Some b -> b <> 0 -> b <= counter.

(** A maximum is reached when the bound is set and at most the counter. *)
Definition max_reached (counter : Z) (bound : option Z) : Prop :=
  exists b, bound = Some b /\ b <= counter.



(** The world in which [FitLoop.done] defers a stop request. *)
Definition deferred (w : World FitLoop.t) : World FitLoop.t :=
  mkWorld (self w) (set_should_stop false (env w))
          (trace w ++ [LogStopDeferred (FitLoop.min_epochs (self w)) (FitLoop.min_steps w)]).

(** Counting the calls of one kind in a trace. *)
Definition count (p : Collab -> bool) (l : list Collab) : nat :=
  List.length (filter p l).
Arguments count : simpl never.

Definition cost (p : Collab -> bool) (c : Collab) : nat :=
  if p c then 1%nat else 0%nat.

Definition is_on_train_end (c : Collab) : bool :=
  match c with CallHook name _ => String.eqb name "on_train_end" | _ => false end.
Definition is_logger_finalize (c : Collab) : bool :=
  match c with LoggerFinalize _ => true | _ => false end.
Definition is_profiler_describe (c : Collab) : bool :=
  match c with ProfilerDescribe => true | _ => false end.
Definition is_accelerator_on_train_end (c : Collab) : bool :=
  match c with AcceleratorOnTrainEnd => true | _ => false end.
Definition is_checkpoint_check (c : Collab) : bool :=
  match c with CheckpointOnValidationEnd _ => true | _ => false end.
Definition is_saving_latest (c : Collab) : bool :=
  match c with RankZeroInfo _ => true | _ => false end.
Definition is_training_epoch (c : Collab) : bool :=
  match c with TrainingLoopRun => true | _ => false end.

(** The statements of [FitLoop.on_run_end] that follow the assignment to
    [current_epoch]. *)
Definition teardown (oracle : Oracle) : M FitLoop.t value :=
  w <- get ;;
  modify_env (set_global_step (FitLoop.global_step w - 1)) ;;
  FitLoop.check_checkpoint_callback oracle true true ;;
  w <- get ;;
  modify_env (set_global_step (FitLoop.global_step w + 1)) ;;
  call oracle (CallHook "on_train_end" []) ;;
  w <- get ;;
  (match logger (trainer (env w)) with
   | Some _ => call oracle (LoggerFinalize "success") ;; ret tt
   | None => ret tt
   end) ;;
  call oracle ProfilerDescribe ;;
  call oracle AcceleratorOnTrainEnd ;;
  modify_env (set_running_stage None) ;;
  ret VNone.

(** The loop object once [on_run_end] has run. *)
Definition torn_down (l : FitLoop.t) : FitLoop.t :=
  FitLoop.set_iteration_count (FitLoop.iteration_count l - 1)
    (FitLoop.set_teardown_already_run true l).

(** [m], run in [w], leaves [self] alone and makes at most [k] calls of the
    kind [p]. *)
Definition frames_at {P A} (p : Collab -> bool) (k : nat) (m : M P A) (w : World P)
  : Prop :=
  self (snd (m w)) = self w
  /\ (count p (trace (snd (m w))) <= count p (trace w) + k)%nat.

(** Collaborators that never ask to stop and never set a step bound. *)
Definition quiet (e : Env) : Prop :=
  should_stop (trainer e) = false /\ tl_max_steps (training_loop e) = None.

Definition well_behaved (oracle : Oracle) : Prop :=
  forall c e, quiet e -> exists v e', oracle c e = (Ret v, e') /\ quiet e'.

(** [m], run in a quiet [w], returns, leaves [self] alone and the world
    quiet, and runs exactly [k] training epochs. *)
Definition proceeds_at {P A} (k : nat) (m : M P A) (w : World P) : Prop :=
  quiet (env w) ->
  (exists a, fst (m w) = Ret a)
  /\ self (snd (m w)) = self w
  /\ quiet (env (snd (m w)))
  /\ count is_training_epoch (trace (snd (m w)))
     = (count is_training_epoch (trace w) + k)%nat.

(** [m] returns [v] if it returns at all. *)
Definition returns_only {P A} (v : A) (m : M P A) : Prop :=
  forall w a, fst (m w) = Ret a -> a = v.

(** ** The property setters of [FitLoop] *)

Definition set_max_steps (m : option Z) (e : Env) : Env :=
  let l := training_loop e in
  mkEnv (trainer e)
        (mkTrainingEpochLoop (tl_global_step l) (tl_min_steps l) m (batches_seen l)
           (accumulated_loss l))
        (dataloader_iter e) (store e).

Module FitLoopSetters.

(** [@current_epoch.setter]: [self.iteration_count = value] *)
Definition current_epoch (value : Z) : M FitLoop.t unit :=
  modify_self (FitLoop.set_iteration_count value).

(** [@global_step.setter]: [self.training_loop.global_step = value] *)
Definition global_step (value : Z) : M FitLoop.t unit :=
  modify_env (set_global_step value).

(** [@max_steps.setter]: [self.training_loop.max_steps = value] *)
Definition max_steps (value : option Z) : M FitLoop.t unit :=
  modify_env (set_max_steps value).

End FitLoopSetters.

(** ** More examples *)

Module MoreExamples.

Definition checkpoint_a : Callback := mkCallback 1 true true.
Definition checkpoint_b : Callback := mkCallback 2 false false.

(** A trainer that has trained, with two checkpoint callbacks. *)
Definition trained_trainer : Trainer :=
  mkTrainer false false 0 1 (Batches 10) false false 1 true
            [checkpoint_a; checkpoint_b] None (Some "fit").

Definition trained_world : World FitLoop.t :=
  Examples.fit_world (FitLoop.__init__ None (Some 2) None None) trained_trainer.

(** Collaborators of which the second checkpoint callback fails. *)
Definition failing_checkpoint : Oracle :=
  fun c e =>
    match c with
    | CheckpointOnValidationEnd cb =>
        if Nat.eqb (cb_id cb) 2 then (Raise (RuntimeError "disk full"), e)
        else (Ret VNone, e)
    | _ => (Ret VNone, e)
    end.

(** [FitLoop(max_epochs=5)], connected, at epoch 2 of a previous run. *)
Definition stale_world : World FitLoop.t :=
  let w := Examples.fit_world (FitLoop.__init__ None (Some 5) None None)
             (Examples.a_trainer false) in
  mkWorld (FitLoop.set_iteration_count 2 (self w)) (env w) (trace w).

(** Collaborators of an evaluation that change nothing: the steps answer
    with an object, the outputs are collected in order. *)
Definition stepping : Oracle :=
  fun c e =>
    match c with
    | AcceleratorTestStep _ => (Ret (VObj 42), e)
    | AcceleratorValidationStep _ => (Ret (VObj 42), e)
    | TrackOutputForEpochEnd (VList outs) output => (Ret (VList (outs ++ [output])), e)
    | _ => (Ret VNone, e)
    end.

(** A validation loop before [run], with an iterator of three batches. *)
Definition eval_three_batches : World EvaluationLoop.t :=
  mkWorld EvaluationLoop.__init__
    (mkEnv (Examples.trainer_with false false (Batches 10))
           (snd (FitLoop.__init__ None None None None))
           [(0, VObj 1); (1, VObj 2); (2, VObj 3)] [])
    [].

Definition two_batches : EvaluationLoop.args := EvaluationLoop.mkArgs 0 2 1.

(** Collaborators of which the sampler has no working [set_epoch]. *)
Definition failing_sampler : Oracle :=
  fun c e =>
    match c with
    | SamplerSetEpoch _ => (Raise (RuntimeError "no set_epoch"), e)
    | _ => (Ret VNone, e)
    end.

(** Collaborators interrupted while the sampler is given its epoch. *)
Definition interrupted_sampler : Oracle :=
  fun c e =>
    match c with
    | SamplerSetEpoch _ => (Raise KeyboardInterrupt, e)
    | _ => (Ret VNone, e)
    end.

(** Collaborators of which the [on_train_end] hook fails. *)
Definition failing_train_end : Oracle :=
  fun c e =>
    match c with
    | CallHook "on_train_end" _ => (Raise (RuntimeError "hook failed"), e)
    | _ => (Ret VNone, e)
    end.

(** Collaborators whose epochs take ten steps and whose logging of the
    epoch metrics fails. *)
Definition failing_metrics : Oracle :=
  fun c e =>
    match c with
    | TrainingLoopRun =>
        (Ret (VObj 0), set_global_step (tl_global_step (training_loop e) + 10) e)
    | UpdateTrainEpochMetrics => (Raise (RuntimeError "logger down"), e)
    | _ => (Ret VNone, e)
    end.

(** No batches to evaluate. *)
Definition zero_batches : EvaluationLoop.args := EvaluationLoop.mkArgs 0 0 1.

End MoreExamples.

(** ** Runs with collaborators that return *)

(** The statements of [EvaluationLoop.advance] for a batch that is not
    [None]. *)
Definition process_batch (oracle : Oracle) (a : EvaluationLoop.args)
           (batch_idx : Z) (batch : value) : M EvaluationLoop.t unit :=
  EvaluationLoop.on_evaluation_batch_start oracle batch batch_idx
    (EvaluationLoop.arg_dataloader_idx a) ;;
  output <-
    with_profile oracle "evaluation_step_and_end"
      (output <- EvaluationLoop.evaluation_step oracle batch batch_idx
                   (EvaluationLoop.arg_dataloader_idx a) ;;
       EvaluationLoop.evaluation_step_end oracle output) ;;
  EvaluationLoop.on_evaluation_batch_end oracle output batch batch_idx
    (EvaluationLoop.arg_dataloader_idx a) ;;
  call oracle UpdateEvalStepMetrics ;;
  w <- get ;;
  outs <- call oracle (TrackOutputForEpochEnd (EvaluationLoop.outputs (self w)) output) ;;
  modify_self (EvaluationLoop.set_outputs outs).

(** The accelerator step of the mode: [test_step] when testing,
    [validation_step] otherwise. *)
Definition step_in_mode (test : bool) (c : Collab) : bool :=
  match c with
  | AcceleratorTestStep _ => test
  | AcceleratorValidationStep _ => negb test
  | _ => false
  end.

Definition is_train_epoch_start_hook (c : Collab) : bool :=
  match c with
  | CallHook name _ => String.eqb name "on_train_epoch_start"
  | _ => false
  end.

Definition is_prediction_call (c : Collab) : bool :=
  match c with
  | OutputPop _ _ => true
  | PredictionsAdd _ => true
  | _ => false
  end.

(** [m], run in a world where [Inv] holds, returns, keeps [Inv] and makes
    exactly [k] calls of the kind [p]. *)
Definition runs_at {P A} (Inv : World P -> Prop) (p : Collab -> bool) (k : nat)
           (m : M P A) (w : World P) : Prop :=
  Inv w ->
  (exists a, fst (m w) = Ret a)
  /\ Inv (snd (m w))
  /\ count p (trace (snd (m w))) = (count p (trace w) + k)%nat.

(** The collaborator called by [c] returns and keeps [Inv]. *)
Definition answers {P} (oracle : Oracle) (Inv : World P -> Prop) (c : Collab) : Prop :=
  forall w, Inv w ->
    exists v e', oracle c (env w) = (Ret v, e')
                 /\ Inv (mkWorld (self w) e' (trace w ++ [c])).

(** Collaborators of an evaluation that return and leave the iterator and
    the mode of the trainer alone. *)
Definition steady (oracle : Oracle) : Prop :=
  forall c e,
    exists v e', oracle c e = (Ret v, e')
                 /\ dataloader_iter e' = dataloader_iter e
                 /\ testing (trainer e') = testing (trainer e).

(** What an evaluation run keeps between its batches. *)
Definition eval_inv (it : list (Z * value)) (test : bool) (i max_batches n : Z)
           (w : World EvaluationLoop.t) : Prop :=
  dataloader_iter (env w) = it
  /\ testing (trainer (env w)) = test
  /\ EvaluationLoop.iteration_count (self w) = i
  /\ EvaluationLoop.dl_max_batches (self w) = Some max_batches
  /\ EvaluationLoop.num_dataloaders (self w) = Some n.

(** Collaborators that return and change nothing the loops share with
    them. *)
Definition passive (oracle : Oracle) : Prop :=
  forall c e, exists v, oracle c e = (Ret v, e).

(** The calls of [check_checkpoint_callback] when every callback returns. *)
Definition checkpoint_calls (should_update is_last : bool) (e : Env) : list Collab :=
  if should_update && has_trained (trainer e) then
    (if is_last
        && existsb (fun cb => save_last cb && verbose cb) (checkpoint_callbacks (trainer e))
     then [RankZeroInfo "Saving latest checkpoint..."] else [])
    ++ map CheckpointOnValidationEnd (checkpoint_callbacks (trainer e))
  else [].

(** The calls of a teardown in which every collaborator returns. *)
Definition teardown_calls (e : Env) : list Collab :=
  checkpoint_calls true true e
  ++ [CallHook "on_train_end" []]
  ++ (match logger (trainer e) with
      | Some _ => [LoggerFinalize "success"]
      | None => []
      end)
  ++ [ProfilerDescribe; AcceleratorOnTrainEnd].

(** What the collaborator called by [c] answers in [e]. *)
Definition answer (oracle : Oracle) (c : Collab) (e : Env) : value :=
  match oracle c e with
  | (Ret v, _) => v
  | (Raise _, _) => VNone
  end.

(** The calls of [EvaluationLoop.advance] for a batch, in order, when every
    collaborator returns and changes nothing: [n] is the number of
    dataloaders, [has_predictions] whether the loop has a prediction
    collection, [outs] the outputs it holds. *)
Definition batch_calls (oracle : Oracle) (test has_predictions : bool) (n : Z)
           (batch_idx dataloader_idx : Z) (batch outs : value) (e : Env)
  : list Collab :=
  let step_kwargs :=
    if n >? 1
    then [("batch", batch); ("batch_idx", VInt batch_idx);
          ("dataloader_idx", VInt dataloader_idx)]
    else [("batch", batch); ("batch_idx", VInt batch_idx)] in
  let step :=
    if test then AcceleratorTestStep step_kwargs
    else AcceleratorValidationStep step_kwargs in
  let step_end :=
    CallHook (if test then "test_step_end" else "validation_step_end")
             [answer oracle step e] in
  let output := answer oracle step_end e in
  [LoggerConnectorOnBatchStart;
   LoggerConnectorOnEvaluationBatchStart batch batch_idx dataloader_idx n;
   CallHook (if test then "on_test_batch_start" else "on_validation_batch_start")
            [batch; VInt batch_idx; VInt dataloader_idx];
   ProfileEnter "evaluation_step_and_end";
   SetCurrentFxName (if test then "test_step" else "validation_step");
   ProfileEnter (if test then "test_step" else "validation_step");
   step;
   ProfileExit (if test then "test_step" else "validation_step");
   step_end;
   ProfileExit "evaluation_step_and_end";
   CallHook (if test then "on_test_batch_end" else "on_validation_batch_end")
            [output; batch; VInt batch_idx; VInt dataloader_idx];
   LoggerConnectorOnBatchEnd]
  ++ (if negb (is_None output) && has_predictions
         && (EvaluationLoop.is_ResultCollection output && test)
      then [OutputPop output "predictions";
            PredictionsAdd (answer oracle (OutputPop output "predictions") e)]
      else [])
  ++ [TrackEvalLossHistory batch_idx dataloader_idx output;
      UpdateEvalStepMetrics;
      TrackOutputForEpochEnd outs output].

(** [m], run in [w], raises. *)
Definition fails_at {P A} (m : M P A) (w : World P) : Prop :=
  exists ex, fst (m w) = Raise ex.

(** The environment after the [on_validation_end] of the callbacks [l] has
    been called, one after the other, from [e]. *)
Definition env_after_checkpoints (oracle : Oracle) (l : list Callback) (e : Env) : Env :=
  fold_left (fun e cb => snd (oracle (CheckpointOnValidationEnd cb) e)) l e.

(** The message [check_checkpoint_callback] emits before the callbacks. *)
Definition saving_latest (is_last : bool) (callbacks : list Callback) : list Collab :=
  if is_last && existsb (fun cb => save_last cb && verbose cb) callbacks
  then [RankZeroInfo "Saving latest checkpoint..."] else [].

(** [run], started in [w0], has come through [reset] and [on_run_start] and
    through [n] complete iterations of the [while] loop, and stands in [w]
    before the next evaluation of [done]. *)
Inductive reaches {P Args R : Type} (L : Loop.methods P Args R) (args : Args)
          (w0 : World P) : nat -> World P -> Prop :=
| reaches_start (w1 w2 : World P) :
    Loop.reset L w0 = (Ret tt, w1) ->
    Loop.on_run_start L args w1 = (Ret tt, w2) ->
    reaches L args w0 O w2
| reaches_iteration (n : nat) (w w1 w2 : World P) :
    reaches L args w0 n w ->
    Loop.done L w = (Ret false, w1) ->
    Loop.iteration L args w1 = (Ret tt, w2) ->
    reaches L args w0 (S n) w2.

(** * Properties *)

Lemma world_eta {P} (w : World P) : mkWorld (self w) (env w) (trace w) = w.
Proof. destruct w; reflexivity. Qed.

Lemma met_min_true counter bound :
  FitLoop.met_min counter bound = true <-> min_satisfied counter bound.
Proof.
  unfold FitLoop.met_min, min_satisfied. destruct bound as [b|].
  - destruct (Z.eqb_spec b 0) as [->|Hb].
    + split; [intros _ b' [= <-] Hne; congruence | reflexivity].
    + rewrite Z.geb_le. split.
      * intros H b' [= <-] _. exact H.
      * intros H. apply (H b); [reflexivity | exact Hb].
  - split; [intros _ b' [=] | reflexivity].
Qed.

Lemma reached_true counter bound :
  FitLoop.reached counter bound = true <-> max_reached counter bound.
Proof.
  unfold FitLoop.reached, max_reached. destruct bound as [b|].
  - rewrite Z.geb_le. split.
    + intros H. exists b. split; [reflexivity | exact H].
    + intros (b' & [= <-] & H). exact H.
  - split; [discriminate | intros (b' & [=] & _)].
Qed.

(** For a counter that is not negative, a bound of 0 is met anyway: "set to
    a non-zero value" and "set" select the same constraints. *)
Lemma min_satisfied_nonneg counter bound :
  0 <= counter ->
  (min_satisfied counter bound <-> forall b, bound = Some b -> b <= counter).
Proof.
  intros Hc. unfold min_satisfied. split.
  - intros H b Hb. destruct (Z.eq_dec b 0) as [-> | Hne]; [exact Hc | auto].
  - intros H b Hb _. auto.
Qed.

(** What [FitLoop.done] computes, by cases. *)
Lemma done_no_request (w : World FitLoop.t) :
  should_stop (trainer (env w)) = false ->
  FitLoop.done w =
    (Ret (FitLoop.reached (FitLoop.global_step w) (FitLoop.max_steps w)
          || false
          || FitLoop.reached (FitLoop.current_epoch w) (FitLoop.max_epochs (self w))),
     w).
Proof.
  intros H. unfold FitLoop.done, bind, get, ret. rewrite H. reflexivity.
Qed.

Lemma done_honoured (w : World FitLoop.t) :
  should_stop (trainer (env w)) = true ->
  FitLoop.met_min (FitLoop.current_epoch w) (FitLoop.min_epochs (self w))
  && FitLoop.met_min (FitLoop.global_step w) (FitLoop.min_steps w) = true ->
  FitLoop.done w = (Ret true, w).
Proof.
  intros H Hm. unfold FitLoop.done, bind, get, ret. rewrite H, Hm.
  rewrite orb_true_r. reflexivity.
Qed.

Lemma done_deferred (w : World FitLoop.t) :
  should_stop (trainer (env w)) = true ->
  FitLoop.met_min (FitLoop.current_epoch w) (FitLoop.min_epochs (self w))
  && FitLoop.met_min (FitLoop.global_step w) (FitLoop.min_steps w) = false ->
  FitLoop.done w =
    (Ret (FitLoop.reached (FitLoop.global_step w) (FitLoop.max_steps w)
          || FitLoop.reached (FitLoop.current_epoch w) (FitLoop.max_epochs (self w))),
     deferred w).
Proof.
  intros H Hm. unfold FitLoop.done, bind, get, ret, emit, modify_env. rewrite H, Hm.
  cbn. rewrite orb_false_r. reflexivity.
Qed.

Lemma mins_true (w : World FitLoop.t) :
  FitLoop.met_min (FitLoop.current_epoch w) (FitLoop.min_epochs (self w))
  && FitLoop.met_min (FitLoop.global_step w) (FitLoop.min_steps w) = true
  <-> min_satisfied (FitLoop.current_epoch w) (FitLoop.min_epochs (self w))
      /\ min_satisfied (FitLoop.global_step w) (FitLoop.min_steps w).
Proof. rewrite andb_true_iff, !met_min_true. reflexivity. Qed.

(** C1, as amended: when [trainer.should_stop] is set, [FitLoop.done] honours
    the request and returns [True] if every minimum that is set to a non-zero
    value is met; otherwise it logs, resets [trainer.should_stop] to [False]
    and returns [True] exactly when a maximum ([max_steps] or [max_epochs]) is
    reached, so [False] when none is. *)
Theorem done_should_stop_gating (w : World FitLoop.t) :
  should_stop (trainer (env w)) = true ->
  (min_satisfied (FitLoop.current_epoch w) (FitLoop.min_epochs (self w))
   /\ min_satisfied (FitLoop.global_step w) (FitLoop.min_steps w) ->
   FitLoop.done w = (Ret true, w))
  /\
  (~ (min_satisfied (FitLoop.current_epoch w) (FitLoop.min_epochs (self w))
      /\ min_satisfied (FitLoop.global_step w) (FitLoop.min_steps w)) ->
   exists b,
     FitLoop.done w = (Ret b, deferred w)
     /\ should_stop (trainer (env (deferred w))) = false
     /\ (b = true <->
         max_reached (FitLoop.global_step w) (FitLoop.max_steps w)
         \/ max_reached (FitLoop.current_epoch w) (FitLoop.max_epochs (self w)))).
Proof.
  intros Hstop. split.
  - intros Hmet. apply done_honoured; [exact Hstop | apply mins_true; exact Hmet].
  - intros Hunmet.
    assert (Hm : FitLoop.met_min (FitLoop.current_epoch w) (FitLoop.min_epochs (self w))
                 && FitLoop.met_min (FitLoop.global_step w) (FitLoop.min_steps w) = false).
    { apply not_true_is_false. intros Ht. apply Hunmet, mins_true, Ht. }
    eexists. split; [apply done_deferred; assumption | ].
    split; [reflexivity | ].
    rewrite orb_true_iff, !reached_true. reflexivity.
Qed.

(** The two examples of the specification: epoch 0 of 5 defers the request,
    epoch 5 of 5 honours it. *)
Lemma done_should_stop_gating_witness :
  FitLoop.done (Examples.stop_at_epoch 0)
    = (Ret false, deferred (Examples.stop_at_epoch 0))
  /\ FitLoop.done (Examples.stop_at_epoch 5) = (Ret true, Examples.stop_at_epoch 5).
Proof.
  split.
  - destruct (done_should_stop_gating (Examples.stop_at_epoch 0) eq_refl) as [_ H].
    destruct H as (b & Hd & _ & Hb).
    + intros [He _]. specialize (He 5 eq_refl). cbn in He. lia.
    + rewrite Hd. destruct b; [ | reflexivity].
      destruct Hb as [Hb _]. destruct (Hb eq_refl) as [(m & Hm & _) | (m & Hm & Hle)].
      * discriminate Hm.
      * cbn in Hm, Hle. injection Hm as <-. lia.
  - apply (done_should_stop_gating (Examples.stop_at_epoch 5) eq_refl).
    split; intros b Hb _; cbn in Hb |- *.
    + injection Hb as <-. lia.
    + discriminate Hb.
Defined.

(** C1 as stated fails: with [min_epochs = 5] unmet at epoch 1 but [max_steps]
    reached, [done] returns [True] (and still clears the request). *)
Lemma done_unmet_minimum_yet_true :
  should_stop (trainer (env Examples.stop_at_max_steps)) = true
  /\ FitLoop.min_epochs (self Examples.stop_at_max_steps) = Some 5
  /\ FitLoop.current_epoch Examples.stop_at_max_steps < 5
  /\ fst (FitLoop.done Examples.stop_at_max_steps) = Ret true
  /\ should_stop (trainer (env (snd (FitLoop.done Examples.stop_at_max_steps)))) = false.
Proof. repeat split. Qed.

(** C4: the constructor replaces [max_epochs] by 1000 exactly when
    [max_epochs] and [max_steps] are both [None], and [min_epochs] by 1
    exactly when [min_epochs] and [min_steps] are both [None]; in every other
    case the argument is kept, [None] included. *)
Theorem init_defaulting (min_epochs max_epochs min_steps max_steps : option Z) :
  let l := fst (FitLoop.__init__ min_epochs max_epochs min_steps max_steps) in
  (max_epochs = None /\ max_steps = None -> FitLoop.max_epochs l = Some 1000)
  /\ (~ (max_epochs = None /\ max_steps = None) -> FitLoop.max_epochs l = max_epochs)
  /\ (FitLoop.max_epochs l <> max_epochs <-> max_epochs = None /\ max_steps = None)
  /\ (min_epochs = None /\ min_steps = None -> FitLoop.min_epochs l = Some 1)
  /\ (~ (min_epochs = None /\ min_steps = None) -> FitLoop.min_epochs l = min_epochs)
  /\ (FitLoop.min_epochs l <> min_epochs <-> min_epochs = None /\ min_steps = None).
Proof.
  cbn. repeat split.
  - intros [-> ->]. reflexivity.
  - intros H. destruct max_epochs, max_steps; try reflexivity. exfalso. auto.
  - destruct max_epochs, max_steps; congruence.
  - destruct max_epochs, max_steps; congruence.
  - intros [-> ->]. discriminate.
  - intros [-> ->]. reflexivity.
  - intros H. destruct min_epochs, min_steps; try reflexivity. exfalso. auto.
  - destruct min_epochs, min_steps; congruence.
  - destruct min_epochs, min_steps; congruence.
  - intros [-> ->]. discriminate.
Qed.

(** The child loop receives the step bounds unchanged. *)
Lemma init_step_bounds (min_epochs max_epochs min_steps max_steps : option Z) :
  let c := snd (FitLoop.__init__ min_epochs max_epochs min_steps max_steps) in
  tl_min_steps c = min_steps /\ tl_max_steps c = max_steps.
Proof. split; reflexivity. Qed.

(** [EvaluationLoop.done] only reads. *)
Lemma evaluation_done_frame (w : World EvaluationLoop.t) :
  snd (EvaluationLoop.done w) = w.
Proof.
  unfold EvaluationLoop.done, bind, get, ret, raise.
  destruct (EvaluationLoop.dl_max_batches (self w)); reflexivity.
Qed.

(** [FitLoop.done] leaves the world as it is or defers a stop request. *)
Lemma fit_done_frame (w : World FitLoop.t) :
  snd (FitLoop.done w) = w
  \/ (should_stop (trainer (env w)) = true /\ snd (FitLoop.done w) = deferred w).
Proof.
  destruct (should_stop (trainer (env w))) eqn:Hs.
  - destruct (FitLoop.met_min (FitLoop.current_epoch w) (FitLoop.min_epochs (self w))
              && FitLoop.met_min (FitLoop.global_step w) (FitLoop.min_steps w)) eqn:Hm.
    + left. rewrite (done_honoured w Hs Hm). reflexivity.
    + right. rewrite (done_deferred w Hs Hm). split; reflexivity.
  - left. rewrite (done_no_request w Hs). reflexivity.
Qed.

Lemma fit_done_returns (w : World FitLoop.t) :
  exists b, fst (FitLoop.done w) = Ret b.
Proof.
  destruct (should_stop (trainer (env w))) eqn:Hs.
  - destruct (FitLoop.met_min (FitLoop.current_epoch w) (FitLoop.min_epochs (self w))
              && FitLoop.met_min (FitLoop.global_step w) (FitLoop.min_steps w)) eqn:Hm.
    + rewrite (done_honoured w Hs Hm). eexists; reflexivity.
    + rewrite (done_deferred w Hs Hm). eexists; reflexivity.
  - rewrite (done_no_request w Hs). eexists; reflexivity.
Qed.

(** C2, as amended: [EvaluationLoop.done] changes nothing.  [FitLoop.done]
    returns a boolean and changes nothing stored in the loop or its child
    (counters, bounds, teardown flag).  When no stop request is pending, or
    every minimum set to a non-zero value is met, it changes nothing at all.
    When a request is pending and such a minimum is unmet, it changes of the
    trainer exactly [should_stop], which it resets to [False], and logs one
    message. *)
Theorem done_frame (we : World EvaluationLoop.t) (wf : World FitLoop.t) :
  snd (EvaluationLoop.done we) = we
  /\ (exists b, fst (FitLoop.done wf) = Ret b)
  /\ self (snd (FitLoop.done wf)) = self wf
  /\ training_loop (env (snd (FitLoop.done wf))) = training_loop (env wf)
  /\ (should_stop (trainer (env wf)) = false
      \/ (min_satisfied (FitLoop.current_epoch wf) (FitLoop.min_epochs (self wf))
          /\ min_satisfied (FitLoop.global_step wf) (FitLoop.min_steps wf)) ->
      snd (FitLoop.done wf) = wf)
  /\ (should_stop (trainer (env wf)) = true ->
      ~ (min_satisfied (FitLoop.current_epoch wf) (FitLoop.min_epochs (self wf))
         /\ min_satisfied (FitLoop.global_step wf) (FitLoop.min_steps wf)) ->
      snd (FitLoop.done wf) <> wf
      /\ env (snd (FitLoop.done wf)) = set_should_stop false (env wf)
      /\ should_stop (trainer (env (snd (FitLoop.done wf)))) = false
      /\ trace (snd (FitLoop.done wf))
         = trace wf ++ [LogStopDeferred (FitLoop.min_epochs (self wf))
                                        (FitLoop.min_steps wf)]).
Proof.
  split; [apply evaluation_done_frame | ].
  split; [apply fit_done_returns | ].
  split; [destruct (fit_done_frame wf) as [H | [_ H]]; rewrite H; reflexivity | ].
  split; [destruct (fit_done_frame wf) as [H | [_ H]]; rewrite H; reflexivity | ].
  split.
  - intros [Hs | Hmet].
    + rewrite (done_no_request wf Hs). reflexivity.
    + destruct (should_stop (trainer (env wf))) eqn:Hs.
      * rewrite (done_honoured wf Hs (proj2 (mins_true wf) Hmet)). reflexivity.
      * rewrite (done_no_request wf Hs). reflexivity.
  - intros Hs Hunmet.
    assert (Hm : FitLoop.met_min (FitLoop.current_epoch wf) (FitLoop.min_epochs (self wf))
                 && FitLoop.met_min (FitLoop.global_step wf) (FitLoop.min_steps wf) = false).
    { apply not_true_is_false. intros Ht. apply Hunmet, mins_true, Ht. }
    rewrite (done_deferred wf Hs Hm). cbn [snd].
    split; [ | repeat split].
    intros Heq. apply (f_equal (fun w => should_stop (trainer (env w)))) in Heq.
    rewrite Hs in Heq. discriminate Heq.
Qed.

(** The two examples of the specification: at epoch 0 of 5 the request is
    cleared and logged, at epoch 5 of 5 nothing changes. *)
Lemma done_frame_witness :
  snd (FitLoop.done (Examples.stop_at_epoch 5)) = Examples.stop_at_epoch 5
  /\ env (snd (FitLoop.done (Examples.stop_at_epoch 0)))
     = set_should_stop false (env (Examples.stop_at_epoch 0))
  /\ trace (snd (FitLoop.done (Examples.stop_at_epoch 0)))
     = trace (Examples.stop_at_epoch 0) ++ [LogStopDeferred (Some 5) None].
Proof.
  destruct (done_frame Examples.eval_short_iterator
              (Examples.stop_at_epoch 5)) as (_ & _ & _ & _ & Hsame & _).
  destruct (done_frame Examples.eval_short_iterator
              (Examples.stop_at_epoch 0)) as (_ & _ & _ & _ & _ & Hdefer).
  split.
  - apply Hsame. right. split; intros b Hb _; cbn in Hb |- *.
    + injection Hb as <-. lia.
    + discriminate Hb.
  - destruct (Hdefer eq_refl) as (_ & He & _ & Ht).
    + intros [He _]. specialize (He 5 eq_refl). cbn in He. lia.
    + split; [exact He | exact Ht].
Defined.

(** C2 as stated fails: evaluating [FitLoop.done] at epoch 0 with
    [min_epochs = 5] and a pending stop request clears [trainer.should_stop]. *)
Lemma done_clears_should_stop :
  should_stop (trainer (env (Examples.stop_at_epoch 0))) = true
  /\ should_stop (trainer (env (snd (FitLoop.done (Examples.stop_at_epoch 0))))) = false
  /\ snd (FitLoop.done (Examples.stop_at_epoch 0)) <> Examples.stop_at_epoch 0.
Proof. repeat split. discriminate. Qed.



(** ** Step kwargs *)

Lemma build_kwargs_eq (w : World EvaluationLoop.t) (batch : value)
      (batch_idx dataloader_idx n : Z) :
  EvaluationLoop.num_dataloaders (self w) = Some n ->
  EvaluationLoop._build_kwargs batch batch_idx dataloader_idx w =
    (Ret (if n >? 1
          then [("batch", batch); ("batch_idx", VInt batch_idx);
                ("dataloader_idx", VInt dataloader_idx)]
          else [("batch", batch); ("batch_idx", VInt batch_idx)]),
     w).
Proof.
  intros Hn.
  unfold EvaluationLoop._build_kwargs, EvaluationLoop.gt_one, bind, get, ret.
  rewrite Hn.
  destruct (testing (trainer (env w))); cbn; destruct (n >? 1); reflexivity.
Qed.

(** C7: whenever [_build_kwargs] hands kwargs to the step function (that is,
    [num_dataloaders] is a number), they hold [batch] and [batch_idx], and
    they hold [dataloader_idx] if and only if [num_dataloaders > 1], in test
    as in validation mode; nothing else is in them and the loop is left
    unchanged. *)
Theorem build_kwargs_dataloader_idx (w : World EvaluationLoop.t) (batch : value)
        (batch_idx dataloader_idx n : Z) :
  EvaluationLoop.num_dataloaders (self w) = Some n ->
  exists kw,
    EvaluationLoop._build_kwargs batch batch_idx dataloader_idx w = (Ret kw, w)
    /\ EvaluationLoop.odict_get kw "batch" = Some batch
    /\ EvaluationLoop.odict_get kw "batch_idx" = Some (VInt batch_idx)
    /\ (EvaluationLoop.odict_get kw "dataloader_idx" = Some (VInt dataloader_idx)
        <-> 1 < n)
    /\ (EvaluationLoop.odict_get kw "dataloader_idx" = None <-> n <= 1)
    /\ (forall k, EvaluationLoop.odict_get kw k <> None ->
                  k = "batch" \/ k = "batch_idx" \/ k = "dataloader_idx").
Proof.
  intros Hn. eexists. split; [apply build_kwargs_eq; exact Hn | ].
  destruct (Z.gtb_spec n 1) as [Hgt | Hle].
  - split; [reflexivity | ]. split; [reflexivity | ].
    split; [split; [intros _; exact Hgt | reflexivity] | ].
    split; [split; [discriminate | lia] | ].
    intros k Hk. unfold EvaluationLoop.odict_get in Hk.
    destruct (String.eqb_spec "batch" k) as [E | _]; [auto | ].
    destruct (String.eqb_spec "batch_idx" k) as [E | _]; [auto | ].
    destruct (String.eqb_spec "dataloader_idx" k) as [E | _]; [auto | ].
    congruence.
  - split; [reflexivity | ]. split; [reflexivity | ].
    split; [split; [discriminate | lia] | ].
    split; [split; [intros _; exact Hle | reflexivity] | ].
    intros k Hk. unfold EvaluationLoop.odict_get in Hk.
    destruct (String.eqb_spec "batch" k) as [E | _]; [auto | ].
    destruct (String.eqb_spec "batch_idx" k) as [E | _]; [auto | ].
    congruence.
Qed.

(** Two test dataloaders: [dataloader_idx] is passed; the theorem applied. *)
Lemma build_kwargs_dataloader_idx_witness :
  exists kw,
    EvaluationLoop._build_kwargs (VObj 7) 0 1 (Examples.eval_world true 2 [])
      = (Ret kw, Examples.eval_world true 2 [])
    /\ EvaluationLoop.odict_get kw "dataloader_idx" = Some (VInt 1).
Proof.
  destruct (build_kwargs_dataloader_idx (Examples.eval_world true 2 []) (VObj 7) 0 1 2 eq_refl)
    as (kw & Heq & _ & _ & [_ Hin] & _).
  exists kw. split; [exact Heq | apply Hin; lia].
Defined.

(** One dataloader: no [dataloader_idx]. *)
Example build_kwargs_single_dataloader :
  EvaluationLoop._build_kwargs (VObj 7) 0 0 (Examples.eval_world false 1 [])
  = (Ret [("batch", VObj 7); ("batch_idx", VInt 0)], Examples.eval_world false 1 []).
Proof. reflexivity. Qed.

(** Without [num_dataloaders] the comparison raises and no kwargs are built. *)
Lemma build_kwargs_without_num_dataloaders (w : World EvaluationLoop.t)
      (batch : value) (batch_idx dataloader_idx : Z) :
  EvaluationLoop.num_dataloaders (self w) = None ->
  EvaluationLoop._build_kwargs batch batch_idx dataloader_idx w = (Raise TypeError, w).
Proof.
  intros Hn.
  unfold EvaluationLoop._build_kwargs, EvaluationLoop.gt_one, bind, get, ret, raise.
  rewrite Hn. destruct (testing (trainer (env w))); reflexivity.
Qed.

(** The kwargs built are the ones the accelerator's step receives. *)
Lemma evaluation_step_passes_kwargs (oracle : Oracle) (w : World EvaluationLoop.t)
      (batch : value) (batch_idx dataloader_idx n : Z) :
  EvaluationLoop.num_dataloaders (self w) = Some n ->
  let kw := if n >? 1
            then [("batch", batch); ("batch_idx", VInt batch_idx);
                  ("dataloader_idx", VInt dataloader_idx)]
            else [("batch", batch); ("batch_idx", VInt batch_idx)] in
  EvaluationLoop.evaluation_step oracle batch batch_idx dataloader_idx w
  = if testing (trainer (env w))
    then (emit (SetCurrentFxName "test_step") ;;
          with_profile oracle "test_step" (call oracle (AcceleratorTestStep kw))) w
    else (emit (SetCurrentFxName "validation_step") ;;
          with_profile oracle "validation_step"
            (call oracle (AcceleratorValidationStep kw))) w.
Proof.
  intros Hn kw. unfold EvaluationLoop.evaluation_step. unfold bind at 1.
  rewrite (build_kwargs_eq w batch batch_idx dataloader_idx n Hn).
  unfold bind at 1. unfold get at 1.
  destruct (testing (trainer (env w))); reflexivity.
Qed.

(** ** reset *)

Lemma evaluation_reset_eq (w : World EvaluationLoop.t) :
  EvaluationLoop.reset w =
    (Ret tt,
     mkWorld
       (EvaluationLoop.mk 0
          (Some (EvaluationLoop.mkPredictionCollection
                   (global_rank (trainer (env w))) (world_size (trainer (env w)))))
          (EvaluationLoop.dataloader (self w)) None None None (VList []))
       (env w) (trace w)).
Proof. reflexivity. Qed.

Lemma fit_reset_eq (w : World FitLoop.t) :
  FitLoop.reset w =
    (Ret tt, mkWorld (FitLoop.set_iteration_count 0 (self w)) (env w) (trace w)).
Proof. reflexivity. Qed.

(** C6, as amended: after [reset()] the iteration count of either loop is 0.
    [EvaluationLoop.reset] re-initialises every per-run attribute, so nothing
    of the previous run is left in the loop: [done] raises until
    [on_run_start] has stored the new bound and then compares 0 with that
    bound only.  [FitLoop.reset] re-initialises the epoch counter and nothing
    else: [done] after it no longer depends on the previous epoch, but it is
    computed from the bounds and from [global_step] and [trainer.should_stop]
    as the previous run left them. *)
Theorem reset_then_done (we : World EvaluationLoop.t) (a : EvaluationLoop.args)
        (wf : World FitLoop.t) :
  let we' := snd (EvaluationLoop.reset we) in
  let wf' := snd (FitLoop.reset wf) in
  fst (EvaluationLoop.reset we) = Ret tt
  /\ EvaluationLoop.iteration_count (self we') = 0
  /\ self we' =
       EvaluationLoop.mk 0
          (Some (EvaluationLoop.mkPredictionCollection
                   (global_rank (trainer (env we))) (world_size (trainer (env we)))))
          (EvaluationLoop.dataloader (self we)) None None None (VList [])
  /\ fst (EvaluationLoop.done we') = Raise TypeError
  /\ fst (EvaluationLoop.done (snd (EvaluationLoop.on_run_start a we')))
     = Ret (0 >=? EvaluationLoop.arg_dl_max_batches a)
  /\ fst (FitLoop.reset wf) = Ret tt
  /\ FitLoop.iteration_count (self wf') = 0
  /\ wf' = mkWorld (FitLoop.set_iteration_count 0 (self wf)) (env wf) (trace wf)
  /\ fst (FitLoop.done wf')
     = Ret (FitLoop.reached (FitLoop.global_step wf) (FitLoop.max_steps wf)
            || (should_stop (trainer (env wf))
                && FitLoop.met_min 0 (FitLoop.min_epochs (self wf))
                && FitLoop.met_min (FitLoop.global_step wf) (FitLoop.min_steps wf))
            || FitLoop.reached 0 (FitLoop.max_epochs (self wf))).
Proof.
  cbn zeta. rewrite evaluation_reset_eq, fit_reset_eq. cbn [fst snd].
  repeat split.
  unfold FitLoop.done, bind, get, ret, emit, modify_env,
    FitLoop.current_epoch, FitLoop.global_step, FitLoop.min_steps, FitLoop.max_steps.
  cbn.
  destruct (should_stop (trainer (env wf))); cbn; [ | reflexivity].
  destruct (FitLoop.met_min 0 _ && FitLoop.met_min _ _); reflexivity.
Qed.

(** C6 as stated fails for the fit loop: a newly constructed
    [FitLoop(max_steps=10)] and the same loop after a run that took ten steps
    are both at iteration 0 after [reset()], yet [done] is [False] for the
    first and [True] for the second. *)
Lemma reset_keeps_global_step :
  self (snd (FitLoop.reset Examples.used_max_steps))
    = self (snd (FitLoop.reset Examples.fresh_max_steps))
  /\ trainer (env Examples.used_max_steps) = trainer (env Examples.fresh_max_steps)
  /\ FitLoop.iteration_count (self (snd (FitLoop.reset Examples.used_max_steps))) = 0
  /\ fst (FitLoop.done (snd (FitLoop.reset Examples.fresh_max_steps))) = Ret false
  /\ fst (FitLoop.done (snd (FitLoop.reset Examples.used_max_steps))) = Ret true.
Proof. repeat split. Qed.

(** ** Skipping the run *)

Section FitRun.
Variable oracle : Oracle.

(** C8: if [done] is true at entry, or the trainer has no training batches,
    [FitLoop.run] returns [None] in the world left by that one evaluation
    of [done]: no reset, hook or advance has run (the loop object is
    unchanged, [current_epoch] included, and no collaborator was called). *)
Theorem run_skips (fuel : nat) (w : World FitLoop.t) :
  fst (FitLoop.done w) = Ret true
  \/ is_zero_batches (num_training_batches (trainer (env w))) = true ->
  FitLoop.run oracle fuel w = Some (Ret VNone, snd (FitLoop.done w))
  /\ self (snd (FitLoop.done w)) = self w
  /\ FitLoop.current_epoch (snd (FitLoop.done w)) = FitLoop.current_epoch w
  /\ (trace (snd (FitLoop.done w)) = trace w
      \/ trace (snd (FitLoop.done w))
         = trace w ++ [LogStopDeferred (FitLoop.min_epochs (self w)) (FitLoop.min_steps w)]).
Proof.
  intros Hskip.
  assert (Hself : self (snd (FitLoop.done w)) = self w)
    by (destruct (fit_done_frame w) as [H | [_ H]]; rewrite H; reflexivity).
  assert (Hnb : num_training_batches (trainer (env (snd (FitLoop.done w))))
                = num_training_batches (trainer (env w)))
    by (destruct (fit_done_frame w) as [H | [_ H]]; rewrite H; reflexivity).
  split; [ | split; [exact Hself | split]].
  - unfold FitLoop.run, FitLoop._should_skip_training, bind, get, ret.
    destruct (fit_done_returns w) as [b Hb].
    destruct (FitLoop.done w) as [r w1]. cbn [fst snd] in *. subst r.
    destruct b; [reflexivity | ].
    destruct Hskip as [Hd | Hz]; [discriminate | ].
    rewrite Hnb, Hz. reflexivity.
  - unfold FitLoop.current_epoch. rewrite Hself. reflexivity.
  - destruct (fit_done_frame w) as [H | [_ H]]; rewrite H; [left | right]; reflexivity.
Qed.
End FitRun.

(** A trainer without training batches: the run is skipped, with any fuel. *)
Lemma run_skips_witness :
  FitLoop.run Examples.training 0 Examples.no_batches
  = Some (Ret VNone, Examples.no_batches).
Proof.
  apply (run_skips Examples.training 0 Examples.no_batches).
  right. reflexivity.
Defined.

(** ** Early termination and exceptions in [Loop.run] *)

Section BaseRun.
Context {P Args R : Type}.
Variable L : Loop.methods P Args R.

Lemma run_loop_done (fuel : nat) (args : Args) (w w1 : World P) :
  Loop.done L w = (Ret true, w1) ->
  Loop.run_loop L (S fuel) args w = Some (Loop.on_run_end L w1).
Proof. intros H. cbn. rewrite H. reflexivity. Qed.

Lemma run_loop_step (fuel : nat) (args : Args) (w w1 w2 : World P) :
  Loop.done L w = (Ret false, w1) ->
  Loop.iteration L args w1 = (Ret tt, w2) ->
  Loop.run_loop L (S fuel) args w = Loop.run_loop L fuel args w2.
Proof. intros Hd Hi. cbn. rewrite Hd, Hi. reflexivity. Qed.

Lemma run_loop_stop_iteration (fuel : nat) (args : Args) (w w1 w2 : World P) :
  Loop.done L w = (Ret false, w1) ->
  Loop.iteration L args w1 = (Raise StopIteration, w2) ->
  Loop.run_loop L (S fuel) args w = Some (Loop.on_run_end L w2).
Proof. intros Hd Hi. cbn. rewrite Hd, Hi. reflexivity. Qed.

Lemma run_loop_raise (fuel : nat) (args : Args) (w w1 w2 : World P) (e : exn) :
  e <> StopIteration ->
  Loop.done L w = (Ret false, w1) ->
  Loop.iteration L args w1 = (Raise e, w2) ->
  Loop.run_loop L (S fuel) args w = Some (Raise e, w2).
Proof.
  intros He Hd Hi. cbn. rewrite Hd, Hi. destruct e; congruence.
Qed.

Lemma run_unfold (fuel : nat) (args : Args) (w w1 w2 : World P) :
Loop.reset L w = (Ret tt, w1) ->
Loop.on_run_start L args w1 = (Ret tt, w2) ->
Loop.run L fuel args w = Loop.run_loop L fuel args w2.
Proof. intros Hr Hs. unfold Loop.run, bind. rewrite Hr, Hs. reflexivity. Qed.

(** An exception of [advance] leaves the iteration at once. *)
Lemma iteration_advance_raises (args : Args) (w1 w2 w3 : World P) (e : exn) :
  Loop.on_advance_start L args w1 = (Ret tt, w2) ->
  Loop.advance L args w2 = (Raise e, w3) ->
  Loop.iteration L args w1 = (Raise e, w3).
Proof. intros Hs Ha. unfold Loop.iteration, bind. rewrite Hs, Ha. reflexivity. Qed.

Lemma iteration_on_advance_start_raises (args : Args) (w1 w2 : World P) (e : exn) :
  Loop.on_advance_start L args w1 = (Raise e, w2) ->
  Loop.iteration L args w1 = (Raise e, w2).
Proof. intros Hs. unfold Loop.iteration, bind. rewrite Hs. reflexivity. Qed.

Lemma iteration_on_advance_end_raises (args : Args) (w1 w2 w3 w4 : World P) (e : exn) :
  Loop.on_advance_start L args w1 = (Ret tt, w2) ->
  Loop.advance L args w2 = (Ret tt, w3) ->
  Loop.on_advance_end L w3 = (Raise e, w4) ->
  Loop.iteration L args w1 = (Raise e, w4).
Proof.
  intros Hs Ha He. unfold Loop.iteration, bind. rewrite Hs, Ha, He. reflexivity.
Qed.

Lemma iteration_increment_raises (args : Args) (w1 w2 w3 w4 w5 : World P) (e : exn) :
  Loop.on_advance_start L args w1 = (Ret tt, w2) ->
  Loop.advance L args w2 = (Ret tt, w3) ->
  Loop.on_advance_end L w3 = (Ret tt, w4) ->
  Loop.increment_iteration L (Loop.get_iteration_count L (self w4)) w4 = (Raise e, w5) ->
  Loop.iteration L args w1 = (Raise e, w5).
Proof.
  intros Hs Ha He Hi. unfold Loop.iteration, bind. rewrite Hs, Ha, He.
  unfold get. rewrite Hi. reflexivity.
Qed.

(** After [n] complete iterations [run] is where the [while] loop is. *)
Lemma run_reaches (args : Args) (w0 : World P) (n : nat) (w : World P) :
  reaches L args w0 n w ->
  forall fuel, Loop.run L (n + fuel) args w0 = Loop.run_loop L fuel args w.
Proof.
  induction 1 as [w1 w2 Hr Hs | n w w1 w2 _ IH Hd Hi]; intros fuel.
  - apply (run_unfold _ args w0 w1 w2 Hr Hs).
  - replace (S n + fuel)%nat with (n + S fuel)%nat by lia.
    rewrite IH. apply (run_loop_step fuel args w w1 w2 Hd Hi).
Qed.

(** An exception other than [StopIteration] out of the iteration that follows
    [n] complete ones is the outcome of [run]. *)
Lemma run_iteration_raises (args : Args) (w0 : World P) (n fuel : nat)
      (w w1 w2 : World P) (e : exn) :
  e <> StopIteration ->
  reaches L args w0 n w ->
  Loop.done L w = (Ret false, w1) ->
  Loop.iteration L args w1 = (Raise e, w2) ->
  Loop.run L (n + S fuel) args w0 = Some (Raise e, w2).
Proof.
  intros He Hn Hd Hi. rewrite (run_reaches args w0 n w Hn).
  apply (run_loop_raise fuel args w w1 w2 e He Hd Hi).
Qed.
End BaseRun.

Section EvaluationAdvance.
Variable oracle : Oracle.

(** A [None] batch makes [advance] raise [StopIteration] before any hook
    or step is called; only the iterator has moved on. *)
Lemma advance_none_batch (a : EvaluationLoop.args) (w : World EvaluationLoop.t)
      (batch_idx : Z) (rest : list (Z * value)) :
  dataloader_iter (env w) = (batch_idx, VNone) :: rest ->
  EvaluationLoop.advance oracle a w
  = (Raise StopIteration,
     mkWorld (self w) (set_dataloader_iter rest (env w)) (trace w)).
Proof.
  intros Hit. unfold EvaluationLoop.advance, bind, get, raise, modify_env.
  rewrite Hit. reflexivity.
Qed.
End EvaluationAdvance.

(** C5: when [advance] raises [StopIteration], in the first iteration of a
    run or after any number of complete ones, the iteration ends at once, in
    the world [advance] left: [on_advance_end] is not called and
    [iteration_count] is not incremented; [run] catches the signal, calls
    [on_run_end] and returns its result.  Any other exception, whether
    raised by [reset], [on_run_start], [done], [on_advance_start], [advance],
    [on_advance_end], [increment_iteration] or [on_run_end], in whichever
    iteration, is the outcome of [run], unchanged and with the world as it
    was when raised; this holds of every loop, whether its [advance] ever
    raises [StopIteration] or not.  In [EvaluationLoop.advance] a [None]
    batch from the iterator raises [StopIteration]. *)
Theorem run_early_termination {P Args R : Type} (L : Loop.methods P Args R)
        (args : Args) :
  (forall (w0 : World P) (n fuel : nat) (w w1 w2 w3 : World P),
      reaches L args w0 n w ->
      Loop.done L w = (Ret false, w1) ->
      Loop.on_advance_start L args w1 = (Ret tt, w2) ->
      Loop.advance L args w2 = (Raise StopIteration, w3) ->
      Loop.iteration L args w1 = (Raise StopIteration, w3)
      /\ Loop.run L (n + S fuel) args w0 = Some (Loop.on_run_end L w3))
  /\ (forall e : exn, e <> StopIteration ->
        (forall fuel w0 w1,
            Loop.reset L w0 = (Raise e, w1) ->
            Loop.run L fuel args w0 = Some (Raise e, w1))
        /\ (forall fuel w0 w1 w2,
            Loop.reset L w0 = (Ret tt, w1) ->
            Loop.on_run_start L args w1 = (Raise e, w2) ->
            Loop.run L fuel args w0 = Some (Raise e, w2))
        /\ (forall w0 n fuel w w1,
            reaches L args w0 n w ->
            Loop.done L w = (Raise e, w1) ->
            Loop.run L (n + S fuel) args w0 = Some (Raise e, w1))
        /\ (forall w0 n fuel w w1 w2,
            reaches L args w0 n w ->
            Loop.done L w = (Ret false, w1) ->
            Loop.on_advance_start L args w1 = (Raise e, w2) ->
            Loop.run L (n + S fuel) args w0 = Some (Raise e, w2))
        /\ (forall w0 n fuel w w1 w2 w3,
            reaches L args w0 n w ->
            Loop.done L w = (Ret false, w1) ->
            Loop.on_advance_start L args w1 = (Ret tt, w2) ->
            Loop.advance L args w2 = (Raise e, w3) ->
            Loop.run L (n + S fuel) args w0 = Some (Raise e, w3))
        /\ (forall w0 n fuel w w1 w2 w3 w4,
            reaches L args w0 n w ->
            Loop.done L w = (Ret false, w1) ->
            Loop.on_advance_start L args w1 = (Ret tt, w2) ->
            Loop.advance L args w2 = (Ret tt, w3) ->
            Loop.on_advance_end L w3 = (Raise e, w4) ->
            Loop.run L (n + S fuel) args w0 = Some (Raise e, w4))
        /\ (forall w0 n fuel w w1 w2 w3 w4 w5,
            reaches L args w0 n w ->
            Loop.done L w = (Ret false, w1) ->
            Loop.on_advance_start L args w1 = (Ret tt, w2) ->
            Loop.advance L args w2 = (Ret tt, w3) ->
            Loop.on_advance_end L w3 = (Ret tt, w4) ->
            Loop.increment_iteration L (Loop.get_iteration_count L (self w4)) w4
              = (Raise e, w5) ->
            Loop.run L (n + S fuel) args w0 = Some (Raise e, w5))
        /\ (forall w0 n fuel w w1 w2,
            reaches L args w0 n w ->
            Loop.done L w = (Ret true, w1) ->
            Loop.on_run_end L w1 = (Raise e, w2) ->
            Loop.run L (n + S fuel) args w0 = Some (Raise e, w2))
        /\ (forall w0 n fuel w w1 w2 w3 w4,
            reaches L args w0 n w ->
            Loop.done L w = (Ret false, w1) ->
            Loop.on_advance_start L args w1 = (Ret tt, w2) ->
            Loop.advance L args w2 = (Raise StopIteration, w3) ->
            Loop.on_run_end L w3 = (Raise e, w4) ->
            Loop.run L (n + S fuel) args w0 = Some (Raise e, w4)))
  /\ (forall (oracle : Oracle) (a : EvaluationLoop.args) (we : World EvaluationLoop.t)
             (batch_idx : Z) (rest : list (Z * value)),
        dataloader_iter (env we) = (batch_idx, VNone) :: rest ->
        EvaluationLoop.advance oracle a we
        = (Raise StopIteration,
           mkWorld (self we) (set_dataloader_iter rest (env we)) (trace we))).
Proof.
  assert (Hstop : forall (w0 : World P) (n fuel : nat) (w w1 w2 w3 : World P),
             reaches L args w0 n w ->
             Loop.done L w = (Ret false, w1) ->
             Loop.on_advance_start L args w1 = (Ret tt, w2) ->
             Loop.advance L args w2 = (Raise StopIteration, w3) ->
             Loop.iteration L args w1 = (Raise StopIteration, w3)
             /\ Loop.run L (n + S fuel) args w0 = Some (Loop.on_run_end L w3)).
  { intros w0 n fuel w w1 w2 w3 Hn Hd Hs Ha.
    pose proof (iteration_advance_raises L args w1 w2 w3 _ Hs Ha) as Hi.
    split; [exact Hi | ].
    rewrite (run_reaches L args w0 n w Hn).
    apply (run_loop_stop_iteration L fuel args w w1 w3 Hd Hi). }
  split; [exact Hstop | ]. split.
  - intros e He. repeat split.
    + intros fuel w0 w1 Hr. unfold Loop.run, bind. rewrite Hr. reflexivity.
    + intros fuel w0 w1 w2 Hr Ho. unfold Loop.run, bind. rewrite Hr, Ho. reflexivity.
    + intros w0 n fuel w w1 Hn Hd. rewrite (run_reaches L args w0 n w Hn).
      cbn. rewrite Hd. reflexivity.
    + intros w0 n fuel w w1 w2 Hn Hd Hs.
      apply (run_iteration_raises L args w0 n fuel w w1 w2 e He Hn Hd).
      apply iteration_on_advance_start_raises. exact Hs.
    + intros w0 n fuel w w1 w2 w3 Hn Hd Hs Ha.
      apply (run_iteration_raises L args w0 n fuel w w1 w3 e He Hn Hd).
      apply (iteration_advance_raises L args w1 w2 w3 e Hs Ha).
    + intros w0 n fuel w w1 w2 w3 w4 Hn Hd Hs Ha Hx.
      apply (run_iteration_raises L args w0 n fuel w w1 w4 e He Hn Hd).
      apply (iteration_on_advance_end_raises L args w1 w2 w3 w4 e Hs Ha Hx).
    + intros w0 n fuel w w1 w2 w3 w4 w5 Hn Hd Hs Ha Hx Hi.
      apply (run_iteration_raises L args w0 n fuel w w1 w5 e He Hn Hd).
      apply (iteration_increment_raises L args w1 w2 w3 w4 w5 e Hs Ha Hx Hi).
    + intros w0 n fuel w w1 w2 Hn Hd Hx. rewrite (run_reaches L args w0 n w Hn).
      rewrite (run_loop_done L fuel args w w1 Hd), Hx. reflexivity.
    + intros w0 n fuel w w1 w2 w3 w4 Hn Hd Hs Ha Hx.
      rewrite (proj2 (Hstop w0 n fuel w w1 w2 w3 Hn Hd Hs Ha)), Hx. reflexivity.
  - intros oracle a we batch_idx rest. apply advance_none_batch.
Qed.

(** A run over an iterator that yields one batch and then [None]: one step
    is made, the second iteration stops at the [None] batch without a step,
    a hook or an increment, and [run] returns the one output collected. *)
Lemma run_early_termination_witness :
  let L := EvaluationLoop.methods Examples.evaluating in
  let w := snd (EvaluationLoop.on_run_start Examples.five_batches
                  (snd (EvaluationLoop.reset Examples.eval_short_iterator))) in
  let w1 := snd (Loop.iteration L Examples.five_batches w) in
  let w3 := mkWorld (self w1) (set_dataloader_iter [(2, VObj 3)] (env w1)) (trace w1) in
  reaches L Examples.five_batches Examples.eval_short_iterator 1 w1
  /\ Loop.iteration L Examples.five_batches w1 = (Raise StopIteration, w3)
  /\ EvaluationLoop.iteration_count (self w3) = 1
  /\ EvaluationLoop.run Examples.evaluating 3 Examples.five_batches
       Examples.eval_short_iterator
     = Some (Ret (VList [VObj 42]), w3).
Proof.
  intros L w w1 w3.
  assert (Hn : reaches L Examples.five_batches Examples.eval_short_iterator 1 w1).
  { apply (reaches_iteration L Examples.five_batches Examples.eval_short_iterator
             0 w w w1).
    - apply (reaches_start L Examples.five_batches Examples.eval_short_iterator
               (snd (EvaluationLoop.reset Examples.eval_short_iterator)) w);
        vm_compute; reflexivity.
    - vm_compute. reflexivity.
    - vm_compute. reflexivity. }
  assert (Hd : Loop.done L w1 = (Ret false, w1)) by (vm_compute; reflexivity).
  assert (Hs : Loop.on_advance_start L Examples.five_batches w1 = (Ret tt, w1))
    by (vm_compute; reflexivity).
  assert (Ha : Loop.advance L Examples.five_batches w1 = (Raise StopIteration, w3)).
  { apply (advance_none_batch Examples.evaluating Examples.five_batches w1 1
             [(2, VObj 3)]).
    vm_compute. reflexivity. }
  destruct (run_early_termination L Examples.five_batches) as (Hstop & _).
  destruct (Hstop Examples.eval_short_iterator 1%nat 1%nat w1 w1 w1 w3 Hn Hd Hs Ha)
    as (Hi & Hr).
  split; [exact Hn | ].
  split; [exact Hi | ].
  split; [vm_compute; reflexivity | ].
  unfold EvaluationLoop.run. change 3%nat with (1 + 2)%nat.
  fold L. rewrite Hr. vm_compute. reflexivity.
Defined.

(** ** What a method may call: rules for [frames_at] *)

Lemma count_app (p : Collab -> bool) (l1 l2 : list Collab) :
  count p (l1 ++ l2) = (count p l1 + count p l2)%nat.
Proof. unfold count. rewrite filter_app, length_app. reflexivity. Qed.

Lemma count_snoc (p : Collab -> bool) (l : list Collab) (c : Collab) :
  count p (l ++ [c]) = (count p l + cost p c)%nat.
Proof.
  rewrite count_app. unfold count, cost. cbn. destruct (p c); reflexivity.
Qed.

Section Frames.
Context {P : Type}.
Variable p : Collab -> bool.

Lemma frames_weaken {A} (k k' : nat) (m : M P A) (w : World P) :
  (k <= k')%nat -> frames_at p k m w -> frames_at p k' m w.
Proof. intros Hk [Hs Hc]. split; [exact Hs | lia]. Qed.

Lemma frames_ret {A} (a : A) (w : World P) : frames_at p 0 (ret a) w.
Proof. split; cbn; [reflexivity | lia]. Qed.

Lemma frames_raise {A} (e : exn) (w : World P) : frames_at p 0 (@raise P A e) w.
Proof. split; cbn; [reflexivity | lia]. Qed.

Lemma frames_bind {A B} (k1 k2 : nat) (m : M P A) (f : A -> M P B) (w : World P) :
  frames_at p k1 m w ->
  (forall a, frames_at p k2 (f a) (snd (m w))) ->
  frames_at p (k1 + k2) (bind m f) w.
Proof.
  intros [Hs Hc] Hf. unfold frames_at, bind.
  destruct (m w) as [[a | e] w1]; cbn [snd] in *.
  - destruct (Hf a) as [Hs' Hc']. split; [congruence | lia].
  - split; [exact Hs | lia].
Qed.

(** [w <- get ;; f w] *)
Lemma frames_get {A} (k : nat) (f : World P -> M P A) (w : World P) :
  frames_at p k (f w) w -> frames_at p k (bind get f) w.
Proof. intros H. exact H. Qed.

Lemma frames_modify_env (g : Env -> Env) (w : World P) :
  frames_at p 0 (modify_env g) w.
Proof. split; cbn; [reflexivity | lia]. Qed.

Lemma frames_emit (c : Collab) (w : World P) : frames_at p (cost p c) (emit c) w.
Proof. split; cbn; [reflexivity | rewrite count_snoc; lia]. Qed.

Lemma frames_call (oracle : Oracle) (c : Collab) (w : World P) :
  frames_at p (cost p c) (call oracle c) w.
Proof.
  unfold frames_at, call. destruct (oracle c (env w)) as [r e'].
  split; cbn; [reflexivity | rewrite count_snoc; lia].
Qed.

Lemma frames_finally {A} (k1 k2 : nat) (m : M P A) (fin : M P unit) (w : World P) :
  frames_at p k1 m w ->
  frames_at p k2 fin (snd (m w)) ->
  frames_at p (k1 + k2) (finally m fin) w.
Proof.
  intros [Hs Hc] [Hs' Hc']. unfold frames_at, finally.
  destruct (m w) as [r w1]; cbn [snd] in *.
  destruct (fin w1) as [[u | e] w2]; cbn [snd] in *; split; try congruence; lia.
Qed.

Lemma frames_suppress (k : nat) (m : M P unit) (w : World P) :
  frames_at p k m w -> frames_at p k (suppress_Exception m) w.
Proof.
  intros [Hs Hc]. unfold frames_at, suppress_Exception.
  destruct (m w) as [[u | e] w1]; cbn [snd] in *;
    [ | destruct (is_Exception e)]; split; assumption.
Qed.

Lemma frames_with_profile {A} (oracle : Oracle) (k : nat) (name : string)
      (m : M P A) :
  p (ProfileEnter name) = false -> p (ProfileExit name) = false ->
  (forall w, frames_at p k m w) ->
  forall w, frames_at p k (with_profile oracle name m) w.
Proof.
  intros He Hx Hm w. unfold with_profile.
  apply (frames_weaken (cost p (ProfileEnter name) + (k + (cost p (ProfileExit name) + 0)))).
  { unfold cost. rewrite He, Hx. lia. }
  apply frames_bind; [apply frames_call | intros _].
  apply frames_finally; [apply Hm | ].
  apply frames_bind; [apply frames_call | intros _; apply frames_ret].
Qed.

Lemma frames_if {A} (b : bool) (k1 k2 : nat) (m1 m2 : M P A) (w : World P) :
  frames_at p k1 m1 w -> frames_at p k2 m2 w ->
  frames_at p (Nat.max k1 k2) (if b then m1 else m2) w.
Proof.
  intros H1 H2. destruct b; [apply (frames_weaken k1) | apply (frames_weaken k2)];
    try assumption; lia.
Qed.

Lemma frames_match_option {A X} (o : option X) (k1 k2 : nat)
      (m1 : X -> M P A) (m2 : M P A) (w : World P) :
  (forall x, frames_at p k1 (m1 x) w) -> frames_at p k2 m2 w ->
  frames_at p (Nat.max k1 k2) (match o with Some x => m1 x | None => m2 end) w.
Proof.
  intros H1 H2.
  destruct o; [apply (frames_weaken k1) | apply (frames_weaken k2)];
    try apply H1; try assumption; lia.
Qed.

Lemma frames_for_each {A} (k : nat) (l : list A) (f : A -> M P unit) :
  (forall x w, frames_at p k (f x) w) ->
  forall w, frames_at p (List.length l * k) (for_each l f) w.
Proof.
  intros Hf. induction l as [ | x l IH]; intros w; cbn [for_each List.length Nat.mul].
  - apply frames_ret.
  - apply frames_bind; [apply Hf | intros _; apply IH].
Qed.
End Frames.

Ltac frames_step :=
  lazymatch goal with
  | |- frames_at _ _ (bind get _) _ => apply frames_get; cbv beta
  | |- frames_at _ _ (bind _ _) _ =>
      eapply frames_bind;
      [ | intros ?;
          lazymatch goal with |- frames_at _ _ _ ?w' => generalize w'; intros ? end ]
  | |- frames_at _ _ (ret _) _ => apply frames_ret
  | |- frames_at _ _ (raise _) _ => apply frames_raise
  | |- frames_at _ _ (modify_env _) _ => apply frames_modify_env
  | |- frames_at _ _ (emit _) _ => apply frames_emit
  | |- frames_at _ _ (call _ _) _ => apply frames_call
  | |- frames_at _ _ (if _ then _ else _) _ => eapply frames_if
  | |- frames_at _ _ (suppress_Exception _) _ => eapply frames_suppress
  | |- frames_at _ _ (finally _ _) _ => eapply frames_finally
  end.

(** ** Teardown happens once *)

Section Teardown.
Variable oracle : Oracle.

Lemma on_run_end_again (w : World FitLoop.t) :
  FitLoop._teardown_already_run (self w) = true ->
  FitLoop.on_run_end oracle w = (Ret VNone, w).
Proof.
  intros H. unfold FitLoop.on_run_end. unfold bind at 1. unfold get at 1.
  rewrite H. reflexivity.
Qed.

Lemma on_run_end_first (w : World FitLoop.t) :
  FitLoop._teardown_already_run (self w) = false ->
  FitLoop.on_run_end oracle w
  = teardown oracle (mkWorld (torn_down (self w)) (env w) (trace w)).
Proof.
  intros H. unfold FitLoop.on_run_end. unfold bind at 1. unfold get at 1.
  rewrite H. reflexivity.
Qed.

Lemma check_checkpoint_callback_frames (p : Collab -> bool) (kc : nat)
      (should_update is_last : bool) (w : World FitLoop.t) :
  (forall cb, (cost p (CheckpointOnValidationEnd cb) <= kc)%nat) ->
  frames_at p
    (cost p (RankZeroInfo "Saving latest checkpoint...")
     + List.length (checkpoint_callbacks (trainer (env w))) * kc)
    (FitLoop.check_checkpoint_callback oracle should_update is_last) w.
Proof.
  intros Hkc. unfold FitLoop.check_checkpoint_callback.
  apply frames_get; cbv beta.
  destruct (should_update && has_trained (trainer (env w))).
  - apply frames_bind.
    + eapply frames_weaken; [ | repeat frames_step]. lia.
    + intros _. apply frames_for_each. intros cb w'.
      eapply frames_weaken; [ | repeat frames_step]. specialize (Hkc cb). lia.
  - eapply frames_weaken; [ | apply frames_ret]. lia.
Qed.

Lemma teardown_frames (p : Collab -> bool) (kc : nat) (w : World FitLoop.t) :
  (forall cb, (cost p (CheckpointOnValidationEnd cb) <= kc)%nat) ->
  frames_at p
    (cost p (RankZeroInfo "Saving latest checkpoint...")
     + List.length (checkpoint_callbacks (trainer (env w))) * kc
     + cost p (CallHook "on_train_end" [])
     + cost p (LoggerFinalize "success")
     + cost p ProfilerDescribe
     + cost p AcceleratorOnTrainEnd)
    (teardown oracle) w.
Proof.
  intros Hkc. unfold teardown.
  apply frames_get; cbv beta.
  eapply frames_weaken; [ | eapply frames_bind; [apply frames_modify_env | intros _ ] ].
  2: { eapply frames_bind.
       - apply (check_checkpoint_callback_frames p kc true true _ Hkc).
       - intros _. repeat frames_step.
         eapply frames_match_option; [intros ? | ]; repeat frames_step. }
  cbn [snd modify_env env set_global_step trainer]. lia.
Qed.
End Teardown.

Section Idempotence.
Variable oracle : Oracle.

Lemma on_run_end_self (w : World FitLoop.t) :
  self (snd (FitLoop.on_run_end oracle w))
  = if FitLoop._teardown_already_run (self w) then self w else torn_down (self w).
Proof.
  destruct (FitLoop._teardown_already_run (self w)) eqn:Hf.
  - rewrite (on_run_end_again oracle w Hf). reflexivity.
  - rewrite (on_run_end_first oracle w Hf).
    apply (teardown_frames oracle (fun _ => false) 0). intros cb. cbn. lia.
Qed.

Lemma on_run_end_sets_flag (w : World FitLoop.t) :
  FitLoop._teardown_already_run (self (snd (FitLoop.on_run_end oracle w))) = true.
Proof.
  rewrite on_run_end_self.
  destruct (FitLoop._teardown_already_run (self w)) eqn:Hf; [exact Hf | reflexivity].
Qed.

Lemma on_run_end_count (p : Collab -> bool) (kc : nat) (w : World FitLoop.t) :
  (forall cb, (cost p (CheckpointOnValidationEnd cb) <= kc)%nat) ->
  (count p (trace (snd (FitLoop.on_run_end oracle w)))
   <= count p (trace w)
      + (cost p (RankZeroInfo "Saving latest checkpoint...")
         + List.length (checkpoint_callbacks (trainer (env w))) * kc
         + cost p (CallHook "on_train_end" [])
         + cost p (LoggerFinalize "success")
         + cost p ProfilerDescribe
         + cost p AcceleratorOnTrainEnd))%nat.
Proof.
  intros Hkc. destruct (FitLoop._teardown_already_run (self w)) eqn:Hf.
  - rewrite (on_run_end_again oracle w Hf). cbn [snd]. lia.
  - rewrite (on_run_end_first oracle w Hf).
    apply (teardown_frames oracle p kc
             (mkWorld (torn_down (self w)) (env w) (trace w)) Hkc).
Qed.

Lemma on_run_end_times_torn_down (n : nat) (w : World FitLoop.t) :
  FitLoop._teardown_already_run (self w) = true ->
  FitLoop.on_run_end_times oracle n w = w.
Proof.
  intros Hf. induction n as [ | n IH]; [reflexivity | ].
  cbn [FitLoop.on_run_end_times]. rewrite (on_run_end_again oracle w Hf). exact IH.
Qed.

Lemma on_run_end_times_S (n : nat) (w : World FitLoop.t) :
  FitLoop.on_run_end_times oracle (S n) w = snd (FitLoop.on_run_end oracle w).
Proof.
  cbn [FitLoop.on_run_end_times].
  apply on_run_end_times_torn_down, on_run_end_sets_flag.
Qed.

(** C3: whatever the loop and however many times [on_run_end] is called,
    the world after [n + 1] calls is the world after the first one: every
    later call finds [_teardown_already_run] set, returns [None] and
    changes nothing.  So over any number of calls [current_epoch] is
    decremented at most once, and the [on_train_end] hook, the logger's
    [finalize], the profiler's [describe], the accelerator's
    [on_train_end] and the "Saving latest checkpoint..." message occur at
    most once more than before, and the checkpoint callbacks are called at
    most once each. *)
Theorem on_run_end_idempotent (n : nat) (w : World FitLoop.t) :
  let w1 := snd (FitLoop.on_run_end oracle w) in
  let wn := FitLoop.on_run_end_times oracle n w in
  FitLoop.on_run_end_times oracle (S n) w = w1
  /\ FitLoop._teardown_already_run (self w1) = true
  /\ FitLoop.on_run_end oracle w1 = (Ret VNone, w1)
  /\ (self wn = self w \/ self wn = torn_down (self w))
  /\ FitLoop.current_epoch w - 1 <= FitLoop.current_epoch wn <= FitLoop.current_epoch w
  /\ (count is_on_train_end (trace wn) <= count is_on_train_end (trace w) + 1)%nat
  /\ (count is_logger_finalize (trace wn) <= count is_logger_finalize (trace w) + 1)%nat
  /\ (count is_profiler_describe (trace wn)
      <= count is_profiler_describe (trace w) + 1)%nat
  /\ (count is_accelerator_on_train_end (trace wn)
      <= count is_accelerator_on_train_end (trace w) + 1)%nat
  /\ (count is_saving_latest (trace wn) <= count is_saving_latest (trace w) + 1)%nat
  /\ (count is_checkpoint_check (trace wn)
      <= count is_checkpoint_check (trace w)
         + List.length (checkpoint_callbacks (trainer (env w))))%nat.
Proof.
  cbn zeta.
  split; [apply on_run_end_times_S | ].
  split; [apply on_run_end_sets_flag | ].
  split; [apply on_run_end_again, on_run_end_sets_flag | ].
  destruct n as [ | n].
  - cbn [FitLoop.on_run_end_times].
    split; [left; reflexivity | ]. split; [lia | ]. repeat split; lia.
  - rewrite on_run_end_times_S.
    assert (Hself := on_run_end_self w).
    split; [ | split].
    + rewrite Hself. destruct (FitLoop._teardown_already_run (self w)); auto.
    + unfold FitLoop.current_epoch. rewrite Hself.
      destruct (FitLoop._teardown_already_run (self w)); cbn; lia.
    + repeat split.
      * eapply Nat.le_trans;
          [apply (on_run_end_count is_on_train_end 0 w); intros cb; cbn; lia | cbn; lia].
      * eapply Nat.le_trans;
          [apply (on_run_end_count is_logger_finalize 0 w); intros cb; cbn; lia | cbn; lia].
      * eapply Nat.le_trans;
          [apply (on_run_end_count is_profiler_describe 0 w); intros cb; cbn; lia | cbn; lia].
      * eapply Nat.le_trans;
          [apply (on_run_end_count is_accelerator_on_train_end 0 w); intros cb; cbn; lia | cbn; lia].
      * eapply Nat.le_trans;
          [apply (on_run_end_count is_saving_latest 0 w); intros cb; cbn; lia | cbn; lia].
      * eapply Nat.le_trans;
          [apply (on_run_end_count is_checkpoint_check 1 w); intros cb; cbn; lia
          | cbn; lia].
Qed.
End Idempotence.

(** Two calls in a row after three epochs: one teardown. *)
Example on_run_end_twice :
  let w := mkWorld (FitLoop.set_iteration_count 3 (self Examples.three_epochs))
                   (env Examples.three_epochs) [] in
  let w1 := snd (FitLoop.on_run_end Examples.training w) in
  trace w1 = [CallHook "on_train_end" []; ProfilerDescribe; AcceleratorOnTrainEnd]
  /\ FitLoop.current_epoch w1 = 2
  /\ _running_stage (trainer (env w1)) = None
  /\ FitLoop.on_run_end Examples.training w1 = (Ret VNone, w1).
Proof. vm_compute. repeat split. Qed.

(** ** A run without a stop request: rules for [proceeds_at] *)

Section Proceeds.
Context {P : Type}.

Lemma proceeds_ret {A} (a : A) (w : World P) : proceeds_at 0 (ret a) w.
Proof.
  intros Hq. cbn. repeat split; try assumption; try apply Hq.
  - exists a. reflexivity.
  - lia.
Qed.

Lemma proceeds_bind {A B} (k k1 k2 : nat) (m : M P A) (f : A -> M P B) (w : World P) :
  proceeds_at k1 m w ->
  (forall a, proceeds_at k2 (f a) (snd (m w))) ->
  k = (k1 + k2)%nat ->
  proceeds_at k (bind m f) w.
Proof.
  intros Hm Hf -> Hq. destruct (Hm Hq) as ([a Ha] & Hs & Hq1 & Hc).
  unfold bind. destruct (m w) as [r w1]. cbn [fst snd] in *. subst r.
  destruct (Hf a Hq1) as (Hr & Hs' & Hq2 & Hc').
  repeat split; try assumption; try apply Hq2; [congruence | lia].
Qed.

Lemma proceeds_get {A} (k : nat) (f : World P -> M P A) (w : World P) :
  proceeds_at k (f w) w -> proceeds_at k (bind get f) w.
Proof. intros H. exact H. Qed.

Lemma proceeds_modify_env (g : Env -> Env) (w : World P) :
  (forall e, quiet e -> quiet (g e)) ->
  proceeds_at 0 (modify_env g) w.
Proof.
  intros Hg Hq. cbn. repeat split; try apply (Hg _ Hq).
  - exists tt. reflexivity.
  - lia.
Qed.

Lemma proceeds_emit (c : Collab) (w : World P) :
  is_training_epoch c = false -> proceeds_at 0 (emit c) w.
Proof.
  intros Hc Hq. cbn. repeat split; try apply Hq.
  - exists tt. reflexivity.
  - rewrite count_snoc. unfold cost. rewrite Hc. reflexivity.
Qed.

Lemma proceeds_if {A} (b : bool) (k : nat) (m1 m2 : M P A) (w : World P) :
  proceeds_at k m1 w -> proceeds_at k m2 w ->
  proceeds_at k (if b then m1 else m2) w.
Proof. destruct b; auto. Qed.

Lemma proceeds_match_option {A X} (o : option X) (k : nat)
      (m1 : X -> M P A) (m2 : M P A) (w : World P) :
  (forall x, proceeds_at k (m1 x) w) -> proceeds_at k m2 w ->
  proceeds_at k (match o with Some x => m1 x | None => m2 end) w.
Proof. destruct o; auto. Qed.

Lemma proceeds_finally {A} (k k1 k2 : nat) (m : M P A) (fin : M P unit) (w : World P) :
  proceeds_at k1 m w ->
  proceeds_at k2 fin (snd (m w)) ->
  k = (k1 + k2)%nat ->
  proceeds_at k (finally m fin) w.
Proof.
  intros Hm Hf -> Hq. destruct (Hm Hq) as ([a Ha] & Hs & Hq1 & Hc).
  unfold finally. destruct (m w) as [r w1]. cbn [fst snd] in *. subst r.
  destruct (Hf Hq1) as ([u Hu] & Hs' & Hq2 & Hc').
  destruct (fin w1) as [r2 w2]. cbn [fst snd] in *. subst r2.
  repeat split; try assumption; try apply Hq2;
    [exists a; reflexivity | cbn [snd]; congruence | cbn [snd]; lia].
Qed.

Lemma proceeds_suppress (k : nat) (m : M P unit) (w : World P) :
  proceeds_at k m w -> proceeds_at k (suppress_Exception m) w.
Proof.
  intros Hm Hq. destruct (Hm Hq) as ([a Ha] & Hs & Hq1 & Hc).
  unfold suppress_Exception. destruct (m w) as [r w1]. cbn [fst snd] in *. subst r.
  repeat split; try assumption; try apply Hq1. exists tt. reflexivity.
Qed.

Lemma proceeds_for_each {A} (l : list A) (f : A -> M P unit) :
  (forall x w, proceeds_at 0 (f x) w) ->
  forall w, proceeds_at 0 (for_each l f) w.
Proof.
  intros Hf. induction l as [ | x l IH]; intros w; cbn [for_each].
  - apply proceeds_ret.
  - eapply proceeds_bind; [apply Hf | intros _; apply IH | reflexivity].
Qed.

Section Calls.
Variable oracle : Oracle.
Hypothesis Hwb : well_behaved oracle.

Lemma proceeds_call (c : Collab) (w : World P) :
  proceeds_at (cost is_training_epoch c) (call oracle c) w.
Proof.
  intros Hq. unfold call. destruct (Hwb c (env w) Hq) as (v & e' & Ho & Hq').
  rewrite Ho. cbn. repeat split; try apply Hq'.
  - exists v. reflexivity.
  - apply count_snoc.
Qed.

Lemma proceeds_call_other (c : Collab) (w : World P) :
  is_training_epoch c = false -> proceeds_at 0 (call oracle c) w.
Proof.
  intros Hc. pose proof (proceeds_call c w) as H. unfold cost in H.
  rewrite Hc in H. exact H.
Qed.

Lemma proceeds_call_epoch (w : World P) :
  proceeds_at 1 (call oracle TrainingLoopRun) w.
Proof. apply (proceeds_call TrainingLoopRun w). Qed.

Lemma proceeds_with_profile {A} (k : nat) (name : string) (m : M P A) :
  (forall w, proceeds_at k m w) ->
  forall w, proceeds_at k (with_profile oracle name m) w.
Proof.
  intros Hm w. unfold with_profile.
  eapply proceeds_bind; [apply proceeds_call_other; reflexivity | intros _ | ].
  - eapply proceeds_finally; [apply Hm | | reflexivity].
    eapply proceeds_bind;
      [apply proceeds_call_other; reflexivity | intros _; apply proceeds_ret
      | reflexivity].
  - lia.
Qed.
End Calls.
End Proceeds.

Lemma quiet_set_global_step (g : Z) (e : Env) : quiet e -> quiet (set_global_step g e).
Proof. intros H. exact H. Qed.

Lemma quiet_set_accumulated_loss (a : TensorRunningAccum) (e : Env) :
  quiet e -> quiet (set_accumulated_loss a e).
Proof. intros H. exact H. Qed.

Lemma quiet_set_running_stage (s : option string) (e : Env) :
  quiet e -> quiet (set_running_stage s e).
Proof. intros H. exact H. Qed.

Lemma returns_only_ret {P A} (v : A) : returns_only v (@ret P A v).
Proof. intros w a [= <-]. reflexivity. Qed.

Lemma returns_only_bind {P A B} (v : B) (m : M P A) (f : A -> M P B) :
  (forall x, returns_only v (f x)) -> returns_only v (bind m f).
Proof.
  intros Hf w a. unfold bind. destruct (m w) as [[x | e] w1]; cbn.
  - apply Hf.
  - discriminate.
Qed.

Ltac proceeds_step Hwb :=
  lazymatch goal with
  | |- proceeds_at _ (bind get _) _ => apply proceeds_get; cbv beta
  | |- proceeds_at _ (bind _ _) _ =>
      eapply proceeds_bind;
      [ | intros ?;
          lazymatch goal with |- proceeds_at _ _ ?w' => generalize w'; intros ? end
        | ]
  | |- proceeds_at _ (ret _) _ => apply proceeds_ret
  | |- proceeds_at _ (modify_env (set_global_step _)) _ =>
      apply proceeds_modify_env; apply quiet_set_global_step
  | |- proceeds_at _ (modify_env (set_accumulated_loss _)) _ =>
      apply proceeds_modify_env; apply quiet_set_accumulated_loss
  | |- proceeds_at _ (modify_env (set_running_stage _)) _ =>
      apply proceeds_modify_env; apply quiet_set_running_stage
  | |- proceeds_at _ (emit _) _ => apply proceeds_emit; reflexivity
  | |- proceeds_at _ (call _ TrainingLoopRun) _ => apply (proceeds_call_epoch _ Hwb)
  | |- proceeds_at _ (call _ _) _ => apply (proceeds_call_other _ Hwb); reflexivity
  | |- proceeds_at _ (if _ then _ else _) _ => eapply proceeds_if
  | |- proceeds_at _ (suppress_Exception _) _ => eapply proceeds_suppress
  | |- proceeds_at _ (with_profile _ _ _) _ =>
      eapply (proceeds_with_profile _ Hwb); intros ?
  | |- proceeds_at _ (for_each _ _) _ => eapply proceeds_for_each; intros ? ?
  end.

Section Epochs.
Variable oracle : Oracle.
Hypothesis Hwb : well_behaved oracle.

Lemma check_checkpoint_callback_proceeds (should_update is_last : bool)
      (w : World FitLoop.t) :
  proceeds_at 0 (FitLoop.check_checkpoint_callback oracle should_update is_last) w.
Proof.
  unfold FitLoop.check_checkpoint_callback.
  repeat proceeds_step Hwb; reflexivity.
Qed.

Lemma on_run_start_proceeds (w : World FitLoop.t) :
  proceeds_at 0 (FitLoop.on_run_start oracle tt) w.
Proof. unfold FitLoop.on_run_start. repeat proceeds_step Hwb; reflexivity. Qed.

Lemma on_advance_start_proceeds (w : World FitLoop.t) :
  proceeds_at 0 (FitLoop.on_advance_start oracle tt) w.
Proof. unfold FitLoop.on_advance_start. repeat proceeds_step Hwb; reflexivity. Qed.

Lemma advance_proceeds (w : World FitLoop.t) :
  proceeds_at 1 (FitLoop.advance oracle tt) w.
Proof. unfold FitLoop.advance. repeat proceeds_step Hwb; reflexivity. Qed.
End Epochs.

Ltac fit_proceeds_step Hwb :=
  lazymatch goal with
  | |- proceeds_at _ (FitLoop.check_checkpoint_callback _ _ _) _ =>
      apply (check_checkpoint_callback_proceeds _ Hwb)
  | |- proceeds_at _ (match _ with Some _ => _ | None => _ end) _ =>
      eapply proceeds_match_option; [intros ? | ]
  | |- _ => proceeds_step Hwb
  end.

Section ThreeEpochs.
Variable oracle : Oracle.
Hypothesis Hwb : well_behaved oracle.

Lemma on_advance_end_proceeds (w : World FitLoop.t) :
  proceeds_at 0 (FitLoop.on_advance_end oracle) w.
Proof.
  unfold FitLoop.on_advance_end. repeat fit_proceeds_step Hwb; reflexivity.
Qed.

Lemma teardown_proceeds (w : World FitLoop.t) :
  proceeds_at 0 (teardown oracle) w.
Proof.
  unfold teardown. repeat fit_proceeds_step Hwb; reflexivity.
Qed.

Lemma teardown_returns_None : returns_only VNone (teardown oracle).
Proof.
  unfold teardown. repeat (apply returns_only_bind; intros ?).
  apply returns_only_ret.
Qed.

(** One epoch: the hooks run, the child loop runs once, the counter moves
    on by one. *)
Lemma iteration_proceeds (w : World FitLoop.t) :
  quiet (env w) ->
  exists w',
    Loop.iteration (FitLoop.methods oracle) tt w = (Ret tt, w')
    /\ self w' = FitLoop.set_iteration_count (FitLoop.iteration_count (self w) + 1) (self w)
    /\ quiet (env w')
    /\ count is_training_epoch (trace w')
       = (count is_training_epoch (trace w) + 1)%nat.
Proof.
  intros Hq. unfold Loop.iteration. cbn [FitLoop.methods Loop.on_advance_start
    Loop.advance Loop.on_advance_end Loop.increment_iteration
    Loop.get_iteration_count Loop.set_iteration_count].
  destruct (on_advance_start_proceeds oracle Hwb w Hq) as ([[] H1] & Hs1 & Hq1 & Hc1).
  unfold bind at 1.
  destruct (FitLoop.on_advance_start oracle tt w) as [r1 w1]. cbn [fst snd] in *. subst r1.
  destruct (advance_proceeds oracle Hwb w1 Hq1) as ([[] H2] & Hs2 & Hq2 & Hc2).
  unfold bind at 1.
  destruct (FitLoop.advance oracle tt w1) as [r2 w2]. cbn [fst snd] in *. subst r2.
  destruct (on_advance_end_proceeds w2 Hq2) as ([[] H3] & Hs3 & Hq3 & Hc3).
  unfold bind at 1.
  destruct (FitLoop.on_advance_end oracle w2) as [r3 w3]. cbn [fst snd] in *. subst r3.
  eexists. split; [reflexivity | ]. cbn [self env trace].
  split; [congruence | ]. split; [exact Hq3 | lia].
Qed.

Lemma done_quiet (w : World FitLoop.t) :
  quiet (env w) ->
  FitLoop.done w
  = (Ret (FitLoop.reached (FitLoop.current_epoch w) (FitLoop.max_epochs (self w))), w).
Proof.
  intros [Hs Hm]. rewrite (done_no_request w Hs).
  unfold FitLoop.max_steps. rewrite Hm. reflexivity.
Qed.

(** From the current epoch the loop runs the [n] epochs left up to
    [max_epochs] and hands over to [on_run_end], provided the fuel covers
    them. *)
Lemma run_loop_epochs (n : nat) :
  forall (fuel : nat) (w : World FitLoop.t) (m : Z),
    quiet (env w) ->
    FitLoop.max_epochs (self w) = Some m ->
    m - FitLoop.iteration_count (self w) = Z.of_nat n ->
    (n < fuel)%nat ->
    exists w',
      Loop.run_loop (FitLoop.methods oracle) fuel tt w
      = Some (FitLoop.on_run_end oracle w')
      /\ self w' = FitLoop.set_iteration_count m (self w)
      /\ quiet (env w')
      /\ count is_training_epoch (trace w')
         = (count is_training_epoch (trace w) + n)%nat.
Proof.
  induction n as [ | n IH]; intros fuel w m Hq Hmax Hleft Hfuel.
  - destruct fuel as [ | fuel]; [lia | ].
    exists w. split; [ | split; [ | split; [exact Hq | lia]]].
    + apply (run_loop_done (FitLoop.methods oracle) fuel tt w w).
      cbn [FitLoop.methods Loop.done].
      rewrite (done_quiet w Hq), Hmax. unfold FitLoop.reached, FitLoop.current_epoch.
      replace (FitLoop.iteration_count (self w) >=? m) with true; [reflexivity | ].
      symmetry. apply Z.geb_le. lia.
    + destruct w as [[i f mx mn] e tr]. cbn in *.
      unfold FitLoop.set_iteration_count. cbn. f_equal. lia.
  - destruct fuel as [ | fuel]; [lia | ].
    destruct (iteration_proceeds w Hq) as (w2 & Hit & Hs2 & Hq2 & Hc2).
    destruct (IH fuel w2 m Hq2) as (w' & Hrun & Hs' & Hq' & Hc').
    + rewrite Hs2. exact Hmax.
    + rewrite Hs2. cbn. lia.
    + lia.
    + exists w'. split; [ | split; [ | split; [exact Hq' | lia]]].
      * rewrite <- Hrun. apply (run_loop_step (FitLoop.methods oracle) fuel tt w w w2); [ | exact Hit].
        cbn [FitLoop.methods Loop.done].
        rewrite (done_quiet w Hq), Hmax. unfold FitLoop.reached, FitLoop.current_epoch.
        replace (FitLoop.iteration_count (self w) >=? m) with false; [reflexivity | ].
        symmetry. rewrite Z.geb_leb. apply Z.leb_gt. lia.
      * rewrite Hs', Hs2. reflexivity.
Qed.

(** The teardown of a loop that has not been torn down yet. *)
Lemma on_run_end_proceeds (w : World FitLoop.t) :
  quiet (env w) ->
  FitLoop._teardown_already_run (self w) = false ->
  exists w',
    FitLoop.on_run_end oracle w = (Ret VNone, w')
    /\ self w' = torn_down (self w)
    /\ quiet (env w')
    /\ count is_training_epoch (trace w') = count is_training_epoch (trace w).
Proof.
  intros Hq Hf. rewrite (on_run_end_first oracle w Hf).
  destruct (teardown_proceeds (mkWorld (torn_down (self w)) (env w) (trace w)) Hq)
    as ([a Ha] & Hs & Hq' & Hc).
  pose proof (teardown_returns_None _ _ Ha) as ->.
  destruct (teardown oracle _) as [r w']. cbn [fst snd self trace] in *. subst r.
  exists w'. repeat split; try assumption; try apply Hq'. lia.
Qed.

(** C9: a [FitLoop(min_epochs=1, max_epochs=3)] whose collaborators return,
    never ask to stop and set no step bound, connected to a trainer with
    training batches: [run()] returns, having run the child loop three
    times and brought [iteration_count] to 3, which [on_run_end] decrements
    once: [current_epoch] is 2.  (Whether the epochs produce a result or
    [None] makes no difference to the count.) *)
Theorem run_three_epochs (fuel : nat) (tr : Trainer)
        (it : list (Z * value)) (st : list value) (calls : list Collab) :
  should_stop tr = false ->
  is_zero_batches (num_training_batches tr) = false ->
  (4 <= fuel)%nat ->
  let l := FitLoop.__init__ (Some 1) (Some 3) None None in
  let w := mkWorld (fst l) (mkEnv tr (snd l) it st) calls in
  exists w',
    FitLoop.run oracle fuel w = Some (Ret VNone, w')
    /\ FitLoop.current_epoch w' = 2
    /\ FitLoop._teardown_already_run (self w') = true
    /\ count is_training_epoch (trace w')
       = (count is_training_epoch calls + 3)%nat.
Proof.
  intros Hstop Hbatches Hfuel l w.
  assert (Hq : quiet (env w)) by (split; [exact Hstop | reflexivity]).
  unfold FitLoop.run, FitLoop._should_skip_training, bind at 1.
  rewrite (done_quiet w Hq). cbn [FitLoop.reached FitLoop.current_epoch
    FitLoop.max_epochs FitLoop.iteration_count self w l fst FitLoop.__init__].
  change (0 >=? 3) with false. cbv iota. unfold bind, get, ret.
  cbn [env w trainer]. rewrite Hbatches.
  unfold Loop.run, bind. cbn [FitLoop.methods Loop.reset Loop.on_run_start].
  unfold FitLoop.reset at 1. cbn [modify_self].
  set (w0 := mkWorld _ _ _).
  assert (Hq0 : quiet (env w0)) by exact Hq.
  destruct (on_run_start_proceeds oracle Hwb w0 Hq0) as ([[] H1] & Hs1 & Hq1 & Hc1).
  destruct (FitLoop.on_run_start oracle tt w0) as [r1 w1]. cbn [fst snd] in *. subst r1.
  destruct (run_loop_epochs 3 fuel w1 3 Hq1) as (w3 & Hrun & Hs3 & Hq3 & Hc3).
  { rewrite Hs1. reflexivity. }
  { rewrite Hs1. reflexivity. }
  { lia. }
  rewrite Hrun.
  destruct (on_run_end_proceeds w3 Hq3) as (w' & Hend & Hs' & Hq' & Hc').
  { rewrite Hs3, Hs1. reflexivity. }
  exists w'. split; [rewrite Hend; reflexivity | ].
  unfold FitLoop.current_epoch. rewrite Hs', Hs3, Hs1.
  repeat split. rewrite Hc', Hc3, Hc1. cbn [trace w0 w]. lia.
Qed.
End ThreeEpochs.

Lemma training_well_behaved : well_behaved Examples.training.
Proof.
  intros c e Hq. destruct c; eexists; eexists; (split; [reflexivity | exact Hq]).
Qed.

(** The scenario with collaborators whose epochs produce a result. *)
Lemma run_three_epochs_witness :
  exists w',
    FitLoop.run Examples.training 4 Examples.three_epochs = Some (Ret VNone, w')
    /\ FitLoop.current_epoch w' = 2.
Proof.
  destruct (run_three_epochs Examples.training training_well_behaved 4
              (Examples.a_trainer false) [] [] [] eq_refl eq_refl (le_n 4))
    as (w' & Hrun & Hepoch & _).
  exists w'. split; [exact Hrun | exact Hepoch].
Defined.

(** The same run, computed: three epochs, then one teardown. *)
Example three_epochs_computed :
  match FitLoop.run Examples.training 4 Examples.three_epochs with
  | Some (Ret VNone, w') =>
      FitLoop.current_epoch w' = 2
      /\ count is_training_epoch (trace w') = 3%nat
      /\ count is_on_train_end (trace w') = 1%nat
  | _ => False
  end.
Proof. vm_compute. repeat split. Qed.

(** A second [run()] of the same loop finds [_teardown_already_run] set: its
    three epochs are not followed by a decrement. *)
Example second_run_computed :
  match FitLoop.run Examples.training 4 Examples.three_epochs with
  | Some (Ret VNone, w1) =>
      match FitLoop.run Examples.training 4 w1 with
      | Some (Ret VNone, w2) =>
          FitLoop.current_epoch w2 = 3
          /\ count is_training_epoch (trace w2) = 6%nat
          /\ count is_on_train_end (trace w2) = 1%nat
      | _ => False
      end
  | _ => False
  end.
Proof. vm_compute. repeat split. Qed.

(** * Further properties of the loops *)

(** ** Which [StopIteration] the base loop catches *)

Section StopIterationScope.
Context {P Args R : Type}.
Variable L : Loop.methods P Args R.

(** X1: the [try] of [Loop.run] covers the whole iteration and nothing else.
    A [StopIteration] raised by [on_advance_start], by [on_advance_end] (what
    [advance] did is kept, the counter is not incremented) or by
    [increment_iteration] ends the loop like one raised by [advance]: [run]
    goes on to [on_run_end].  A [StopIteration] raised by [reset],
    [on_run_start] or [done] is not caught: it is the outcome of [run]. *)
Theorem stop_iteration_scope (fuel : nat) (args : Args) :
  (forall v v1 v2,
      Loop.done L v = (Ret false, v1) ->
      Loop.on_advance_start L args v1 = (Raise StopIteration, v2) ->
      Loop.run_loop L (S fuel) args v = Some (Loop.on_run_end L v2))
  /\ (forall v v1 v2 v3 v4,
      Loop.done L v = (Ret false, v1) ->
      Loop.on_advance_start L args v1 = (Ret tt, v2) ->
      Loop.advance L args v2 = (Ret tt, v3) ->
      Loop.on_advance_end L v3 = (Raise StopIteration, v4) ->
      Loop.run_loop L (S fuel) args v = Some (Loop.on_run_end L v4))
  /\ (forall v v1 v2 v3 v4 v5,
      Loop.done L v = (Ret false, v1) ->
      Loop.on_advance_start L args v1 = (Ret tt, v2) ->
      Loop.advance L args v2 = (Ret tt, v3) ->
      Loop.on_advance_end L v3 = (Ret tt, v4) ->
      Loop.increment_iteration L (Loop.get_iteration_count L (self v4)) v4
        = (Raise StopIteration, v5) ->
      Loop.run_loop L (S fuel) args v = Some (Loop.on_run_end L v5))
  /\ (forall w w',
      Loop.reset L w = (Raise StopIteration, w') ->
      Loop.run L fuel args w = Some (Raise StopIteration, w'))
  /\ (forall w w1 w2,
      Loop.reset L w = (Ret tt, w1) ->
      Loop.on_run_start L args w1 = (Raise StopIteration, w2) ->
      Loop.run L fuel args w = Some (Raise StopIteration, w2))
  /\ (forall v v',
      Loop.done L v = (Raise StopIteration, v') ->
      Loop.run_loop L (S fuel) args v = Some (Raise StopIteration, v')).
Proof.
  repeat split.
  - intros v v1 v2 Hd Hs. apply (run_loop_stop_iteration L fuel args v v1 v2 Hd).
    apply iteration_on_advance_start_raises. exact Hs.
  - intros v v1 v2 v3 v4 Hd Hs Ha He.
    apply (run_loop_stop_iteration L fuel args v v1 v4 Hd).
    apply (iteration_on_advance_end_raises L args v1 v2 v3 v4 _ Hs Ha He).
  - intros v v1 v2 v3 v4 v5 Hd Hs Ha He Hi.
    apply (run_loop_stop_iteration L fuel args v v1 v5 Hd).
    unfold Loop.iteration, bind. rewrite Hs, Ha, He. unfold get. rewrite Hi.
    reflexivity.
  - intros w w' Hr. unfold Loop.run, bind. rewrite Hr. reflexivity.
  - intros w w1 w2 Hr Hs. unfold Loop.run, bind. rewrite Hr, Hs. reflexivity.
  - intros v v' Hd. cbn. rewrite Hd. reflexivity.
Qed.
End StopIterationScope.

(** ** Evaluating [FitLoop.done] again *)

(** X2: [FitLoop.done] is idempotent.  Evaluated again in the world it left,
    it returns the same boolean and changes nothing: the one change it can
    make, clearing a deferred stop request, is made by the first
    evaluation. *)
Theorem done_twice (w : World FitLoop.t) :
  let w' := snd (FitLoop.done w) in
  fst (FitLoop.done w') = fst (FitLoop.done w) /\ snd (FitLoop.done w') = w'.
Proof.
  cbn zeta.
  enough (H : FitLoop.done (snd (FitLoop.done w))
              = (fst (FitLoop.done w), snd (FitLoop.done w)))
    by (rewrite H; split; reflexivity).
  destruct (should_stop (trainer (env w))) eqn:Hs.
  - destruct (FitLoop.met_min (FitLoop.current_epoch w) (FitLoop.min_epochs (self w))
              && FitLoop.met_min (FitLoop.global_step w) (FitLoop.min_steps w)) eqn:Hm.
    + rewrite (done_honoured w Hs Hm). cbn [fst snd]. apply (done_honoured w Hs Hm).
    + rewrite (done_deferred w Hs Hm). cbn [fst snd].
      rewrite (done_no_request (deferred w) eq_refl).
      unfold FitLoop.global_step, FitLoop.max_steps, FitLoop.current_epoch. cbn.
      rewrite orb_false_r. reflexivity.
  - rewrite (done_no_request w Hs). cbn [fst snd]. apply (done_no_request w Hs).
Qed.

(** ** An evaluation run over no batches *)

(** X3: with [dl_max_batches <= 0], [EvaluationLoop.run] returns the empty
    list of outputs at once, whatever the collaborators are: nothing is
    fetched from the iterator, no hook and no step is called; the loop has
    been reset and holds the arguments of the run. *)
Theorem evaluation_run_no_batches (oracle : Oracle) (fuel : nat)
        (a : EvaluationLoop.args) (w : World EvaluationLoop.t) :
  EvaluationLoop.arg_dl_max_batches a <= 0 ->
  EvaluationLoop.run oracle (S fuel) a w
  = Some (Ret (VList []),
          mkWorld
            (EvaluationLoop.mk 0
               (Some (EvaluationLoop.mkPredictionCollection
                        (global_rank (trainer (env w))) (world_size (trainer (env w)))))
               (EvaluationLoop.dataloader (self w))
               (Some (EvaluationLoop.arg_dl_max_batches a))
               (Some (EvaluationLoop.arg_dataloader_idx a))
               (Some (EvaluationLoop.arg_num_dataloaders a))
               (VList []))
            (env w) (trace w)).
Proof.
  intros Hn. unfold EvaluationLoop.run.
  set (w1 := snd (EvaluationLoop.reset w)).
  set (w2 := snd (EvaluationLoop.on_run_start a w1)).
  rewrite (run_unfold (EvaluationLoop.methods oracle) (S fuel) a w w1 w2)
    by reflexivity.
  rewrite (run_loop_done (EvaluationLoop.methods oracle) fuel a w2 w2).
  - reflexivity.
  - cbn [EvaluationLoop.methods Loop.done].
    unfold EvaluationLoop.done, bind, get, ret. cbn.
    replace (0 >=? EvaluationLoop.arg_dl_max_batches a) with true
      by (symmetry; apply Z.geb_le; exact Hn).
    reflexivity.
Qed.

Lemma evaluation_run_no_batches_witness :
  EvaluationLoop.run Examples.evaluating 1 MoreExamples.zero_batches
    Examples.eval_short_iterator
  = Some (Ret (VList []),
          snd (EvaluationLoop.on_run_start MoreExamples.zero_batches
                 (snd (EvaluationLoop.reset Examples.eval_short_iterator)))).
Proof.
  rewrite (evaluation_run_no_batches Examples.evaluating 0 MoreExamples.zero_batches
             Examples.eval_short_iterator); [reflexivity | ].
  cbn. lia.
Defined.

(** ** The checkpoint callbacks *)

Section CheckpointCallbacks.
Variable oracle : Oracle.

(** The callbacks that return are called one after the other. *)
Lemma for_each_checkpoint_returns (l : list Callback) :
  (forall cb e, In cb l ->
     exists v e', oracle (CheckpointOnValidationEnd cb) e = (Ret v, e')) ->
  forall w : World FitLoop.t,
  exists w',
    for_each l (fun cb => call oracle (CheckpointOnValidationEnd cb) ;; ret tt) w
    = (Ret tt, w')
    /\ self w' = self w
    /\ trace w' = trace w ++ map CheckpointOnValidationEnd l.
Proof.
  induction l as [ | cb l IH]; intros Hret w.
  - exists w. cbn. rewrite app_nil_r. repeat split.
  - destruct (Hret cb (env w) (or_introl eq_refl)) as (v & e' & Ho).
    destruct (IH (fun cb' e Hin => Hret cb' e (or_intror Hin))
                 (mkWorld (self w) e' (trace w ++ [CheckpointOnValidationEnd cb])))
      as (w' & Hrun & Hs & Ht).
    exists w'. cbn [for_each]. unfold bind at 1. unfold bind at 1. unfold call at 1.
    rewrite Ho. cbn [ret]. split; [exact Hrun | ]. split; [exact Hs | ].
    rewrite Ht. cbn [trace map]. rewrite <- app_assoc. reflexivity.
Qed.

(** The first callback that raises ends the loop over the callbacks, with
    its exception and in the environment it left. *)
Lemma for_each_checkpoint_raises (l1 l2 : list Callback) (cb : Callback)
      (ex : exn) (e' : Env) :
  (forall cb' e, In cb' l1 ->
     exists v e', oracle (CheckpointOnValidationEnd cb') e = (Ret v, e')) ->
  forall w : World FitLoop.t,
  oracle (CheckpointOnValidationEnd cb) (env_after_checkpoints oracle l1 (env w))
  = (Raise ex, e') ->
  for_each (l1 ++ cb :: l2)
    (fun cb => call oracle (CheckpointOnValidationEnd cb) ;; ret tt) w
  = (Raise ex,
     mkWorld (self w) e' (trace w ++ map CheckpointOnValidationEnd (l1 ++ [cb]))).
Proof.
  induction l1 as [ | c l1 IH]; intros Hret w Hraise.
  - cbn [app for_each]. unfold bind at 1. unfold bind at 1. unfold call at 1.
    cbn in Hraise. rewrite Hraise. reflexivity.
  - destruct (Hret c (env w) (or_introl eq_refl)) as (v & e1 & Ho).
    cbn [app for_each]. unfold bind at 1. unfold bind at 1. unfold call at 1.
    rewrite Ho. cbn [ret].
    rewrite (IH (fun cb' e Hin => Hret cb' e (or_intror Hin))
                (mkWorld (self w) e1 (trace w ++ [CheckpointOnValidationEnd c]))).
    + cbn [self trace map app]. rewrite <- app_assoc. reflexivity.
    + cbn [env]. cbn [env_after_checkpoints fold_left] in Hraise.
      unfold env_after_checkpoints in Hraise |- *. cbn [fold_left] in Hraise.
      rewrite Ho in Hraise. exact Hraise.
Qed.

Lemma count_checkpoint_calls (l : list Callback) :
  count is_checkpoint_check (map CheckpointOnValidationEnd l) = List.length l.
Proof.
  induction l as [ | c l IH]; [reflexivity | ].
  change (map CheckpointOnValidationEnd (c :: l))
    with ([CheckpointOnValidationEnd c] ++ map CheckpointOnValidationEnd l).
  rewrite count_app, IH. reflexivity.
Qed.

(** X4: when an update is asked for and the trainer has trained, and the
    checkpoint callbacks return, [check_checkpoint_callback] calls the
    [on_validation_end] of every registered callback exactly once, in the
    order of registration, after the message "Saving latest checkpoint..."
    that it emits exactly when [is_last] is set and some callback has both
    [save_last] and [verbose]; the loop itself is unchanged.  When no update
    is asked for or nothing has been trained it does nothing at all. *)
Theorem check_checkpoint_callback_calls_each (should_update is_last : bool)
        (w : World FitLoop.t) :
  (forall cb e, In cb (checkpoint_callbacks (trainer (env w))) ->
     exists v e', oracle (CheckpointOnValidationEnd cb) e = (Ret v, e')) ->
  (should_update && has_trained (trainer (env w)) = true ->
   exists w',
     FitLoop.check_checkpoint_callback oracle should_update is_last w = (Ret tt, w')
     /\ self w' = self w
     /\ trace w'
        = trace w
          ++ (if is_last
                 && existsb (fun cb => save_last cb && verbose cb)
                            (checkpoint_callbacks (trainer (env w)))
              then [RankZeroInfo "Saving latest checkpoint..."] else [])
          ++ map CheckpointOnValidationEnd (checkpoint_callbacks (trainer (env w))))
  /\ (should_update && has_trained (trainer (env w)) = false ->
      FitLoop.check_checkpoint_callback oracle should_update is_last w = (Ret tt, w)).
Proof.
  intros Hret. split; intros Hc.
  - unfold FitLoop.check_checkpoint_callback. unfold bind at 1. unfold get at 1.
    rewrite Hc. unfold bind at 1.
    destruct (is_last && existsb _ _).
    + destruct (for_each_checkpoint_returns _ Hret
                  (mkWorld (self w) (env w)
                     (trace w ++ [RankZeroInfo "Saving latest checkpoint..."])))
        as (w' & Hrun & Hs & Ht).
      exists w'. split; [exact Hrun | ]. split; [exact Hs | ].
      rewrite Ht. cbn [trace]. rewrite <- app_assoc. reflexivity.
    + destruct (for_each_checkpoint_returns _ Hret w) as (w' & Hrun & Hs & Ht).
      exists w'. split; [exact Hrun | ]. split; [exact Hs | exact Ht].
  - unfold FitLoop.check_checkpoint_callback. unfold bind at 1. unfold get at 1.
    rewrite Hc. reflexivity.
Qed.

(** X5: a checkpoint callback that raises ends [check_checkpoint_callback]
    with the very exception it raised, in the environment it left: the
    callbacks registered before it have been called once each, in order (they
    return), after the message if one is due; the ones registered after it
    are not called, and the loop object is unchanged. *)
Theorem check_checkpoint_callback_stops_at_failure (is_last : bool)
        (l1 l2 : list Callback) (cb : Callback) (ex : exn) (e' : Env)
        (w : World FitLoop.t) :
  has_trained (trainer (env w)) = true ->
  checkpoint_callbacks (trainer (env w)) = l1 ++ cb :: l2 ->
  (forall cb' e, In cb' l1 ->
     exists v e', oracle (CheckpointOnValidationEnd cb') e = (Ret v, e')) ->
  oracle (CheckpointOnValidationEnd cb) (env_after_checkpoints oracle l1 (env w))
  = (Raise ex, e') ->
  let w' :=
    mkWorld (self w) e'
      (trace w ++ saving_latest is_last (l1 ++ cb :: l2)
               ++ map CheckpointOnValidationEnd (l1 ++ [cb])) in
  FitLoop.check_checkpoint_callback oracle true is_last w = (Raise ex, w')
  /\ count is_checkpoint_check (trace w')
     = (count is_checkpoint_check (trace w) + List.length l1 + 1)%nat.
Proof.
  intros Htr Hcbs Hret Hraise w'. split.
  - unfold FitLoop.check_checkpoint_callback. unfold bind at 1. unfold get at 1.
    rewrite Htr, Hcbs. cbn [andb]. unfold bind at 1. subst w'. unfold saving_latest.
    destruct (is_last && existsb _ _).
    + change (emit (RankZeroInfo "Saving latest checkpoint...") w)
        with (Ret tt, mkWorld (self w) (env w)
                        (trace w ++ [RankZeroInfo "Saving latest checkpoint..."])).
      cbv iota beta.
      rewrite (for_each_checkpoint_raises l1 l2 cb ex e' Hret
                 (mkWorld (self w) (env w)
                    (trace w ++ [RankZeroInfo "Saving latest checkpoint..."])) Hraise).
      cbn [self trace]. rewrite <- app_assoc. reflexivity.
    + change (@ret FitLoop.t unit tt w) with (Ret tt, w). cbv iota beta.
      rewrite (for_each_checkpoint_raises l1 l2 cb ex e' Hret w Hraise).
      reflexivity.
  - subst w'. cbn [trace]. rewrite !count_app, count_checkpoint_calls, length_app.
    unfold saving_latest. destruct (is_last && existsb _ _).
    + change (count is_checkpoint_check [RankZeroInfo "Saving latest checkpoint..."])
        with 0%nat.
      cbn [List.length]. lia.
    + change (count is_checkpoint_check []) with 0%nat. cbn [List.length]. lia.
Qed.
End CheckpointCallbacks.

Lemma check_checkpoint_callback_calls_each_witness :
  exists w',
    FitLoop.check_checkpoint_callback Examples.training true true
      MoreExamples.trained_world = (Ret tt, w')
    /\ trace w'
       = [RankZeroInfo "Saving latest checkpoint...";
          CheckpointOnValidationEnd MoreExamples.checkpoint_a;
          CheckpointOnValidationEnd MoreExamples.checkpoint_b].
Proof.
  destruct (check_checkpoint_callback_calls_each Examples.training true true
              MoreExamples.trained_world) as [H _].
  - intros cb e _. exists VNone, e. reflexivity.
  - destruct (H eq_refl) as (w' & Hrun & _ & Ht).
    exists w'. split; [exact Hrun | exact Ht].
Defined.

Lemma check_checkpoint_callback_stops_at_failure_witness :
  FitLoop.check_checkpoint_callback MoreExamples.failing_checkpoint true false
    MoreExamples.trained_world
  = (Raise (RuntimeError "disk full"),
     mkWorld (self MoreExamples.trained_world) (env MoreExamples.trained_world)
       [CheckpointOnValidationEnd MoreExamples.checkpoint_a;
        CheckpointOnValidationEnd MoreExamples.checkpoint_b]).
Proof.
  apply (check_checkpoint_callback_stops_at_failure MoreExamples.failing_checkpoint
           false [MoreExamples.checkpoint_a] [] MoreExamples.checkpoint_b
           (RuntimeError "disk full") (env MoreExamples.trained_world)
           MoreExamples.trained_world eq_refl eq_refl).
  - intros cb' e [<- | []]. exists VNone, e. reflexivity.
  - reflexivity.
Defined.

(** ** Runs of the fit loop *)

Section FitRuns.
Variable oracle : Oracle.

Lemma run_skipped_when_done (fuel : nat) (w : World FitLoop.t) :
  fst (FitLoop.done w) = Ret true ->
  FitLoop.run oracle fuel w = Some (Ret VNone, snd (FitLoop.done w)).
Proof.
  intros Hd. unfold FitLoop.run, FitLoop._should_skip_training, bind.
  destruct (FitLoop.done w) as [r w1]. cbn [fst snd] in *. subst r. reflexivity.
Qed.

Hypothesis Hwb : well_behaved oracle.

(** A run that is not skipped resets the epoch counter, runs the epochs up
    to [max_epochs] and tears down, unless that has been done before. *)
Lemma run_epochs_general (fuel : nat) (w : World FitLoop.t) (m : Z) :
  quiet (env w) ->
  is_zero_batches (num_training_batches (trainer (env w))) = false ->
  FitLoop.max_epochs (self w) = Some m ->
  0 <= m ->
  FitLoop.iteration_count (self w) < m ->
  (Z.to_nat m < fuel)%nat ->
  exists w',
    FitLoop.run oracle fuel w = Some (Ret VNone, w')
    /\ count is_training_epoch (trace w')
       = (count is_training_epoch (trace w) + Z.to_nat m)%nat
    /\ FitLoop.current_epoch w'
       = (if FitLoop._teardown_already_run (self w) then m else m - 1)
    /\ FitLoop._teardown_already_run (self w') = true.
Proof.
  intros Hq Hbatches Hmax Hm Hi Hfuel.
  unfold FitLoop.run, FitLoop._should_skip_training. unfold bind at 1.
  rewrite (done_quiet w Hq), Hmax. unfold FitLoop.reached, FitLoop.current_epoch.
  replace (FitLoop.iteration_count (self w) >=? m) with false
    by (symmetry; rewrite Z.geb_leb; apply Z.leb_gt; exact Hi).
  unfold bind, get, ret. rewrite Hbatches.
  unfold Loop.run, bind. cbn [FitLoop.methods Loop.reset Loop.on_run_start].
  unfold FitLoop.reset at 1. cbn [modify_self].
  set (w0 := mkWorld _ _ _).
  assert (Hq0 : quiet (env w0)) by exact Hq.
  destruct (on_run_start_proceeds oracle Hwb w0 Hq0) as ([[] H1] & Hs1 & Hq1 & Hc1).
  destruct (FitLoop.on_run_start oracle tt w0) as [r1 w1]. cbn [fst snd] in *. subst r1.
  destruct (run_loop_epochs oracle Hwb (Z.to_nat m) fuel w1 m Hq1)
    as (w3 & Hrun & Hs3 & Hq3 & Hc3).
  { rewrite Hs1. exact Hmax. }
  { rewrite Hs1. cbn. lia. }
  { exact Hfuel. }
  rewrite Hrun.
  assert (Hself3 : self w3 = FitLoop.set_iteration_count m (self w)).
  { rewrite Hs3, Hs1. reflexivity. }
  assert (Hcount3 : count is_training_epoch (trace w3)
                    = (count is_training_epoch (trace w) + Z.to_nat m)%nat).
  { rewrite Hc3, Hc1. cbn [trace w0]. lia. }
  destruct (FitLoop._teardown_already_run (self w)) eqn:Hf.
  - exists w3. rewrite (on_run_end_again oracle w3) by (rewrite Hself3; exact Hf).
    split; [reflexivity | ]. split; [exact Hcount3 | ].
    unfold FitLoop.current_epoch. rewrite Hself3. split; [reflexivity | exact Hf].
  - destruct (on_run_end_proceeds oracle Hwb w3 Hq3) as (w' & Hend & Hs' & Hq' & Hc').
    { rewrite Hself3. exact Hf. }
    exists w'. rewrite Hend. split; [reflexivity | ]. split; [congruence | ].
    unfold FitLoop.current_epoch. rewrite Hs', Hself3. split; reflexivity.
Qed.

(** X6: what [run()] does for a newly constructed [FitLoop] without
    [max_steps], with collaborators that return, never ask to stop and set no
    step bound, and a trainer with training batches.  Let [m] be [max_epochs]
    if given and 1000 otherwise.  If [m <= 0] the run is skipped: nothing is
    called, not even the teardown, and the loop is as constructed.  If
    [m > 0] the child loop is run [m] times and [current_epoch] ends at
    [m - 1]. *)
Theorem fresh_run_epochs (fuel : nat) (min_epochs max_epochs min_steps : option Z)
        (tr : Trainer) (it : list (Z * value)) (st : list value) (calls : list Collab) :
  should_stop tr = false ->
  is_zero_batches (num_training_batches tr) = false ->
  let m := match max_epochs with Some m => m | None => 1000 end in
  let l := FitLoop.__init__ min_epochs max_epochs min_steps None in
  let w := mkWorld (fst l) (mkEnv tr (snd l) it st) calls in
  (m <= 0 -> FitLoop.run oracle fuel w = Some (Ret VNone, w))
  /\ (0 < m -> (Z.to_nat m < fuel)%nat ->
      exists w',
        FitLoop.run oracle fuel w = Some (Ret VNone, w')
        /\ FitLoop.current_epoch w' = m - 1
        /\ count is_training_epoch (trace w')
           = (count is_training_epoch calls + Z.to_nat m)%nat).
Proof.
  intros Hstop Hbatches m l w.
  assert (Hq : quiet (env w)) by (split; [exact Hstop | reflexivity]).
  assert (Hmax : FitLoop.max_epochs (self w) = Some m)
    by (subst m; destruct max_epochs; reflexivity).
  split.
  - intros Hm.
    assert (Hd : FitLoop.done w = (Ret true, w)).
    { rewrite (done_quiet w Hq), Hmax. unfold FitLoop.reached, FitLoop.current_epoch.
      replace (FitLoop.iteration_count (self w) >=? m) with true; [reflexivity | ].
      symmetry. apply Z.geb_le. cbn. exact Hm. }
    rewrite (run_skipped_when_done fuel w) by (rewrite Hd; reflexivity).
    rewrite Hd. reflexivity.
  - intros Hm Hfuel.
    destruct (run_epochs_general fuel w m Hq Hbatches Hmax) as (w' & Hrun & Hc & He & _).
    + lia.
    + cbn. exact Hm.
    + exact Hfuel.
    + exists w'. split; [exact Hrun | ]. split; [exact He | exact Hc].
Qed.

(** X7: [run()] does not resume.  Whatever [current_epoch] was before (as
    long as it is below [max_epochs], so that the run is not skipped), the
    epoch counter is reset and all [max_epochs] epochs are run.  And the
    decrement of [on_run_end] happens only for a loop that has not been torn
    down before: after a second run [current_epoch] is [max_epochs], not
    [max_epochs - 1]. *)
Theorem run_restarts_from_zero (fuel : nat) (w : World FitLoop.t) (m : Z) :
  quiet (env w) ->
  is_zero_batches (num_training_batches (trainer (env w))) = false ->
  FitLoop.max_epochs (self w) = Some m ->
  0 <= m ->
  FitLoop.iteration_count (self w) < m ->
  (Z.to_nat m < fuel)%nat ->
  exists w',
    FitLoop.run oracle fuel w = Some (Ret VNone, w')
    /\ count is_training_epoch (trace w')
       = (count is_training_epoch (trace w) + Z.to_nat m)%nat
    /\ FitLoop.current_epoch w'
       = (if FitLoop._teardown_already_run (self w) then m else m - 1)
    /\ FitLoop._teardown_already_run (self w') = true.
Proof. apply run_epochs_general. Qed.
End FitRuns.

Lemma fresh_run_epochs_witness :
  exists w',
    FitLoop.run Examples.training 4 Examples.three_epochs = Some (Ret VNone, w')
    /\ count is_training_epoch (trace w') = 3%nat.
Proof.
  destruct (fresh_run_epochs Examples.training training_well_behaved 4
              (Some 1) (Some 3) None (Examples.a_trainer false) [] [] []
              eq_refl eq_refl) as [_ H].
  destruct (H eq_refl (le_n 4)) as (w' & Hrun & _ & Hc).
  exists w'. split; [exact Hrun | exact Hc].
Defined.

(** Resuming at epoch 2 of 5 runs five epochs, not three. *)
Lemma run_restarts_from_zero_witness :
  exists w',
    FitLoop.run Examples.training 6 MoreExamples.stale_world = Some (Ret VNone, w')
    /\ count is_training_epoch (trace w') = 5%nat
    /\ FitLoop.current_epoch w' = 4.
Proof.
  destruct (run_restarts_from_zero Examples.training training_well_behaved 6
              MoreExamples.stale_world 5 (conj eq_refl eq_refl) eq_refl eq_refl)
    as (w' & Hrun & Hc & He & _).
  - lia.
  - reflexivity.
  - cbn. lia.
  - exists w'. split; [exact Hrun | ]. split; [exact Hc | exact He].
Defined.

(** ** The property setters *)

Lemma done_true_when_reached (w : World FitLoop.t) :
  FitLoop.reached (FitLoop.global_step w) (FitLoop.max_steps w) = true
  \/ FitLoop.reached (FitLoop.current_epoch w) (FitLoop.max_epochs (self w)) = true ->
  fst (FitLoop.done w) = Ret true.
Proof.
  intros H.
  assert (Hb : FitLoop.reached (FitLoop.global_step w) (FitLoop.max_steps w)
               || FitLoop.reached (FitLoop.current_epoch w) (FitLoop.max_epochs (self w))
               = true) by (apply orb_true_iff; exact H).
  destruct (should_stop (trainer (env w))) eqn:Hs.
  - destruct (FitLoop.met_min (FitLoop.current_epoch w) (FitLoop.min_epochs (self w))
              && FitLoop.met_min (FitLoop.global_step w) (FitLoop.min_steps w)) eqn:Hm.
    + rewrite (done_honoured w Hs Hm). reflexivity.
    + rewrite (done_deferred w Hs Hm). cbn [fst]. rewrite Hb. reflexivity.
  - rewrite (done_no_request w Hs). cbn [fst]. rewrite orb_false_r, Hb. reflexivity.
Qed.

(** X8: the setters write through to what [done] reads.  Once
    [max_steps = v], [global_step = g] or [current_epoch = e] has been
    assigned so that a maximum is reached ([v <= global_step],
    [max_steps <= g], [max_epochs <= e]), [done] returns [True] whatever the
    stop flag and the minimums are, and [run()] is skipped: it returns [None]
    in the world [done] left, in which the value assigned, the loop object
    and the whole child loop are as the setter left them, and to whose trace
    at most the message of a deferred stop request has been added: no reset,
    no hook. *)
Theorem setters_write_through (oracle : Oracle) (fuel : nat) (w : World FitLoop.t) :
  (forall v,
      v <= FitLoop.global_step w ->
      let w1 := snd (FitLoopSetters.max_steps (Some v) w) in
      let w2 := snd (FitLoop.done w1) in
      FitLoop.max_steps w1 = Some v
      /\ fst (FitLoop.done w1) = Ret true
      /\ FitLoop.run oracle fuel w1 = Some (Ret VNone, w2)
      /\ self w2 = self w
      /\ FitLoop.max_steps w2 = Some v
      /\ training_loop (env w2) = training_loop (env w1)
      /\ (w2 = w1 \/ w2 = deferred w1))
  /\ (forall g v,
      FitLoop.max_steps w = Some v -> v <= g ->
      let w1 := snd (FitLoopSetters.global_step g w) in
      let w2 := snd (FitLoop.done w1) in
      FitLoop.global_step w1 = g
      /\ fst (FitLoop.done w1) = Ret true
      /\ FitLoop.run oracle fuel w1 = Some (Ret VNone, w2)
      /\ FitLoop.global_step w2 = g
      /\ self w2 = self w
      /\ training_loop (env w2) = training_loop (env w1)
      /\ (w2 = w1 \/ w2 = deferred w1))
  /\ (forall e m,
      FitLoop.max_epochs (self w) = Some m -> m <= e ->
      let w1 := snd (FitLoopSetters.current_epoch e w) in
      let w2 := snd (FitLoop.done w1) in
      FitLoop.current_epoch w1 = e
      /\ FitLoop.iteration_count (self w1) = e
      /\ fst (FitLoop.done w1) = Ret true
      /\ FitLoop.run oracle fuel w1 = Some (Ret VNone, w2)
      /\ FitLoop.current_epoch w2 = e
      /\ self w2 = self w1
      /\ training_loop (env w2) = training_loop (env w)
      /\ (w2 = w1 \/ w2 = deferred w1)).
Proof.
  assert (Hframe : forall w1 : World FitLoop.t,
             self (snd (FitLoop.done w1)) = self w1
             /\ training_loop (env (snd (FitLoop.done w1))) = training_loop (env w1)).
  { intros w1. destruct (fit_done_frame w1) as [H | [_ H]]; rewrite H; split; reflexivity. }
  assert (Hworld : forall w1 : World FitLoop.t,
             snd (FitLoop.done w1) = w1 \/ snd (FitLoop.done w1) = deferred w1).
  { intros w1. destruct (fit_done_frame w1) as [H | [_ H]]; [left | right]; exact H. }
  split; [ | split].
  - intros v Hv w1 w2.
    assert (Hr : FitLoop.reached (FitLoop.global_step w1) (FitLoop.max_steps w1) = true)
      by (apply Z.geb_le; exact Hv).
    split; [reflexivity | ].
    split; [apply done_true_when_reached; left; exact Hr | ].
    split; [apply run_skipped_when_done, done_true_when_reached; left; exact Hr | ].
    subst w2. split; [rewrite (proj1 (Hframe w1)); reflexivity | ].
    split; [unfold FitLoop.max_steps; rewrite (proj2 (Hframe w1)); reflexivity | ].
    split; [apply Hframe | apply Hworld].
  - intros g v Hmax Hv w1 w2.
    assert (Hr : FitLoop.reached (FitLoop.global_step w1) (FitLoop.max_steps w1) = true).
    { unfold FitLoop.max_steps in *. cbn. rewrite Hmax. apply Z.geb_le. exact Hv. }
    split; [reflexivity | ].
    split; [apply done_true_when_reached; left; exact Hr | ].
    split; [apply run_skipped_when_done, done_true_when_reached; left; exact Hr | ].
    subst w2.
    split; [unfold FitLoop.global_step; rewrite (proj2 (Hframe w1)); reflexivity | ].
    split; [rewrite (proj1 (Hframe w1)); reflexivity | ].
    split; [apply Hframe | apply Hworld].
  - intros e m Hmax Hm w1 w2.
    assert (Hr : FitLoop.reached (FitLoop.current_epoch w1) (FitLoop.max_epochs (self w1))
                 = true).
    { cbn. rewrite Hmax. apply Z.geb_le. exact Hm. }
    split; [reflexivity | ]. split; [reflexivity | ].
    split; [apply done_true_when_reached; right; exact Hr | ].
    split; [apply run_skipped_when_done, done_true_when_reached; right; exact Hr | ].
    subst w2.
    split; [unfold FitLoop.current_epoch; rewrite (proj1 (Hframe w1)); reflexivity | ].
    split; [apply Hframe | ].
    split; [rewrite (proj2 (Hframe w1)); reflexivity | apply Hworld].
Qed.

(** ** Rules for [runs_at] *)

Section Runs.
Context {P : Type}.
Variable Inv : World P -> Prop.
Variable p : Collab -> bool.

Lemma runs_intro {A} (k : nat) (m : M P A) (w : World P) :
  (Inv w -> runs_at Inv p k m w) -> runs_at Inv p k m w.
Proof. intros H Hi. exact (H Hi Hi). Qed.

Lemma runs_ret {A} (a : A) (w : World P) : runs_at Inv p 0 (ret a) w.
Proof.
  intros Hi. cbn. split; [exists a; reflexivity | ]. split; [exact Hi | lia].
Qed.

Lemma runs_bind {A B} (k k1 k2 : nat) (m : M P A) (f : A -> M P B) (w : World P) :
  runs_at Inv p k1 m w ->
  (forall a, runs_at Inv p k2 (f a) (snd (m w))) ->
  k = (k1 + k2)%nat ->
  runs_at Inv p k (bind m f) w.
Proof.
  intros Hm Hf -> Hi. destruct (Hm Hi) as ([a Ha] & Hi1 & Hc).
  unfold bind. destruct (m w) as [r w1]. cbn [fst snd] in *. subst r.
  destruct (Hf a Hi1) as (Hr & Hi2 & Hc').
  split; [exact Hr | ]. split; [exact Hi2 | lia].
Qed.

Lemma runs_get {A} (k : nat) (f : World P -> M P A) (w : World P) :
  runs_at Inv p k (f w) w -> runs_at Inv p k (bind get f) w.
Proof. intros H. exact H. Qed.

Lemma runs_modify_env (g : Env -> Env) (w : World P) :
  (Inv w -> Inv (mkWorld (self w) (g (env w)) (trace w))) ->
  runs_at Inv p 0 (modify_env g) w.
Proof.
  intros Hg Hi. cbn. split; [exists tt; reflexivity | ]. split; [exact (Hg Hi) | lia].
Qed.

Lemma runs_modify_self (g : P -> P) (w : World P) :
  (Inv w -> Inv (mkWorld (g (self w)) (env w) (trace w))) ->
  runs_at Inv p 0 (modify_self g) w.
Proof.
  intros Hg Hi. cbn. split; [exists tt; reflexivity | ]. split; [exact (Hg Hi) | lia].
Qed.

Lemma runs_emit (c : Collab) (w : World P) :
  p c = false ->
  (Inv w -> Inv (mkWorld (self w) (env w) (trace w ++ [c]))) ->
  runs_at Inv p 0 (emit c) w.
Proof.
  intros Hc Hg Hi. cbn. split; [exists tt; reflexivity | ]. split; [exact (Hg Hi) | ].
  rewrite count_snoc. unfold cost. rewrite Hc. reflexivity.
Qed.

Lemma runs_if {A} (b : bool) (k : nat) (m1 m2 : M P A) (w : World P) :
  runs_at Inv p k m1 w -> runs_at Inv p k m2 w ->
  runs_at Inv p k (if b then m1 else m2) w.
Proof. destruct b; auto. Qed.

Lemma runs_finally {A} (k k1 k2 : nat) (m : M P A) (fin : M P unit) (w : World P) :
  runs_at Inv p k1 m w ->
  runs_at Inv p k2 fin (snd (m w)) ->
  k = (k1 + k2)%nat ->
  runs_at Inv p k (finally m fin) w.
Proof.
  intros Hm Hf -> Hi. destruct (Hm Hi) as ([a Ha] & Hi1 & Hc).
  unfold finally. destruct (m w) as [r w1]. cbn [fst snd] in *. subst r.
  destruct (Hf Hi1) as ([u Hu] & Hi2 & Hc').
  destruct (fin w1) as [r2 w2]. cbn [fst snd] in *. subst r2.
  split; [exists a; reflexivity | ]. split; [exact Hi2 | cbn [snd]; lia].
Qed.

Lemma runs_suppress (k : nat) (m : M P unit) (w : World P) :
  runs_at Inv p k m w -> runs_at Inv p k (suppress_Exception m) w.
Proof.
  intros Hm Hi. destruct (Hm Hi) as ([a Ha] & Hi1 & Hc).
  unfold suppress_Exception. destruct (m w) as [r w1]. cbn [fst snd] in *. subst r.
  split; [exists tt; reflexivity | ]. split; assumption.
Qed.

(** An [Exception] raised under [suppress(Exception)] is as good as a
    return. *)
Lemma runs_suppress_raised (k : nat) (m : M P unit) (w : World P) :
  (Inv w ->
   exists ex, fst (m w) = Raise ex /\ is_Exception ex = true
              /\ Inv (snd (m w))
              /\ count p (trace (snd (m w))) = (count p (trace w) + k)%nat) ->
  runs_at Inv p k (suppress_Exception m) w.
Proof.
  intros Hm Hi. destruct (Hm Hi) as (ex & Hr & Hex & Hi1 & Hc).
  unfold suppress_Exception. destruct (m w) as [r w1]. cbn [fst snd] in *. subst r.
  rewrite Hex. split; [exists tt; reflexivity | ]. split; assumption.
Qed.

Lemma runs_for_each {A} (l : list A) (f : A -> M P unit) :
  (forall x w, runs_at Inv p 0 (f x) w) ->
  forall w, runs_at Inv p 0 (for_each l f) w.
Proof.
  intros Hf. induction l as [ | x l IH]; intros w; cbn [for_each].
  - apply runs_ret.
  - eapply runs_bind; [apply Hf | intros _; apply IH | reflexivity].
Qed.

Section Calls.
Variable oracle : Oracle.

Lemma runs_call (c : Collab) (w : World P) :
  answers oracle Inv c -> runs_at Inv p (cost p c) (call oracle c) w.
Proof.
  intros Hans Hi. unfold call. destruct (Hans w Hi) as (v & e' & Ho & Hi').
  rewrite Ho. cbn. split; [exists v; reflexivity | ]. split; [exact Hi' | ].
  apply count_snoc.
Qed.

Lemma runs_call_0 (c : Collab) (w : World P) :
  p c = false -> answers oracle Inv c -> runs_at Inv p 0 (call oracle c) w.
Proof.
  intros Hc Hans. pose proof (runs_call c w Hans) as H. unfold cost in H.
  rewrite Hc in H. exact H.
Qed.

Lemma runs_call_1 (c : Collab) (w : World P) :
  p c = true -> answers oracle Inv c -> runs_at Inv p 1 (call oracle c) w.
Proof.
  intros Hc Hans. pose proof (runs_call c w Hans) as H. unfold cost in H.
  rewrite Hc in H. exact H.
Qed.

Lemma runs_with_profile {A} (k : nat) (name : string) (m : M P A) :
  p (ProfileEnter name) = false -> p (ProfileExit name) = false ->
  answers oracle Inv (ProfileEnter name) -> answers oracle Inv (ProfileExit name) ->
  (forall w, runs_at Inv p k m w) ->
  forall w, runs_at Inv p k (with_profile oracle name m) w.
Proof.
  intros He Hx Hae Hax Hm w. unfold with_profile.
  eapply runs_bind; [apply runs_call_0; assumption | intros _ | ].
  - eapply runs_finally; [apply Hm | | reflexivity].
    eapply runs_bind;
      [apply runs_call_0; assumption | intros _; apply runs_ret | reflexivity].
  - lia.
Qed.
End Calls.
End Runs.

(** One step through a computation; [ans] proves [answers] for the call at
    hand and [inv] that an assignment keeps the invariant. *)
Ltac runs_step ans inv :=
  lazymatch goal with
  | |- runs_at _ _ _ (bind get _) _ => apply runs_get; cbv beta
  | |- runs_at _ _ _ (bind _ _) _ =>
      eapply runs_bind;
      [ | intros ?;
          lazymatch goal with |- runs_at _ _ _ _ ?w' => generalize w'; intros ? end
        | ]
  | |- runs_at _ _ _ (ret _) _ => apply runs_ret
  | |- runs_at _ _ _ (modify_env _) _ => apply runs_modify_env; inv
  | |- runs_at _ _ _ (modify_self _) _ => apply runs_modify_self; inv
  | |- runs_at _ _ _ (emit _) _ => apply runs_emit; [reflexivity | inv]
  | |- runs_at _ _ _ (call _ _) _ =>
      first [ apply runs_call_0; [reflexivity | ans]
            | apply runs_call_1; [reflexivity | ans] ]
  | |- runs_at _ _ _ (if _ then _ else _) _ => eapply runs_if
  | |- runs_at _ _ _ (suppress_Exception _) _ => eapply runs_suppress
  | |- runs_at _ _ _ (with_profile _ _ _) _ =>
      eapply runs_with_profile; [reflexivity | reflexivity | ans | ans | intros ?]
  | |- runs_at _ _ _ (for_each _ _) _ => eapply runs_for_each; intros ? ?
  end.

(** ** An evaluation run, batch by batch *)

Ltac eval_inv_kept := unfold eval_inv; cbn; intros H; exact H.

Section EvaluationRuns.
Variable oracle : Oracle.
Hypothesis Hsteady : steady oracle.

Lemma steady_answers (it : list (Z * value)) (test : bool) (i N n : Z) (c : Collab) :
  answers oracle (eval_inv it test i N n) c.
Proof.
  intros w (Hit & Ht & Hi & HN & Hn).
  destruct (Hsteady c (env w)) as (v & e' & Ho & Hit' & Ht').
  exists v, e'. split; [exact Ho | ].
  unfold eval_inv. cbn. repeat split; congruence.
Qed.

Lemma build_kwargs_runs (it : list (Z * value)) (test : bool) (i N n : Z)
      (p : Collab -> bool) (batch : value) (batch_idx dataloader_idx : Z)
      (w : World EvaluationLoop.t) :
  runs_at (eval_inv it test i N n) p 0
    (EvaluationLoop._build_kwargs batch batch_idx dataloader_idx) w.
Proof.
  intros Hi. pose proof Hi as (_ & _ & _ & _ & Hn).
  rewrite (build_kwargs_eq w batch batch_idx dataloader_idx n Hn). cbn [fst snd].
  split; [eexists; reflexivity | ]. split; [exact Hi | lia].
Qed.

(** One accelerator step is made, the one of the mode. *)
Lemma evaluation_step_runs (it : list (Z * value)) (test mode : bool) (i N n : Z)
      (batch : value) (batch_idx dataloader_idx : Z) (w : World EvaluationLoop.t) :
  runs_at (eval_inv it test i N n) (step_in_mode mode)
    (if Bool.eqb test mode then 1 else 0)
    (EvaluationLoop.evaluation_step oracle batch batch_idx dataloader_idx) w.
Proof.
  unfold EvaluationLoop.evaluation_step.
  destruct test, mode;
    (eapply runs_bind; [apply build_kwargs_runs | intros kw | ];
     [ apply runs_get; cbv beta; apply runs_intro; intros (_ & Ht & _); rewrite Ht;
       cbv iota;
       repeat runs_step ltac:(apply steady_answers) ltac:(eval_inv_kept);
       reflexivity
     | reflexivity ]).
Qed.

Lemma on_evaluation_batch_start_runs (it : list (Z * value)) (test mode : bool)
      (i N n : Z) (batch : value) (batch_idx dataloader_idx : Z)
      (w : World EvaluationLoop.t) :
  runs_at (eval_inv it test i N n) (step_in_mode mode) 0
    (EvaluationLoop.on_evaluation_batch_start oracle batch batch_idx dataloader_idx) w.
Proof.
  unfold EvaluationLoop.on_evaluation_batch_start.
  eapply runs_bind;
    [runs_step ltac:(apply steady_answers) ltac:(eval_inv_kept) | intros v | reflexivity].
  apply runs_get; cbv beta. apply runs_intro. intros (_ & _ & _ & _ & Hn). rewrite Hn.
  repeat runs_step ltac:(apply steady_answers) ltac:(eval_inv_kept); reflexivity.
Qed.

Lemma evaluation_step_end_runs (it : list (Z * value)) (test mode : bool)
      (i N n : Z) (output : value) (w : World EvaluationLoop.t) :
  runs_at (eval_inv it test i N n) (step_in_mode mode) 0
    (EvaluationLoop.evaluation_step_end oracle output) w.
Proof.
  unfold EvaluationLoop.evaluation_step_end.
  repeat runs_step ltac:(apply steady_answers) ltac:(eval_inv_kept); reflexivity.
Qed.

Lemma on_evaluation_batch_end_runs (it : list (Z * value)) (test mode : bool)
      (i N n : Z) (output batch : value) (batch_idx dataloader_idx : Z)
      (w : World EvaluationLoop.t) :
  runs_at (eval_inv it test i N n) (step_in_mode mode) 0
    (EvaluationLoop.on_evaluation_batch_end oracle output batch batch_idx dataloader_idx) w.
Proof.
  unfold EvaluationLoop.on_evaluation_batch_end, EvaluationLoop.store_predictions.
  repeat runs_step ltac:(apply steady_answers) ltac:(eval_inv_kept); reflexivity.
Qed.

Ltac eval_runs_step :=
  lazymatch goal with
  | |- runs_at _ _ _ (EvaluationLoop.on_evaluation_batch_start _ _ _ _) _ =>
      apply on_evaluation_batch_start_runs
  | |- runs_at _ _ _ (EvaluationLoop.evaluation_step _ _ _ _) _ =>
      apply evaluation_step_runs
  | |- runs_at _ _ _ (EvaluationLoop.evaluation_step_end _ _) _ =>
      apply evaluation_step_end_runs
  | |- runs_at _ _ _ (EvaluationLoop.on_evaluation_batch_end _ _ _ _ _) _ =>
      apply on_evaluation_batch_end_runs
  | |- _ => runs_step ltac:(apply steady_answers) ltac:(eval_inv_kept)
  end.

Lemma process_batch_runs (it : list (Z * value)) (test mode : bool) (i N n : Z)
      (a : EvaluationLoop.args) (batch_idx : Z) (batch : value)
      (w : World EvaluationLoop.t) :
  runs_at (eval_inv it test i N n) (step_in_mode mode)
    (if Bool.eqb test mode then 1 else 0)
    (process_batch oracle a batch_idx batch) w.
Proof.
  unfold process_batch. destruct test, mode; repeat eval_runs_step; reflexivity.
Qed.

Lemma advance_batch (a : EvaluationLoop.args) (w : World EvaluationLoop.t)
      (batch_idx : Z) (batch : value) (rest : list (Z * value)) :
  dataloader_iter (env w) = (batch_idx, batch) :: rest ->
  is_None batch = false ->
  EvaluationLoop.advance oracle a w
  = process_batch oracle a batch_idx batch
      (mkWorld (self w) (set_dataloader_iter rest (env w)) (trace w)).
Proof.
  intros Hit Hb. unfold EvaluationLoop.advance. unfold bind at 1. unfold get at 1.
  rewrite Hit. unfold bind at 1. unfold modify_env at 1. rewrite Hb. reflexivity.
Qed.

(** An iteration over a batch that is there: one step, the counter moves on. *)
Lemma evaluation_iteration (test : bool) (i N n : Z) (a : EvaluationLoop.args)
      (batch_idx : Z) (batch : value) (rest : list (Z * value))
      (w : World EvaluationLoop.t) :
  eval_inv ((batch_idx, batch) :: rest) test i N n w ->
  is_None batch = false ->
  exists w',
    Loop.iteration (EvaluationLoop.methods oracle) a w = (Ret tt, w')
    /\ eval_inv rest test (i + 1) N n w'
    /\ forall mode,
         count (step_in_mode mode) (trace w')
         = (count (step_in_mode mode) (trace w)
            + if Bool.eqb test mode then 1 else 0)%nat.
Proof.
  intros Hinv Hb. pose proof Hinv as (Hit & Ht & Hi & HN & Hn).
  unfold Loop.iteration. cbn [EvaluationLoop.methods Loop.on_advance_start
    Loop.advance Loop.on_advance_end Loop.increment_iteration
    Loop.get_iteration_count Loop.set_iteration_count].
  unfold Loop.default_on_advance_start at 1. unfold bind at 1. cbn [ret].
  unfold bind at 1.
  rewrite (advance_batch a w batch_idx batch rest Hit Hb).
  set (w0 := mkWorld (self w) (set_dataloader_iter rest (env w)) (trace w)).
  assert (Hinv0 : eval_inv rest test i N n w0) by (repeat split; assumption).
  destruct (process_batch_runs rest test true i N n a batch_idx batch w0 Hinv0)
    as ([[] Hr] & (Hit1 & Ht1 & Hi1 & HN1 & Hn1) & Hc).
  destruct (process_batch_runs rest test false i N n a batch_idx batch w0 Hinv0)
    as (_ & _ & Hc0).
  destruct (process_batch oracle a batch_idx batch w0) as [r w1].
  cbn [fst snd] in *. subst r.
  eexists. split; [reflexivity | ]. cbn [self env trace].
  split; [ | intros [ | ]; assumption].
  unfold eval_inv. cbn. repeat split; try assumption. lia.
Qed.

Lemma evaluation_done (it : list (Z * value)) (test : bool) (i N n : Z)
      (w : World EvaluationLoop.t) :
  eval_inv it test i N n w -> EvaluationLoop.done w = (Ret (i >=? N), w).
Proof.
  intros (_ & _ & Hi & HN & _). unfold EvaluationLoop.done, bind, get, ret.
  rewrite HN, Hi. reflexivity.
Qed.

(** The loop over batches that are there and within the bound. *)
Lemma run_loop_batches (test : bool) (N n : Z) (a : EvaluationLoop.args)
      (rest : list (Z * value)) (batches : list (Z * value)) :
  forall (fuel : nat) (i : Z) (w : World EvaluationLoop.t),
    eval_inv (batches ++ rest) test i N n w ->
    Forall (fun b => is_None (snd b) = false) batches ->
    i + Z.of_nat (List.length batches) <= N ->
    exists w',
      Loop.run_loop (EvaluationLoop.methods oracle) (List.length batches + fuel) a w
      = Loop.run_loop (EvaluationLoop.methods oracle) fuel a w'
      /\ eval_inv rest test (i + Z.of_nat (List.length batches)) N n w'
      /\ forall mode,
           count (step_in_mode mode) (trace w')
           = (count (step_in_mode mode) (trace w)
              + if Bool.eqb test mode then List.length batches else 0)%nat.
Proof.
  induction batches as [ | [batch_idx batch] batches IH]; intros fuel i w Hinv Hall Hle.
  - exists w. cbn [List.length app Nat.add Z.of_nat] in *. rewrite Z.add_0_r.
    split; [reflexivity | ].
    split; [exact Hinv | intros mode; destruct (Bool.eqb test mode); lia].
  - inversion Hall as [ | b bs Hb Hall']; subst. cbn [snd] in Hb.
    cbn [List.length] in Hle.
    destruct (evaluation_iteration test i N n a batch_idx batch (batches ++ rest)
                w Hinv Hb) as (w1 & Hit & Hinv1 & Hc1).
    destruct (IH fuel (i + 1) w1 Hinv1 Hall') as (w' & Hrun & Hinv' & Hc'); [lia | ].
    exists w'. split; [ | split].
    + cbn [List.length Nat.add]. rewrite <- Hrun.
      apply (run_loop_step (EvaluationLoop.methods oracle) _ a w w w1); [ | exact Hit].
      cbn [EvaluationLoop.methods Loop.done].
      rewrite (evaluation_done _ _ _ _ _ w Hinv).
      replace (i >=? N) with false; [reflexivity | ].
      symmetry. rewrite Z.geb_leb. apply Z.leb_gt. lia.
    + replace (i + Z.of_nat (List.length ((batch_idx, batch) :: batches)))
        with (i + 1 + Z.of_nat (List.length batches))
        by (cbn [List.length]; lia).
      exact Hinv'.
    + intros mode. rewrite Hc', Hc1. cbn [List.length].
      destruct (Bool.eqb test mode); lia.
Qed.

Lemma advance_exhausted (a : EvaluationLoop.args) (w : World EvaluationLoop.t) :
  dataloader_iter (env w) = [] ->
  EvaluationLoop.advance oracle a w = (Raise StopIteration, w).
Proof.
  intros Hit. unfold EvaluationLoop.advance, bind, get, raise. rewrite Hit.
  reflexivity.
Qed.

(** The world in which [run] enters its loop. *)
Lemma evaluation_run_enters (fuel : nat) (a : EvaluationLoop.args)
      (w : World EvaluationLoop.t) :
  exists w0,
    EvaluationLoop.run oracle fuel a w
    = Loop.run_loop (EvaluationLoop.methods oracle) fuel a w0
    /\ eval_inv (dataloader_iter (env w)) (testing (trainer (env w))) 0
         (EvaluationLoop.arg_dl_max_batches a) (EvaluationLoop.arg_num_dataloaders a) w0
    /\ trace w0 = trace w.
Proof.
  exists (snd (EvaluationLoop.on_run_start a (snd (EvaluationLoop.reset w)))).
  split; [ | split; [repeat split | reflexivity]].
  unfold EvaluationLoop.run.
  apply (run_unfold (EvaluationLoop.methods oracle) fuel a w
           (snd (EvaluationLoop.reset w))); reflexivity.
Qed.

(** X9: with collaborators that return and leave the iterator and the mode
    alone, an evaluation run over an iterator that yields at least
    [dl_max_batches] batches makes exactly [dl_max_batches] accelerator
    steps, all of the mode of the trainer ([test_step] when testing,
    [validation_step] otherwise) and none of the other mode, takes exactly
    that many batches from the iterator, and returns the outputs it holds
    with [iteration_count = dl_max_batches]. *)
Theorem evaluation_run_all_batches (fuel : nat) (a : EvaluationLoop.args)
        (w : World EvaluationLoop.t) (batches rest : list (Z * value)) :
  dataloader_iter (env w) = batches ++ rest ->
  Forall (fun b => is_None (snd b) = false) batches ->
  Z.of_nat (List.length batches) = EvaluationLoop.arg_dl_max_batches a ->
  (List.length batches < fuel)%nat ->
  exists w',
    EvaluationLoop.run oracle fuel a w = Some (Ret (EvaluationLoop.outputs (self w')), w')
    /\ EvaluationLoop.iteration_count (self w') = EvaluationLoop.arg_dl_max_batches a
    /\ dataloader_iter (env w') = rest
    /\ count (step_in_mode (testing (trainer (env w)))) (trace w')
       = (count (step_in_mode (testing (trainer (env w)))) (trace w)
          + List.length batches)%nat
    /\ count (step_in_mode (negb (testing (trainer (env w))))) (trace w')
       = count (step_in_mode (negb (testing (trainer (env w))))) (trace w).
Proof.
  intros Hit Hall Hlen Hfuel.
  destruct (evaluation_run_enters fuel a w) as (w0 & Hrun & Hinv0 & Htr0).
  rewrite Hit in Hinv0.
  replace fuel with (List.length batches + S (fuel - S (List.length batches)))%nat
    in Hrun |- * by lia.
  destruct (run_loop_batches _ _ _ a rest batches (S (fuel - S (List.length batches)))
              0 w0 Hinv0 Hall) as (w' & Hloop & Hinv' & Hc); [lia | ].
  exists w'. rewrite Hrun, Hloop.
  rewrite (run_loop_done (EvaluationLoop.methods oracle) _ a w' w').
  2: { cbn [EvaluationLoop.methods Loop.done].
       rewrite (evaluation_done _ _ _ _ _ w' Hinv').
       replace (0 + Z.of_nat (List.length batches) >=? EvaluationLoop.arg_dl_max_batches a)
         with true; [reflexivity | ].
       symmetry. apply Z.geb_le. lia. }
  destruct Hinv' as (Hit' & _ & Hi' & _ & _).
  split; [reflexivity | ]. split; [lia | ]. split; [exact Hit' | ].
  split.
  - rewrite (Hc (testing (trainer (env w)))), Htr0, Bool.eqb_reflx. reflexivity.
  - rewrite (Hc (negb (testing (trainer (env w))))), Htr0.
    destruct (testing (trainer (env w))); cbn; lia.
Qed.

(** X10: with the same collaborators, an iterator that is exhausted, or
    yields a [None] batch, before [dl_max_batches] batches have been seen
    ends the run early and without an error: the run returns the outputs
    it holds, [iteration_count] is the number of batches processed, one step
    was made for each of them, and the [None] batch has been taken from the
    iterator. *)
Theorem evaluation_run_stops_early (fuel : nat) (a : EvaluationLoop.args)
        (w : World EvaluationLoop.t) (batches rest : list (Z * value)) :
  dataloader_iter (env w) = batches ++ rest ->
  Forall (fun b => is_None (snd b) = false) batches ->
  rest = [] \/ (exists batch_idx rest', rest = (batch_idx, VNone) :: rest') ->
  Z.of_nat (List.length batches) < EvaluationLoop.arg_dl_max_batches a ->
  (List.length batches < fuel)%nat ->
  exists w',
    EvaluationLoop.run oracle fuel a w = Some (Ret (EvaluationLoop.outputs (self w')), w')
    /\ EvaluationLoop.iteration_count (self w') = Z.of_nat (List.length batches)
    /\ dataloader_iter (env w') = tl rest
    /\ count (step_in_mode (testing (trainer (env w)))) (trace w')
       = (count (step_in_mode (testing (trainer (env w)))) (trace w)
          + List.length batches)%nat.
Proof.
  intros Hit Hall Hrest Hlen Hfuel.
  destruct (evaluation_run_enters fuel a w) as (w0 & Hrun & Hinv0 & Htr0).
  rewrite Hit in Hinv0.
  replace fuel with (List.length batches + S (fuel - S (List.length batches)))%nat
    in Hrun |- * by lia.
  destruct (run_loop_batches _ _ _ a rest batches (S (fuel - S (List.length batches)))
              0 w0 Hinv0 Hall) as (w1 & Hloop & Hinv1 & Hc); [lia | ].
  assert (Hd : Loop.done (EvaluationLoop.methods oracle) w1 = (Ret false, w1)).
  { cbn [EvaluationLoop.methods Loop.done].
    rewrite (evaluation_done _ _ _ _ _ w1 Hinv1).
    replace (0 + Z.of_nat (List.length batches) >=? EvaluationLoop.arg_dl_max_batches a)
      with false; [reflexivity | ].
    symmetry. rewrite Z.geb_leb. apply Z.leb_gt. lia. }
  pose proof Hinv1 as (Hit1 & _ & Hi1 & _ & _).
  assert (Hadv : exists w',
             EvaluationLoop.advance oracle a w1 = (Raise StopIteration, w')
             /\ self w' = self w1 /\ trace w' = trace w1
             /\ dataloader_iter (env w') = tl rest).
  { destruct Hrest as [-> | (batch_idx & rest' & ->)].
    - exists w1. rewrite (advance_exhausted a w1 Hit1). repeat split. exact Hit1.
    - eexists. rewrite (advance_none_batch oracle a w1 batch_idx rest' Hit1).
      repeat split. }
  destruct Hadv as (w' & Hadv & Hs' & Ht' & Hit').
  exists w'. rewrite Hrun, Hloop.
  rewrite (run_loop_stop_iteration (EvaluationLoop.methods oracle) _ a w1 w1 w' Hd).
  2: { apply (iteration_advance_raises (EvaluationLoop.methods oracle) a w1 w1 w');
       [reflexivity | exact Hadv]. }
  split; [reflexivity | ]. rewrite Hs'. split; [lia | ]. split; [exact Hit' | ].
  rewrite Ht', (Hc (testing (trainer (env w)))), Htr0, Bool.eqb_reflx. reflexivity.
Qed.
End EvaluationRuns.

Lemma stepping_steady : steady MoreExamples.stepping.
Proof.
  intros c e. unfold MoreExamples.stepping.
  destruct c; try (eexists; exists e; repeat split; fail).
  match goal with |- context [match ?o with VNone => _ | _ => _ end] => destruct o end;
    eexists; exists e; repeat split.
Qed.

Lemma evaluation_run_all_batches_witness :
  exists w',
    EvaluationLoop.run MoreExamples.stepping 3 MoreExamples.two_batches
      MoreExamples.eval_three_batches
    = Some (Ret (EvaluationLoop.outputs (self w')), w')
    /\ dataloader_iter (env w') = [(2, VObj 3)]
    /\ count (step_in_mode false) (trace w') = 2%nat.
Proof.
  destruct (evaluation_run_all_batches MoreExamples.stepping stepping_steady 3
              MoreExamples.two_batches MoreExamples.eval_three_batches
              [(0, VObj 1); (1, VObj 2)] [(2, VObj 3)] eq_refl)
    as (w' & Hrun & _ & Hit & Hc & _).
  - repeat constructor.
  - reflexivity.
  - cbn. lia.
  - exists w'. split; [exact Hrun | ]. split; [exact Hit | exact Hc].
Defined.

Lemma evaluation_run_stops_early_witness :
  exists w',
    EvaluationLoop.run MoreExamples.stepping 2 Examples.five_batches
      Examples.eval_short_iterator
    = Some (Ret (EvaluationLoop.outputs (self w')), w')
    /\ EvaluationLoop.iteration_count (self w') = 1
    /\ dataloader_iter (env w') = [(2, VObj 3)].
Proof.
  destruct (evaluation_run_stops_early MoreExamples.stepping stepping_steady 2
              Examples.five_batches Examples.eval_short_iterator
              [(0, VObj 1)] [(1, VNone); (2, VObj 3)] eq_refl)
    as (w' & Hrun & Hi & Hit & _).
  - repeat constructor.
  - right. exists 1, [(2, VObj 3)]. reflexivity.
  - cbn. lia.
  - cbn. lia.
  - exists w'. split; [exact Hrun | ]. split; [exact Hi | exact Hit].
Defined.

(** ** The start of an epoch and the sampler *)

Section SamplerEpoch.
Variable oracle : Oracle.
Hypothesis Hret : forall c e, (forall n, c <> SamplerSetEpoch n) ->
                              exists v e', oracle c e = (Ret v, e').

Lemma other_answers (l0 : FitLoop.t) (c : Collab) :
  (forall n, c <> SamplerSetEpoch n) ->
  answers oracle (fun w : World FitLoop.t => self w = l0) c.
Proof.
  intros Hc w Hi. destruct (Hret c (env w) Hc) as (v & e' & Ho).
  exists v, e'. split; [exact Ho | exact Hi].
Qed.

Lemma sampler_suppressed (l0 : FitLoop.t) (p : Collab -> bool) (w : World FitLoop.t) :
  (forall n e, exists ex e', oracle (SamplerSetEpoch n) e = (Raise ex, e')
                             /\ is_Exception ex = true) ->
  (forall n, p (SamplerSetEpoch n) = false) ->
  runs_at (fun w : World FitLoop.t => self w = l0) p 0
    (suppress_Exception
       (w <- get ;; call oracle (SamplerSetEpoch (FitLoop.current_epoch w)) ;; ret tt)) w.
Proof.
  intros Hs Hp. apply runs_suppress_raised. intros Hi.
  destruct (Hs (FitLoop.current_epoch w) (env w)) as (ex & e' & Ho & Hex).
  exists ex. unfold bind, get, call. rewrite Ho. cbn.
  split; [reflexivity | ]. split; [exact Hex | ]. split; [exact Hi | ].
  rewrite count_snoc. unfold cost. rewrite Hp. reflexivity.
Qed.

(** X11: a sampler whose [set_epoch] fails with an [Exception] does not fail
    the start of the epoch: if the other collaborators return,
    [on_advance_start] returns, the loop object is unchanged and the
    [on_train_epoch_start] hook has been called once. *)
Theorem on_advance_start_tolerates_sampler (w : World FitLoop.t) :
  (forall n e, exists ex e', oracle (SamplerSetEpoch n) e = (Raise ex, e')
                             /\ is_Exception ex = true) ->
  exists w',
    FitLoop.on_advance_start oracle tt w = (Ret tt, w')
    /\ self w' = self w
    /\ count is_train_epoch_start_hook (trace w')
       = (count is_train_epoch_start_hook (trace w) + 1)%nat.
Proof.
  intros Hs.
  assert (H : runs_at (fun w' : World FitLoop.t => self w' = self w)
                is_train_epoch_start_hook 1 (FitLoop.on_advance_start oracle tt) w).
  { unfold FitLoop.on_advance_start.
    repeat
      (lazymatch goal with
       | |- runs_at _ _ _ (suppress_Exception _) _ =>
           apply (sampler_suppressed _ _ _ Hs); intros ?; reflexivity
       | |- _ =>
           runs_step ltac:(apply other_answers; intros ?; discriminate)
                     ltac:(intros Hi; exact Hi)
       end);
      reflexivity. }
  destruct (H eq_refl) as ([[] Hr] & Hself & Hc).
  destruct (FitLoop.on_advance_start oracle tt w) as [r w']. cbn [fst snd] in *.
  subst r. exists w'. split; [reflexivity | ]. split; assumption.
Qed.

(** X12: what [suppress(Exception)] does not catch is not swallowed: if
    [set_epoch] raises an exception that is no [Exception]
    ([KeyboardInterrupt]), [on_advance_start] raises that exception there
    and then.  The call of [set_epoch] is the last one made, after the
    reload of the dataloader when one is due; neither the accumulation
    scheduler nor the logger connector nor any epoch-start hook is called,
    and the loss accumulator is not replaced. *)
Theorem on_advance_start_interrupted (w : World FitLoop.t) (ex : exn) (e2 : Env) :
  let reload := negb (FitLoop.current_epoch w =? 0)
                && reload_dataloaders_every_epoch (trainer (env w)) in
  let e1 := if reload then snd (oracle ResetTrainDataloader (env w)) else env w in
  oracle (SamplerSetEpoch (FitLoop.current_epoch w)) e1 = (Raise ex, e2) ->
  is_Exception ex = false ->
  let w' :=
    mkWorld (self w) e2
      (trace w ++ (if reload then [ResetTrainDataloader] else [])
               ++ [SamplerSetEpoch (FitLoop.current_epoch w)]) in
  FitLoop.on_advance_start oracle tt w = (Raise ex, w')
  /\ (forall p : Collab -> bool,
        p ResetTrainDataloader = false ->
        (forall n, p (SamplerSetEpoch n) = false) ->
        count p (trace w') = count p (trace w)).
Proof.
  intros reload e1 Ho2 Hex w'. split.
  - subst w' e1 reload.
    unfold FitLoop.on_advance_start. unfold bind at 1. unfold get at 1.
    destruct (negb (FitLoop.current_epoch w =? 0)
              && reload_dataloaders_every_epoch (trainer (env w))).
    + destruct (Hret ResetTrainDataloader (env w)) as (v & e1 & Ho1);
        [intros n; discriminate | ].
      rewrite Ho1 in Ho2. cbn [snd] in Ho2.
      unfold bind at 1. unfold bind at 1. unfold call at 1. rewrite Ho1. cbn [ret].
      unfold bind at 1. unfold suppress_Exception, bind, get, call. cbn [env self].
      unfold FitLoop.current_epoch in *. cbn [self]. rewrite Ho2, Hex.
      cbn [trace]. rewrite <- app_assoc. reflexivity.
    + unfold bind at 1. cbn [ret].
      unfold bind at 1. unfold suppress_Exception, bind, get, call.
      rewrite Ho2, Hex. reflexivity.
  - intros p Hp1 Hp2. subst w'. cbn [trace]. rewrite !count_app.
    replace (count p (if reload then [ResetTrainDataloader] else [])) with 0%nat.
    + replace (count p [SamplerSetEpoch (FitLoop.current_epoch w)]) with 0%nat; [lia | ].
      unfold count. cbn [filter]. rewrite Hp2. reflexivity.
    + destruct reload; unfold count; cbn [filter]; [rewrite Hp1 | ]; reflexivity.
Qed.
End SamplerEpoch.

Lemma on_advance_start_tolerates_sampler_witness :
  exists w',
    FitLoop.on_advance_start MoreExamples.failing_sampler tt Examples.three_epochs
    = (Ret tt, w')
    /\ count is_train_epoch_start_hook (trace w') = 1%nat.
Proof.
  destruct (on_advance_start_tolerates_sampler MoreExamples.failing_sampler)
    with (w := Examples.three_epochs) as (w' & Hrun & _ & Hc).
  - intros c e Hc. destruct c; try (exists VNone, e; reflexivity).
    exfalso. apply (Hc epoch). reflexivity.
  - intros n e. exists (RuntimeError "no set_epoch"), e. split; reflexivity.
  - exists w'. split; [exact Hrun | exact Hc].
Defined.

Lemma on_advance_start_interrupted_witness :
  FitLoop.on_advance_start MoreExamples.interrupted_sampler tt Examples.three_epochs
  = (Raise KeyboardInterrupt,
     mkWorld (self Examples.three_epochs) (env Examples.three_epochs)
       [SamplerSetEpoch 0]).
Proof.
  apply (on_advance_start_interrupted MoreExamples.interrupted_sampler).
  - intros c e Hc. destruct c; try (exists VNone, e; reflexivity).
    exfalso. apply (Hc epoch). reflexivity.
  - reflexivity.
  - reflexivity.
Defined.

(** ** A teardown that fails *)

Lemma fails_bind {P A B} (m : M P A) (f : A -> M P B) (w : World P) :
  fails_at m w -> fails_at (bind m f) w.
Proof.
  intros [ex Hr]. exists ex. unfold bind. destruct (m w) as [r w1].
  cbn [fst] in Hr. subst r. reflexivity.
Qed.

Lemma fails_bind_later {P A B} (m : M P A) (f : A -> M P B) (w : World P) :
  (forall a w', fails_at (f a) w') -> fails_at (bind m f) w.
Proof.
  intros Hf. unfold fails_at, bind. destruct (m w) as [[a | e] w1].
  - apply Hf.
  - exists e. reflexivity.
Qed.

Lemma frames_bind_fails {P A B} (p : Collab -> bool) (k : nat)
      (m : M P A) (f : A -> M P B) (w : World P) :
  fails_at m w -> frames_at p k m w -> frames_at p k (bind m f) w.
Proof.
  intros [ex Hr] Hm. unfold frames_at, bind in *. destruct (m w) as [r w1].
  cbn [fst] in Hr. subst r. exact Hm.
Qed.

Section FailingTeardown.
Variable oracle : Oracle.
Hypothesis Hhook :
  forall e, exists ex e', oracle (CallHook "on_train_end" []) e = (Raise ex, e').

Lemma hook_fails (w : World FitLoop.t) :
  fails_at (call oracle (CallHook "on_train_end" [])) w.
Proof.
  destruct (Hhook (env w)) as (ex & e' & Ho). exists ex. unfold call. rewrite Ho.
  reflexivity.
Qed.

Lemma teardown_fails (w : World FitLoop.t) : fails_at (teardown oracle) w.
Proof.
  unfold teardown.
  do 5 (apply fails_bind_later; intros ? ?).
  apply fails_bind, hook_fails.
Qed.

(** After the failing hook nothing is called. *)
Lemma teardown_stops_at_hook (p : Collab -> bool) (w : World FitLoop.t) :
  p (RankZeroInfo "Saving latest checkpoint...") = false ->
  (forall cb, p (CheckpointOnValidationEnd cb) = false) ->
  p (CallHook "on_train_end" []) = false ->
  frames_at p 0 (teardown oracle) w.
Proof.
  intros Hmsg Hcb Hh. unfold teardown.
  apply frames_get; cbv beta.
  apply (frames_bind p 0 0); [apply frames_modify_env | intros _].
  apply (frames_bind p 0 0).
  { eapply frames_weaken; [ | apply (check_checkpoint_callback_frames oracle p 0)].
    - unfold cost. rewrite Hmsg. lia.
    - intros cb. unfold cost. rewrite Hcb. lia. }
  intros _. apply frames_get; cbv beta.
  apply (frames_bind p 0 0); [apply frames_modify_env | intros _].
  apply frames_bind_fails; [apply hook_fails | ].
  eapply frames_weaken; [ | apply frames_call]. unfold cost. rewrite Hh. lia.
Qed.

(** X13: a teardown that fails is not made up for.  If the [on_train_end]
    hook raises, the first [on_run_end] of a loop raises; from then on
    [on_run_end] returns [None] without doing anything, so that the logger
    is not finalized, the profiler not asked for its summary and the
    accelerator not told that training ended, however often [on_run_end]
    is called. *)
Theorem failed_teardown_is_final (n : nat) (w : World FitLoop.t) :
  FitLoop._teardown_already_run (self w) = false ->
  let w1 := snd (FitLoop.on_run_end oracle w) in
  let wn := FitLoop.on_run_end_times oracle n w in
  (exists ex, fst (FitLoop.on_run_end oracle w) = Raise ex)
  /\ FitLoop.on_run_end oracle w1 = (Ret VNone, w1)
  /\ (count is_logger_finalize (trace wn) <= count is_logger_finalize (trace w))%nat
  /\ (count is_profiler_describe (trace wn) <= count is_profiler_describe (trace w))%nat
  /\ (count is_accelerator_on_train_end (trace wn)
      <= count is_accelerator_on_train_end (trace w))%nat.
Proof.
  intros Hf. cbn zeta.
  split; [rewrite (on_run_end_first oracle w Hf); apply teardown_fails | ].
  split; [apply on_run_end_again, on_run_end_sets_flag | ].
  assert (Hone : forall p : Collab -> bool,
             p (RankZeroInfo "Saving latest checkpoint...") = false ->
             (forall cb, p (CheckpointOnValidationEnd cb) = false) ->
             p (CallHook "on_train_end" []) = false ->
             (count p (trace (FitLoop.on_run_end_times oracle n w))
              <= count p (trace w))%nat).
  { intros p H1 H2 H3. destruct n as [ | n]; [cbn; lia | ].
    rewrite on_run_end_times_S, (on_run_end_first oracle w Hf).
    pose proof (proj2 (teardown_stops_at_hook p
                         (mkWorld (torn_down (self w)) (env w) (trace w)) H1 H2 H3)) as H.
    cbn [trace] in H. lia. }
  repeat split; apply Hone; reflexivity.
Qed.
End FailingTeardown.

Lemma failed_teardown_is_final_witness :
  let w := mkWorld (FitLoop.set_iteration_count 3 (self Examples.three_epochs))
                   (env Examples.three_epochs) [] in
  (exists ex, fst (FitLoop.on_run_end MoreExamples.failing_train_end w) = Raise ex)
  /\ count is_profiler_describe
       (trace (FitLoop.on_run_end_times MoreExamples.failing_train_end 2 w)) = 0%nat.
Proof.
  intros w.
  destruct (failed_teardown_is_final MoreExamples.failing_train_end) with (n := 2%nat) (w := w)
    as (Hr & _ & _ & Hd & _).
  - intros e. exists (RuntimeError "hook failed"), e. reflexivity.
  - reflexivity.
  - split; [exact Hr | ]. change (count is_profiler_describe (trace w)) with 0%nat in Hd.
    lia.
Defined.

(** ** The step counter around the logging of the epoch metrics *)

Section EpochMetrics.
Variable oracle : Oracle.

(** The logger connector and the profiler leave the child loop alone, and
    the profiler region can be left. *)
Hypothesis Hmetrics_frame :
  forall e, training_loop (snd (oracle UpdateTrainEpochMetrics e)) = training_loop e.
Hypothesis Hexit :
  forall name e,
    exists v e', oracle (ProfileExit name) e = (Ret v, e')
                 /\ training_loop e' = training_loop e.

(** X14: [FitLoop.advance] lowers [global_step] by one for the logging of
    the epoch metrics and raises it again afterwards.  When the logging
    returns, [global_step] is what the child loop left; when the logging
    raises, [advance] raises the same exception and [global_step] stays one
    below what the child loop left. *)
Theorem advance_global_step_shim (w : World FitLoop.t)
        (v1 v2 v3 epoch_output : value) (e1 e2 e3 e4 : Env) :
  oracle ProcessDataloader (env w) = (Ret v1, e1) ->
  oracle GetProfiledTrainDataloader e1 = (Ret v2, e2) ->
  oracle (ProfileEnter "run_training_epoch") e2 = (Ret v3, e3) ->
  oracle TrainingLoopRun e3 = (Ret epoch_output, e4) ->
  is_None epoch_output = false ->
  let g := tl_global_step (training_loop e4) in
  let logged := oracle UpdateTrainEpochMetrics (set_global_step (g - 1) e4) in
  let w' := snd (FitLoop.advance oracle tt w) in
  self w' = self w
  /\ (forall v, fst logged = Ret v ->
        fst (FitLoop.advance oracle tt w) = Ret tt /\ FitLoop.global_step w' = g)
  /\ (forall ex, fst logged = Raise ex ->
        fst (FitLoop.advance oracle tt w) = Raise ex /\ FitLoop.global_step w' = g - 1).
Proof.
  intros H1 H2 H3 H4 Hout g logged w'.
  subst w'. unfold FitLoop.advance, with_profile, finally, bind, get, ret, call,
    modify_env, FitLoop.global_step.
  rewrite H1. cbn [env self trace]. rewrite H2. cbn [env self trace].
  rewrite H3. cbn [env self trace]. rewrite H4. cbn [env self trace]. rewrite Hout.
  cbn [env self trace fst snd].
  fold g. pose proof (Hmetrics_frame (set_global_step (g - 1) e4)) as Hfr.
  subst logged.
  destruct (oracle UpdateTrainEpochMetrics (set_global_step (g - 1) e4)) as [r e5].
  cbn [fst snd] in *.
  destruct r as [v | ex].
  - cbn [env self trace].
    destruct (Hexit "run_training_epoch"
                (set_global_step (tl_global_step (training_loop e5) + 1) e5))
      as (v6 & e6 & Ho6 & Hfr6).
    rewrite Ho6. cbn [fst snd self env].
    split; [reflexivity | ]. split.
    + intros v' _. split; [reflexivity | ]. rewrite Hfr6, Hfr. cbn. lia.
    + intros ex [=].
  - cbn [env self trace].
    destruct (Hexit "run_training_epoch" e5) as (v6 & e6 & Ho6 & Hfr6).
    rewrite Ho6. cbn [fst snd self env].
    split; [reflexivity | ]. split.
    + intros v' [=].
    + intros ex' [= <-]. split; [reflexivity | ]. rewrite Hfr6, Hfr. reflexivity.
Qed.
End EpochMetrics.

Lemma advance_global_step_shim_witness :
  fst (FitLoop.advance MoreExamples.failing_metrics tt Examples.three_epochs)
    = Raise (RuntimeError "logger down")
  /\ FitLoop.global_step
       (snd (FitLoop.advance MoreExamples.failing_metrics tt Examples.three_epochs)) = 9.
Proof.
  destruct (advance_global_step_shim MoreExamples.failing_metrics) with
    (w := Examples.three_epochs) (v1 := VNone) (v2 := VNone) (v3 := VNone)
    (epoch_output := VObj 0) (e1 := env Examples.three_epochs)
    (e2 := env Examples.three_epochs) (e3 := env Examples.three_epochs)
    (e4 := set_global_step 10 (env Examples.three_epochs))
    as (_ & _ & H); try reflexivity.
  - intros name e. exists VNone, e. split; reflexivity.
  - exact (H (RuntimeError "logger down") eq_refl).
Defined.

(** ** [advance] on a loop that has not been started *)

(** X15: [EvaluationLoop.advance] on a loop without [num_dataloaders] (one
    that has been constructed or reset but whose run has not started) fails
    its assertion, and does so late: the batch has been taken from the
    iterator and the logger connector's [on_batch_start] has been called
    before [AssertionError] is raised; no hook and no step follows. *)
Theorem advance_without_num_dataloaders (oracle : Oracle) (a : EvaluationLoop.args)
        (w : World EvaluationLoop.t) (batch_idx : Z) (batch v : value)
        (rest : list (Z * value)) (e' : Env) :
  EvaluationLoop.num_dataloaders (self w) = None ->
  dataloader_iter (env w) = (batch_idx, batch) :: rest ->
  is_None batch = false ->
  oracle LoggerConnectorOnBatchStart (set_dataloader_iter rest (env w)) = (Ret v, e') ->
  EvaluationLoop.advance oracle a w
  = (Raise AssertionError,
     mkWorld (self w) e' (trace w ++ [LoggerConnectorOnBatchStart])).
Proof.
  intros Hn Hit Hb Ho.
  rewrite (advance_batch oracle a w batch_idx batch rest Hit Hb).
  unfold process_batch, EvaluationLoop.on_evaluation_batch_start.
  unfold bind at 1. unfold bind at 1. unfold call at 1. cbn [env self trace].
  rewrite Ho. unfold bind at 1. unfold get at 1. cbn [self]. rewrite Hn. reflexivity.
Qed.

Lemma advance_without_num_dataloaders_witness :
  fst (EvaluationLoop.advance MoreExamples.stepping MoreExamples.two_batches
         MoreExamples.eval_three_batches) = Raise AssertionError.
Proof.
  rewrite (advance_without_num_dataloaders MoreExamples.stepping MoreExamples.two_batches
             MoreExamples.eval_three_batches 0 (VObj 1) VNone
             [(1, VObj 2); (2, VObj 3)]
             (set_dataloader_iter [(1, VObj 2); (2, VObj 3)]
                (env MoreExamples.eval_three_batches)));
    reflexivity.
Defined.

(** ** Predictions are not stored in validation *)

Section ValidationPredictions.
Variable oracle : Oracle.
Hypothesis Hsteady : steady oracle.

Lemma validation_batch_start_no_predictions (it : list (Z * value)) (i N n : Z)
      (batch : value) (batch_idx dataloader_idx : Z) (w : World EvaluationLoop.t) :
  runs_at (eval_inv it false i N n) is_prediction_call 0
    (EvaluationLoop.on_evaluation_batch_start oracle batch batch_idx dataloader_idx) w.
Proof.
  unfold EvaluationLoop.on_evaluation_batch_start.
  eapply runs_bind;
    [runs_step ltac:(apply (steady_answers oracle Hsteady)) ltac:(eval_inv_kept)
    | intros v | reflexivity].
  apply runs_get; cbv beta. apply runs_intro. intros (_ & _ & _ & _ & Hn). rewrite Hn.
  repeat runs_step ltac:(apply (steady_answers oracle Hsteady)) ltac:(eval_inv_kept);
    reflexivity.
Qed.

Lemma validation_step_no_predictions (it : list (Z * value)) (i N n : Z)
      (batch : value) (batch_idx dataloader_idx : Z) (w : World EvaluationLoop.t) :
  runs_at (eval_inv it false i N n) is_prediction_call 0
    (output <- EvaluationLoop.evaluation_step oracle batch batch_idx dataloader_idx ;;
     EvaluationLoop.evaluation_step_end oracle output) w.
Proof.
  unfold EvaluationLoop.evaluation_step, EvaluationLoop.evaluation_step_end.
  eapply runs_bind; [ | intros output | ].
  - eapply runs_bind; [apply build_kwargs_runs | intros kw | ].
    + repeat runs_step ltac:(apply (steady_answers oracle Hsteady)) ltac:(eval_inv_kept);
        reflexivity.
    + reflexivity.
  - repeat runs_step ltac:(apply (steady_answers oracle Hsteady)) ltac:(eval_inv_kept);
      reflexivity.
  - reflexivity.
Qed.

(** In validation mode [store_predictions] only tracks the loss history. *)
Lemma validation_batch_end_no_predictions (it : list (Z * value)) (i N n : Z)
      (output batch : value) (batch_idx dataloader_idx : Z) (w : World EvaluationLoop.t) :
  runs_at (eval_inv it false i N n) is_prediction_call 0
    (EvaluationLoop.on_evaluation_batch_end oracle output batch batch_idx dataloader_idx) w.
Proof.
  unfold EvaluationLoop.on_evaluation_batch_end, EvaluationLoop.store_predictions.
  apply runs_get; cbv beta.
  eapply runs_bind;
    [runs_step ltac:(apply (steady_answers oracle Hsteady)) ltac:(eval_inv_kept);
     runs_step ltac:(apply (steady_answers oracle Hsteady)) ltac:(eval_inv_kept)
    | intros v1 | reflexivity].
  eapply runs_bind;
    [runs_step ltac:(apply (steady_answers oracle Hsteady)) ltac:(eval_inv_kept)
    | intros v2 | reflexivity].
  apply runs_get; cbv beta. apply runs_intro. intros (_ & Ht & _). rewrite Ht.
  rewrite andb_false_r.
  repeat runs_step ltac:(apply (steady_answers oracle Hsteady)) ltac:(eval_inv_kept);
    reflexivity.
Qed.

(** X16: in validation mode the prediction collection is never touched.
    With collaborators that return and leave the iterator and the mode
    alone, [EvaluationLoop.advance] over a batch returns without popping
    [predictions] from the output and without adding to the collection,
    whatever the validation step returns. *)
Theorem validation_stores_no_predictions (a : EvaluationLoop.args)
        (w : World EvaluationLoop.t) (batch_idx : Z) (batch : value)
        (rest : list (Z * value)) (N n : Z) :
  testing (trainer (env w)) = false ->
  dataloader_iter (env w) = (batch_idx, batch) :: rest ->
  is_None batch = false ->
  EvaluationLoop.dl_max_batches (self w) = Some N ->
  EvaluationLoop.num_dataloaders (self w) = Some n ->
  exists w',
    EvaluationLoop.advance oracle a w = (Ret tt, w')
    /\ count is_prediction_call (trace w') = count is_prediction_call (trace w)
    /\ count (step_in_mode false) (trace w')
       = (count (step_in_mode false) (trace w) + 1)%nat.
Proof.
  intros Ht Hit Hb HN Hn.
  rewrite (advance_batch oracle a w batch_idx batch rest Hit Hb).
  set (w0 := mkWorld (self w) (set_dataloader_iter rest (env w)) (trace w)).
  assert (Hinv : eval_inv rest false (EvaluationLoop.iteration_count (self w)) N n w0)
    by (repeat split; assumption).
  assert (H : runs_at (eval_inv rest false (EvaluationLoop.iteration_count (self w)) N n)
                is_prediction_call 0 (process_batch oracle a batch_idx batch) w0).
  { unfold process_batch.
    repeat
      (lazymatch goal with
       | |- runs_at _ _ _ (EvaluationLoop.on_evaluation_batch_start _ _ _ _) _ =>
           apply validation_batch_start_no_predictions
       | |- runs_at _ _ _ (with_profile _ _ _) _ =>
           eapply runs_with_profile;
           [reflexivity | reflexivity | apply (steady_answers oracle Hsteady)
           | apply (steady_answers oracle Hsteady)
           | intros ?; apply validation_step_no_predictions]
       | |- runs_at _ _ _ (EvaluationLoop.on_evaluation_batch_end _ _ _ _ _) _ =>
           apply validation_batch_end_no_predictions
       | |- _ =>
           runs_step ltac:(apply (steady_answers oracle Hsteady)) ltac:(eval_inv_kept)
       end);
      reflexivity. }
  destruct (H Hinv) as ([[] Hr] & _ & Hc).
  destruct (process_batch_runs oracle Hsteady rest false false
              (EvaluationLoop.iteration_count (self w)) N n a batch_idx batch w0 Hinv)
    as (_ & _ & Hs).
  destruct (process_batch oracle a batch_idx batch w0) as [r w']. cbn [fst snd] in *.
  subst r. exists w'. split; [reflexivity | ]. split; [ | exact Hs].
  rewrite Hc. cbn [trace w0]. lia.
Qed.
End ValidationPredictions.

Lemma validation_stores_no_predictions_witness :
  exists w',
    EvaluationLoop.advance MoreExamples.stepping MoreExamples.two_batches
      (snd (EvaluationLoop.on_run_start MoreExamples.two_batches
              MoreExamples.eval_three_batches))
    = (Ret tt, w')
    /\ count is_prediction_call (trace w') = 0%nat.
Proof.
  destruct (validation_stores_no_predictions MoreExamples.stepping stepping_steady
              MoreExamples.two_batches
              (snd (EvaluationLoop.on_run_start MoreExamples.two_batches
                      MoreExamples.eval_three_batches))
              0 (VObj 1) [(1, VObj 2); (2, VObj 3)] 2 1
              eq_refl eq_refl eq_refl eq_refl eq_refl)
    as (w' & Hrun & Hc & _).
  exists w'. split; [exact Hrun | exact Hc].
Defined.

(** ** The order of a teardown *)

Section TeardownOrder.
Variable oracle : Oracle.
Hypothesis Hpassive : passive oracle.

Lemma call_passive {P} (c : Collab) (w : World P) :
  exists v, call oracle c w = (Ret v, mkWorld (self w) (env w) (trace w ++ [c])).
Proof.
  destruct (Hpassive c (env w)) as [v Ho]. exists v. unfold call. rewrite Ho.
  reflexivity.
Qed.

Lemma for_each_checkpoint_passive (l : list Callback) :
  forall w : World FitLoop.t,
    for_each l (fun cb => call oracle (CheckpointOnValidationEnd cb) ;; ret tt) w
    = (Ret tt, mkWorld (self w) (env w) (trace w ++ map CheckpointOnValidationEnd l)).
Proof.
  induction l as [ | cb l IH]; intros w.
  - cbn. rewrite app_nil_r. destruct w; reflexivity.
  - cbn [for_each]. unfold bind at 1. unfold bind at 1.
    destruct (call_passive (CheckpointOnValidationEnd cb) w) as [v ->]. cbn [ret].
    rewrite IH. cbn [self env trace map]. rewrite <- app_assoc. reflexivity.
Qed.

Lemma check_checkpoint_callback_passive (should_update is_last : bool)
      (w : World FitLoop.t) :
  FitLoop.check_checkpoint_callback oracle should_update is_last w
  = (Ret tt,
     mkWorld (self w) (env w) (trace w ++ checkpoint_calls should_update is_last (env w))).
Proof.
  unfold FitLoop.check_checkpoint_callback, checkpoint_calls.
  unfold bind at 1. unfold get at 1.
  destruct (should_update && has_trained (trainer (env w))).
  - unfold bind at 1. destruct (is_last && existsb _ _).
    + unfold emit. rewrite for_each_checkpoint_passive. cbn [self env trace].
      rewrite <- app_assoc. reflexivity.
    + unfold ret at 1. rewrite for_each_checkpoint_passive. reflexivity.
  - cbn. rewrite app_nil_r. destruct w; reflexivity.
Qed.

Lemma set_global_step_back (e : Env) (g : Z) :
  set_global_step (g - 1 + 1) (set_global_step (g - 1) e) = set_global_step g e.
Proof. unfold set_global_step. cbn. f_equal. f_equal. lia. Qed.

Lemma set_global_step_same (e : Env) :
  set_global_step (tl_global_step (training_loop e)) e = e.
Proof. destruct e as [tr [g mn mx bs al] it st]. reflexivity. Qed.

(** X17: the teardown in order.  With collaborators that return and change
    nothing, the first [on_run_end] of a loop returns [None] after calling,
    in this order: the checkpoint callbacks (if the trainer has trained,
    after the message about the latest checkpoint if a callback asks for
    it), the [on_train_end] hook, the logger's [finalize] (if there is a
    logger), the profiler's [describe] and the accelerator's
    [on_train_end].  It leaves [current_epoch] one lower, [global_step] as
    it was, and the running stage cleared. *)
Theorem on_run_end_in_order (w : World FitLoop.t) :
  FitLoop._teardown_already_run (self w) = false ->
  FitLoop.on_run_end oracle w
  = (Ret VNone,
     mkWorld (torn_down (self w)) (set_running_stage None (env w))
             (trace w ++ teardown_calls (env w))).
Proof.
  intros Hf. rewrite (on_run_end_first oracle w Hf). unfold teardown, teardown_calls.
  unfold bind at 1. unfold get at 1.
  unfold bind at 1. unfold modify_env at 1. cbn [self env trace].
  unfold bind at 1. rewrite check_checkpoint_callback_passive. cbn [self env trace].
  unfold bind at 1. unfold get at 1.
  unfold bind at 1. unfold modify_env at 1. cbn [self env trace].
  unfold FitLoop.global_step at 1 2. cbn [env].
  replace (tl_global_step (training_loop
             (set_global_step (tl_global_step (training_loop (env w)) - 1) (env w))))
    with (tl_global_step (training_loop (env w)) - 1) by reflexivity.
  change (FitLoop.global_step (mkWorld (torn_down (self w)) (env w) (trace w)))
    with (tl_global_step (training_loop (env w))).
  rewrite set_global_step_back, set_global_step_same.
  replace (checkpoint_calls true true
             (set_global_step (tl_global_step (training_loop (env w)) - 1) (env w)))
    with (checkpoint_calls true true (env w)) by reflexivity.
  unfold bind at 1.
  destruct (call_passive (CallHook "on_train_end" [])
              (mkWorld (torn_down (self w)) (env w)
                 (trace w ++ checkpoint_calls true true (env w)))) as [v1 ->].
  cbn [self env trace]. unfold bind at 1. unfold get at 1. unfold bind at 1.
  cbn [env].
  destruct (logger (trainer (env w))) as [lg | ].
  - unfold bind at 1.
    match goal with |- context [call oracle (LoggerFinalize "success") ?x] =>
      destruct (call_passive (LoggerFinalize "success") x) as [v2 ->] end.
    cbn [ret self env trace]. unfold bind at 1.
    match goal with |- context [call oracle ProfilerDescribe ?x] =>
      destruct (call_passive ProfilerDescribe x) as [v3 ->] end.
    cbn [self env trace]. unfold bind at 1.
    match goal with |- context [call oracle AcceleratorOnTrainEnd ?x] =>
      destruct (call_passive AcceleratorOnTrainEnd x) as [v4 ->] end.
    cbn [self env trace]. unfold bind, modify_env, ret. cbn [self env trace].
    rewrite <- !app_assoc. reflexivity.
  - unfold ret at 1. unfold bind at 1.
    match goal with |- context [call oracle ProfilerDescribe ?x] =>
      destruct (call_passive ProfilerDescribe x) as [v3 ->] end.
    cbn [self env trace]. unfold bind at 1.
    match goal with |- context [call oracle AcceleratorOnTrainEnd ?x] =>
      destruct (call_passive AcceleratorOnTrainEnd x) as [v4 ->] end.
    cbn [self env trace]. unfold bind, modify_env, ret. cbn [self env trace].
    rewrite <- !app_assoc. reflexivity.
Qed.
End TeardownOrder.

Lemma training_passive : passive Examples.training.
Proof. intros c e. destruct c; eexists; reflexivity. Qed.

Lemma on_run_end_in_order_witness :
  FitLoop.on_run_end Examples.training MoreExamples.trained_world
  = (Ret VNone,
     mkWorld (torn_down (self MoreExamples.trained_world))
       (set_running_stage None (env MoreExamples.trained_world))
       [RankZeroInfo "Saving latest checkpoint...";
        CheckpointOnValidationEnd MoreExamples.checkpoint_a;
        CheckpointOnValidationEnd MoreExamples.checkpoint_b;
        CallHook "on_train_end" []; ProfilerDescribe; AcceleratorOnTrainEnd]).
Proof.
  exact (on_run_end_in_order Examples.training training_passive
           MoreExamples.trained_world eq_refl).
Defined.

(** ** The hooks of a batch, in order *)

Section BatchOrder.
Variable oracle : Oracle.
Hypothesis Hpassive : passive oracle.

Lemma call_answer {P} (c : Collab) (w : World P) :
  call oracle c w
  = (Ret (answer oracle c (env w)), mkWorld (self w) (env w) (trace w ++ [c])).
Proof.
  unfold call, answer. destruct (Hpassive c (env w)) as [v Ho]. rewrite Ho.
  reflexivity.
Qed.

(** X18: the calls of one batch, in order.  With collaborators that return
    and change nothing, [EvaluationLoop.advance] over a batch calls the
    batch-start hooks, then, inside the profiler region
    "evaluation_step_and_end", the accelerator step of the mode (in its own
    region) and the step-end hook on the step's answer; then the batch-end
    hook, the prediction collection (in test mode, for a [ResultCollection])
    and the debug tracking, all on the answer of the step-end hook; then the
    metrics update; and it stores as [outputs] what the trainer's
    [_track_output_for_epoch_end] answers for the old outputs and that
    answer.  Nothing else of the loop changes. *)
Theorem advance_in_order (a : EvaluationLoop.args) (w : World EvaluationLoop.t)
        (batch_idx : Z) (batch : value) (rest : list (Z * value)) (n : Z) :
  dataloader_iter (env w) = (batch_idx, batch) :: rest ->
  is_None batch = false ->
  EvaluationLoop.num_dataloaders (self w) = Some n ->
  let e := set_dataloader_iter rest (env w) in
  let calls :=
    batch_calls oracle (testing (trainer (env w)))
      (match EvaluationLoop.predictions (self w) with Some _ => true | None => false end)
      n batch_idx (EvaluationLoop.arg_dataloader_idx a) batch
      (EvaluationLoop.outputs (self w)) e in
  EvaluationLoop.advance oracle a w
  = (Ret tt,
     mkWorld
       (EvaluationLoop.set_outputs (answer oracle (last calls UpdateEvalStepMetrics) e)
          (self w))
       e (trace w ++ calls)).
Proof.
  intros Hit Hb Hn e calls.
  rewrite (advance_batch oracle a w batch_idx batch rest Hit Hb). fold e.
  subst calls. unfold batch_calls, process_batch, EvaluationLoop.on_evaluation_batch_start,
    EvaluationLoop.evaluation_step, EvaluationLoop.evaluation_step_end,
    EvaluationLoop.on_evaluation_batch_end, EvaluationLoop.store_predictions,
    with_profile, finally.
  unfold bind at 1. unfold bind at 1. rewrite call_answer. cbn [self env trace].
  unfold bind at 1. unfold get at 1. cbn [self]. rewrite Hn.
  unfold bind at 1. unfold bind at 1. rewrite call_answer. cbn [self env trace].
  unfold bind at 1. unfold get at 1. unfold bind at 1. cbn [env].
  change (testing (trainer e)) with (testing (trainer (env w))).
  destruct (testing (trainer (env w))) eqn:Ht.
  - rewrite call_answer. cbn [ret self env trace].
    unfold bind at 1. unfold bind at 1. rewrite call_answer. cbn [self env trace].
    unfold bind at 1. unfold bind at 1.
    rewrite (build_kwargs_eq _ batch batch_idx (EvaluationLoop.arg_dataloader_idx a) n)
      by exact Hn.
    unfold bind at 1. unfold get at 1. cbn [env].
    change (testing (trainer e)) with (testing (trainer (env w))). rewrite Ht.
    unfold bind at 1. unfold emit at 1. cbn [self env trace].
    unfold bind at 1. rewrite call_answer. cbn [self env trace].
    rewrite call_answer. cbn [self env trace].
    unfold bind at 1. rewrite call_answer. cbn [ret self env trace].
    unfold bind at 1. unfold get at 1. cbn [env].
    change (testing (trainer e)) with (testing (trainer (env w))). rewrite Ht.
    rewrite call_answer. cbn [self env trace].
    unfold bind at 1. rewrite call_answer. cbn [ret self env trace].
    unfold bind at 1. unfold bind at 1. unfold get at 1. unfold bind at 1. cbn [env].
    change (testing (trainer e)) with (testing (trainer (env w))). rewrite Ht.
    rewrite call_answer. cbn [self env trace].
    unfold bind at 1. rewrite call_answer. cbn [self env trace].
    unfold bind at 1. unfold get at 1. unfold bind at 1. cbn [self env].
    change (testing (trainer e)) with (testing (trainer (env w))). rewrite Ht.
    match goal with |- context [negb (is_None ?o) && ?hp] =>
      destruct (negb (is_None o) && hp);
      [destruct (EvaluationLoop.is_ResultCollection o) | ] end;
      cbn [andb];
      repeat (first [rewrite call_answer | unfold bind at 1 | unfold get at 1
                    | unfold ret at 1 | unfold modify_self at 1];
              cbn [self env trace fst snd]);
      rewrite <- ?app_assoc; reflexivity.
  - rewrite call_answer. cbn [ret self env trace].
    unfold bind at 1. unfold bind at 1. rewrite call_answer. cbn [self env trace].
    unfold bind at 1. unfold bind at 1.
    rewrite (build_kwargs_eq _ batch batch_idx (EvaluationLoop.arg_dataloader_idx a) n)
      by exact Hn.
    unfold bind at 1. unfold get at 1. cbn [env].
    change (testing (trainer e)) with (testing (trainer (env w))). rewrite Ht.
    unfold bind at 1. unfold emit at 1. cbn [self env trace].
    unfold bind at 1. rewrite call_answer. cbn [self env trace].
    rewrite call_answer. cbn [self env trace].
    unfold bind at 1. rewrite call_answer. cbn [ret self env trace].
    unfold bind at 1. unfold get at 1. cbn [env].
    change (testing (trainer e)) with (testing (trainer (env w))). rewrite Ht.
    rewrite call_answer. cbn [self env trace].
    unfold bind at 1. rewrite call_answer. cbn [ret self env trace].
    unfold bind at 1. unfold bind at 1. unfold get at 1. unfold bind at 1. cbn [env].
    change (testing (trainer e)) with (testing (trainer (env w))). rewrite Ht.
    rewrite call_answer. cbn [self env trace].
    unfold bind at 1. rewrite call_answer. cbn [self env trace].
    unfold bind at 1. unfold get at 1. unfold bind at 1. cbn [self env].
    change (testing (trainer e)) with (testing (trainer (env w))). rewrite Ht.
    rewrite !andb_false_r.
    match goal with |- context [negb (is_None ?o) && ?hp] =>
      destruct (negb (is_None o) && hp) end;
      repeat (first [rewrite call_answer | unfold bind at 1 | unfold get at 1
                    | unfold ret at 1 | unfold modify_self at 1];
              cbn [self env trace fst snd]);
      rewrite <- ?app_assoc; reflexivity.
Qed.
End BatchOrder.

Lemma stepping_passive : passive MoreExamples.stepping.
Proof.
  intros c e. unfold MoreExamples.stepping.
  destruct c; try (eexists; reflexivity).
  match goal with |- context [match ?o with VNone => _ | _ => _ end] => destruct o end;
    eexists; reflexivity.
Qed.

(** The first batch of a validation with one dataloader. *)
Lemma advance_in_order_witness :
  let w := snd (EvaluationLoop.on_run_start MoreExamples.two_batches
                  MoreExamples.eval_three_batches) in
  exists w',
    EvaluationLoop.advance MoreExamples.stepping MoreExamples.two_batches w = (Ret tt, w')
    /\ EvaluationLoop.outputs (self w') = VList [VNone]
    /\ trace w'
       = [LoggerConnectorOnBatchStart;
          LoggerConnectorOnEvaluationBatchStart (VObj 1) 0 0 1;
          CallHook "on_validation_batch_start" [VObj 1; VInt 0; VInt 0];
          ProfileEnter "evaluation_step_and_end";
          SetCurrentFxName "validation_step";
          ProfileEnter "validation_step";
          AcceleratorValidationStep [("batch", VObj 1); ("batch_idx", VInt 0)];
          ProfileExit "validation_step";
          CallHook "validation_step_end" [VObj 42];
          ProfileExit "evaluation_step_and_end";
          CallHook "on_validation_batch_end" [VNone; VObj 1; VInt 0; VInt 0];
          LoggerConnectorOnBatchEnd;
          TrackEvalLossHistory 0 0 VNone;
          UpdateEvalStepMetrics;
          TrackOutputForEpochEnd (VList []) VNone].
Proof.
  intros w. eexists.
  split; [ | split].
  - exact (advance_in_order MoreExamples.stepping stepping_passive
             MoreExamples.two_batches w 0 (VObj 1) [(1, VObj 2); (2, VObj 3)] 1
             eq_refl eq_refl eq_refl).
  - vm_compute. reflexivity.
  - vm_compute. reflexivity.
Defined.
